(** * A browser agent: control loop, history window, element resolution, gate

    Shallow embedding of [src/agent/browser_agent.py] (class [BrowserAgent])
    and [src/infrastructure/tools.py] (class [ToolExecutor]), with
    [src/core/models.py] for the records.

    Conventions.
    - A Python [str] is the list of its Unicode code points, so [len], slices
      and [in] mean what they mean in Python.  [lit "..."] decodes a UTF-8
      literal.
    - A Python [dict] with string keys is a [gmap str value].
    - The completion service, the browser driver and the operator console
      are outside the program: they are oracles over an abstract world [W],
      threaded through every call, and every use is recorded in a trace. *)

From Stdlib Require Import ZArith NArith QArith Bool String Ascii List Lia.
From Stdlib Require Import DecimalString DecimalPos DecimalZ.
From stdpp Require Import base option list gmap.
Import ListNotations.
Open Scope Z_scope.

(** ** Python strings *)

Definition str : Type := list N.

(** UTF-8 decoding of a literal; [fuel] bounds the number of code points. *)
Fixpoint utf8_decode (fuel : nat) (bs : list N) : str :=
  match fuel with
  | O => []
  | S fuel' =>
    match bs with
    | [] => []
    | b0 :: r0 =>
      if (b0 <? 128)%N then b0 :: utf8_decode fuel' r0
      else if (b0 <? 224)%N then
        match r0 with
        | b1 :: r1 => ((b0 - 192) * 64 + (b1 - 128))%N :: utf8_decode fuel' r1
        | _ => []
        end
      else if (b0 <? 240)%N then
        match r0 with
        | b1 :: b2 :: r2 =>
          ((b0 - 224) * 4096 + (b1 - 128) * 64 + (b2 - 128))%N
            :: utf8_decode fuel' r2
        | _ => []
        end
      else
        match r0 with
        | b1 :: b2 :: b3 :: r3 =>
          ((b0 - 240) * 262144 + (b1 - 128) * 4096 + (b2 - 128) * 64
             + (b3 - 128))%N :: utf8_decode fuel' r3
        | _ => []
        end
    end
  end.

Definition lit (s : string) : str :=
  let bs := map N_of_ascii (list_ascii_of_string s) in
  utf8_decode (length bs) bs.
Arguments lit s%_string.

Definition nl : str := [10%N].

(** [a == b] on strings. *)
Definition str_eqb (a b : str) : bool := bool_decide (a = b).

(** [not s] for a string: true on the empty string. *)
Definition str_falsy (s : str) : bool :=
  match s with [] => true | _ => false end.

(** [a or b] on strings. *)
Definition str_or (a b : str) : str := if str_falsy a then b else a.

(** [x or ""] for an [Optional[str]]. *)
Definition opt_or_empty (o : option str) : str :=
  match o with Some s => str_or s [] | None => [] end.

(** [str.lower()] on the scripts the program's keyword tables are written in:
    Basic Latin, Latin-1 and Cyrillic U+0400..U+042F.  Other code points are
    left as they are. *)
Definition lower_cp (c : N) : N :=
  if ((65 <=? c) && (c <=? 90))%N then (c + 32)%N
  else if ((192 <=? c) && (c <=? 222) && negb (c =? 215))%N then (c + 32)%N
  else if ((1024 <=? c) && (c <=? 1039))%N then (c + 80)%N
  else if ((1040 <=? c) && (c <=? 1071))%N then (c + 32)%N
  else c.

Definition lower (s : str) : str := map lower_cp s.

(** [s.startswith(p)]. *)
Fixpoint starts_with (p s : str) : bool :=
  match p, s with
  | [], _ => true
  | _ :: _, [] => false
  | a :: p', b :: s' => (a =? b)%N && starts_with p' s'
  end.

(** [needle in hay]. *)
Fixpoint contains (needle hay : str) : bool :=
  starts_with needle hay ||
  match hay with
  | [] => false
  | _ :: hay' => contains needle hay'
  end.

(** The code points [str.strip()] removes (those with [str.isspace()]). *)
Definition is_space (c : N) : bool :=
  (((9 <=? c) && (c <=? 13)) || ((28 <=? c) && (c <=? 32))
   || (c =? 133) || (c =? 160) || (c =? 5760)
   || ((8192 <=? c) && (c <=? 8202))
   || (c =? 8232) || (c =? 8233) || (c =? 8239) || (c =? 8287)
   || (c =? 12288))%N.

Fixpoint lstrip (s : str) : str :=
  match s with
  | [] => []
  | c :: s' => if is_space c then lstrip s' else s
  end.

Definition strip (s : str) : str := rev (lstrip (rev (lstrip s))).

(** [sep.join(parts)]. *)
Fixpoint join (sep : str) (parts : list str) : str :=
  match parts with
  | [] => []
  | [p] => p
  | p :: ps => p ++ sep ++ join sep ps
  end.

(** [len(s)] and the slice [s[:n]]. *)
Definition len {A} (l : list A) : Z := Z.of_nat (length l).
Definition slice_to {A} (n : Z) (l : list A) : list A := take (Z.to_nat n) l.

(** Decimal rendering of an integer, as an f-string does it. *)
Definition show_Z (z : Z) : str :=
  map N_of_ascii
    (list_ascii_of_string (DecimalString.NilZero.string_of_int (Z.to_int z))).

(** ** Exceptions and results *)

(** The exception classes the program tells apart.  [PlaywrightTimeout] is
    [playwright.sync_api.TimeoutError]; [OtherError] stands for any other
    subclass of [Exception]. *)
Inductive exn_kind :=
| KeyError | TypeError | ValueError | PlaywrightTimeout | RuntimeError
| OtherError.

Record exn := Exn { exn_kind_of : exn_kind; exn_str : str }.

Inductive result (A : Type) :=
| Ok (a : A)
| Exc (e : exn).
Arguments Ok {A} a.
Arguments Exc {A} e.

#[global] Instance exn_kind_eq_dec : EqDecision exn_kind.
Proof. solve_decision. Defined.

(** ** JSON values and dictionaries *)

(** What a tool's [input] and a result dictionary hold.  A float is the
    rational it denotes (JSON numbers are finite). *)
#[warnings="-register-all"]
Inductive value :=
| VNone
| VBool (b : bool)
| VInt (z : Z)
| VFloat (q : Q)
| VStr (s : str)
| VList (l : list value)
| VDict (d : gmap str value).

Abbreviation dict := (gmap str value).

(** [d.get(k)], [d.get(k, dflt)] and [d[k]]; [str()] of the [KeyError] is the
    key in quotes (for a key with no quote or escape in it). *)
Definition dict_get (d : dict) (k : str) : value := default VNone (d !! k).
Definition dict_get_or (d : dict) (k : str) (dflt : value) : value :=
  default dflt (d !! k).
Definition dict_item (d : dict) (k : str) : result value :=
  match d !! k with
  | Some v => Ok v
  | None => Exc (Exn KeyError (lit "'" ++ k ++ lit "'"))
  end.

(** Truth value of a Python object. *)
Definition truthy (v : value) : bool :=
  match v with
  | VNone => false
  | VBool b => b
  | VInt z => negb (z =? 0)
  | VFloat q => negb (Qeq_bool q 0)
  | VStr s => negb (str_falsy s)
  | VList l => match l with [] => false | _ => true end
  | VDict d => match map_to_list d with [] => false | _ => true end
  end.

(** [a or b]. *)
Definition py_or (a b : value) : value := if truthy a then a else b.

(** [int(s)] for a string: surrounding white space, an optional sign, then
    decimal digits with single underscores between them.  Digits of other
    scripts are not read. *)
Fixpoint parse_digits (acc : Z) (after_digit : bool) (s : str) : option Z :=
  match s with
  | [] => if after_digit then Some acc else None
  | c :: r =>
    if (c =? 95)%N then
      if after_digit then parse_digits acc false r else None
    else if ((48 <=? c) && (c <=? 57))%N then
      parse_digits (10 * acc + (Z.of_N c - 48)) true r
    else None
  end.

Definition int_of_str (s : str) : option Z :=
  match strip s with
  | c :: r =>
    if (c =? 45)%N then Z.opp <$> parse_digits 0 false r
    else if (c =? 43)%N then parse_digits 0 false r
    else parse_digits 0 false (c :: r)
  | [] => None
  end.

(** [int(v)]. *)
Definition py_int (v : value) : result Z :=
  match v with
  | VNone => Exc (Exn TypeError (lit "int() argument must be a string, a bytes-like object or a real number, not 'NoneType'"))
  | VBool b => Ok (if b then 1 else 0)
  | VInt z => Ok z
  | VFloat q => Ok (Z.quot (Qnum q) (Z.pos (Qden q)))
  | VStr s =>
    match int_of_str s with
    | Some z => Ok z
    | None => Exc (Exn ValueError (lit "invalid literal for int() with base 10"))
    end
  | VList _ => Exc (Exn TypeError (lit "int() argument must be a string, a bytes-like object or a real number, not 'list'"))
  | VDict _ => Exc (Exn TypeError (lit "int() argument must be a string, a bytes-like object or a real number, not 'dict'"))
  end.

(** ** Records of [core/models.py] *)

(** [AgentConfig], with the fields the agent reads. *)
Record AgentConfig := {
  model : str;
  task : str;
  max_iterations : Z;
  confirm_actions : bool;
  history_window : Z;
  temperature : Q;
}.

(** [DistilledElement]; [None] of an [Optional[str]] is [None] here. *)
Record DistilledElement := {
  el_id : Z;
  el_agent_id : str;
  el_tag : str;
  el_role : option str;
  el_input_type : option str;
  el_text : str;
  el_placeholder : option str;
  el_aria_label : option str;
  el_href : option str;
  el_location : str;
}.

(** ** The explicit-completion heuristic *)

Definition finish_markers : list str :=
  [ lit "задача выполнена";
    lit "задача полностью выполнена";
    lit "задача целиком выполнена";
    lit "задача решена";
    lit "цель достигнута";
    lit "цель задачи достигнута" ].

(** [BrowserAgent._should_auto_finish_from_text]. *)
Definition _should_auto_finish_from_text (text : str) : bool :=
  if str_falsy text then false
  else
    let t := lower text in
    existsb (fun m => contains m t) finish_markers.

(** ** The destructive-action gate *)

Definition dangerous_keywords : list str :=
  [ lit "оплатить"; lit "оплата"; lit "заплатить";
    lit "pay"; lit "payment"; lit "checkout"; lit "purchase";
    lit "buy now"; lit "buy"; lit "order"; lit "place order";
    lit "удалить"; lit "удаление"; lit "delete"; lit "remove";
    lit "trash"; lit "очистить"; lit "clear all"; lit "очистка";
    lit "отправить"; lit "submit"; lit "send";
    lit "публиковать"; lit "publish"; lit "post";
    lit "unsubscribe"; lit "отписаться";
    lit "архивировать"; lit "archive" ].

(** The first element of the last distillation with the given id: the loop
    [for el in last_elements: if el.id == target_id: ...; break], which is
    also [ToolExecutor._get_element]. *)
Definition _get_element (last_elements : list DistilledElement) (element_id : Z)
  : option DistilledElement :=
  find (fun el => el_id el =? element_id) last_elements.

Section Builtins.

(** [repr] of a float, a list or a dict, which [str()] falls back on. *)
Variable py_repr : value -> str.

(** [str(v)]. *)
Definition py_str (v : value) : str :=
  match v with
  | VStr s => s
  | VNone => lit "None"
  | VBool true => lit "True"
  | VBool false => lit "False"
  | VInt z => show_Z z
  | _ => py_repr v
  end.

(** The local variable [label] of [_is_potentially_destructive] at the point
    where it is tested, for a [name] that passed the first two guards. *)
Definition gate_label (last_elements : list DistilledElement)
    (name : str) (params : dict) : str :=
  if str_eqb name (lit "click_text") then
    lower (py_str (py_or (dict_get params (lit "text")) (VStr [])))
  else if str_eqb name (lit "click_element") then
    match py_int (dict_get params (lit "element_id")) with
    | Exc _ => []
    | Ok target_id =>
      match _get_element last_elements target_id with
      | Some el =>
        lower (join (lit " ")
                 [ str_or (el_text el) [];
                   opt_or_empty (el_aria_label el);
                   opt_or_empty (el_placeholder el);
                   opt_or_empty (el_href el) ])
      | None => []
      end
    end
  else [].

(** [BrowserAgent._is_potentially_destructive]. *)
Definition _is_potentially_destructive (config : AgentConfig)
    (last_elements : list DistilledElement) (name : str) (params : dict)
  : bool :=
  if negb (confirm_actions config) then false
  else if negb (str_eqb name (lit "click_element")
                || str_eqb name (lit "click_text")) then false
  else
    let label := gate_label last_elements name params in
    if str_falsy label then false
    else existsb (fun kw => contains kw label) dangerous_keywords.

End Builtins.

(** ** Conversations *)

(** A content block of a conversation turn, as [_serialize_blocks] and [run]
    build them: [{"type": "text", ...}], [{"type": "tool_use", ...}] and
    [{"type": "tool_result", ...}]. *)
Inductive block :=
| BText (text : str)
| BToolUse (id name : str) (input : dict)
| BToolResult (tool_use_id content : str).

(** The [content] of a turn: a string, or a list of blocks. *)
Inductive content :=
| CStr (s : str)
| CBlocks (blocks : list block).

Record message := Message { role : str; msg_content : content }.

(** A content block of a completion-service response; [ROther] is a block
    whose [type] is neither ["text"] nor ["tool_use"]. *)
Inductive rblock :=
| RText (text : str)
| RToolUse (id name : str) (input : dict)
| ROther (type : str).

Record response := Response {
  resp_content : list rblock;
  stop_reason : option str;
}.

(** ** The executor's tool surface *)

(** A call of a [ToolExecutor] method, with its arguments as [_dispatch_tool]
    computes them. *)
Inductive ExecCall :=
| AnalyzePage (response_format : value)
| ClickElement (element_id : Z)
| TypeText (element_id : Z) (text press_enter : value)
| ClickAndType (element_id : Z) (text press_enter : value)
| ClickText (text : value) (exact : bool)
| NavigateUrl (url : value)
| TakeScreenshot (label embed_b64 : value)
| WaitForElement (query : value) (timeout : Q)
| SearchElements (query : value) (max_results : Z)
| ValidateTaskComplete (hint : value)
| QueryDom (query : value)
| ScrollPage (direction : value) (amount : Z)
| SwitchToPage (index : Z)
| GoBack
| ExtractText (selector : value) (all_matches : bool) (max_chars : Z)
| CollectElements (selector : value) (limit : Z)
| SwitchFrame (selector : value) (index : Z)
| CloseModal.

(** ** The page, as the distillation script sees it *)

(** A DOM node the script visits, with what the script reads off it:
    [isVisible(el)] and the fields of the object it pushes. *)
Record dom_node := {
  nd_visible : bool;
  nd_tag : str;
  nd_role : option str;
  nd_input_type : option str;
  nd_text : str;
  nd_placeholder : option str;
  nd_aria_label : option str;
  nd_href : option str;
  nd_location : str;
}.

(** What the driver finds for the script: for each dialog
    ([role=dialog], [aria-modal="true"]) its interactive descendants, and the
    nodes matching the selector. *)
Record page_nodes := {
  dialogs : list (list dom_node);
  selector_nodes : list dom_node;
}.

(** How a click names its target: by the stable marker [data-agent-id], or
    by visible text ([get_by_text(text, exact=False).first]). *)
Inductive locator :=
| ByMarker (agent_id : str)
| ByText (text : str).

(** ** Events *)

(** Every use of the outside world, in the order it happens. *)
Inductive event :=
| EvLog (line : str)                          (* [self._log(line)] *)
| EvPrintToolCall (name : str) (params : dict) (* [_print_tool_call] *)
| EvPrintToolResult (r : dict)                (* [_print_tool_result] *)
| EvPrompt (name : str) (params : dict)       (* the confirmation prompt *)
| EvInput                                     (* [input()] *)
| EvMessagesCreate (messages : list message)  (* the loop's completion call *)
| EvSummaryCreate (history : list message) (prior : str)
| EvExecutor (call : ExecCall)                (* a method not modelled below *)
| EvSync                                      (* [_sync_active_page] *)
| EvClock                                     (* [time.time()] *)
| EvDistill (stamp : str)                     (* [eval_on_selector_all] *)
| EvTitle                                     (* [page.title()] *)
| EvUrl                                       (* [page.url] *)
| EvCount (agent_id : str)                    (* [locator.count()] *)
| EvClick (target : locator)                  (* [.click(timeout=5000)] *)
| EvSleep (ms : Z).                           (* [time.sleep] *)

(** ** The world *)

(** The oracles: each takes the world and returns its answer with the world
    after it.  An answer [Exc e] is the call raising [e]. *)
Record Env (W : Type) := {
  (* completion service *)
  messages_create : list message -> W -> result response * W;
  summary_create : list message -> str -> W -> result (list rblock) * W;
  (* operator console *)
  console_input : W -> result str * W;
  (* executor methods other than [analyze_page] and [click_element] *)
  executor_other :
    ExecCall -> list DistilledElement -> W
    -> result dict * list DistilledElement * W;
  (* browser driver *)
  drv_page : W -> result unit;
  drv_sync : W -> result unit * W;
  drv_clock : W -> Z * W;
  drv_distill : str -> W -> result page_nodes * W;
  drv_title : W -> result str * W;
  drv_url : W -> result str * W;
  drv_count : str -> W -> result Z * W;
  drv_click : locator -> W -> result unit * W;
  (* library functions taken as given *)
  py_repr : value -> str;
  json_dumps : value -> str;
  float_of_str : str -> option Q;
}.
Arguments messages_create {W}.
Arguments summary_create {W}.
Arguments console_input {W}.
Arguments executor_other {W}.
Arguments drv_page {W}.
Arguments drv_sync {W}.
Arguments drv_clock {W}.
Arguments drv_distill {W}.
Arguments drv_title {W}.
Arguments drv_url {W}.
Arguments drv_count {W}.
Arguments drv_click {W}.
Arguments py_repr {W}.
Arguments json_dumps {W}.
Arguments float_of_str {W}.

(** The program's state: the world, the trace, and the mutable attributes
    [executor.last_elements], [self.summary], [self._finished] and
    [self._printed_header]. *)
Record state (W : Type) := State {
  world : W;
  trace : list event;
  last_elements : list DistilledElement;
  summary : str;
  finished : bool;
  printed_header : bool;
}.
Arguments State {W}.
Arguments world {W}.
Arguments trace {W}.
Arguments last_elements {W}.
Arguments summary {W}.
Arguments finished {W}.
Arguments printed_header {W}.

(** ** A state and exception monad *)

Definition M (W A : Type) : Type := state W -> result A * state W.

Definition ret {W A} (a : A) : M W A := fun st => (Ok a, st).
Definition raise {W A} (e : exn) : M W A := fun st => (Exc e, st).
Definition bind {W A B} (m : M W A) (k : A -> M W B) : M W B :=
  fun st =>
    match m st with
    | (Ok a, st') => k a st'
    | (Exc e, st') => (Exc e, st')
    end.

(** [try: m  except Exception as e: h e]. *)
Definition try_catch {W A} (m : M W A) (h : exn -> M W A) : M W A :=
  fun st =>
    match m st with
    | (Ok a, st') => (Ok a, st')
    | (Exc e, st') => h e st'
    end.

Notation "'let*' x ':=' m 'in' k" := (bind m (fun x => k))
  (at level 10, x name, m at level 100, k at level 200).
Notation "m ';;' k" := (bind m (fun _ => k))
  (at level 100, k at level 200, right associativity).

Definition lift_result {W A} (r : result A) : M W A :=
  fun st => (r, st).

Definition emit {W} (e : event) : M W unit :=
  fun st =>
    (Ok tt, State (world st) (trace st ++ [e]) (last_elements st) (summary st)
                  (finished st) (printed_header st)).

(** An oracle call, recorded as [e]. *)
Definition ask {W A} (e : event) (f : W -> result A * W) : M W A :=
  fun st =>
    let '(r, w') := f (world st) in
    (r, State w' (trace st ++ [e]) (last_elements st) (summary st)
              (finished st) (printed_header st)).

Definition get_last_elements {W} : M W (list DistilledElement) :=
  fun st => (Ok (last_elements st), st).
Definition set_last_elements {W} (els : list DistilledElement) : M W unit :=
  fun st =>
    (Ok tt, State (world st) (trace st) els (summary st) (finished st)
                  (printed_header st)).
Definition get_summary {W} : M W str := fun st => (Ok (summary st), st).
Definition set_summary {W} (s : str) : M W unit :=
  fun st =>
    (Ok tt, State (world st) (trace st) (last_elements st) s (finished st)
                  (printed_header st)).
Definition set_finished {W} (b : bool) : M W unit :=
  fun st =>
    (Ok tt, State (world st) (trace st) (last_elements st) (summary st) b
                  (printed_header st)).
Definition get_printed_header {W} : M W bool :=
  fun st => (Ok (printed_header st), st).
Definition set_printed_header {W} (b : bool) : M W unit :=
  fun st =>
    (Ok tt, State (world st) (trace st) (last_elements st) (summary st)
                  (finished st) b).

(** [self._log(msg)]. *)
Definition _log {W} (msg : str) : M W unit := emit (EvLog msg).

(** ** [ToolExecutor]: result envelopes *)

Definition opt_value (o : option str) : value :=
  match o with Some s => VStr s | None => VNone end.
Definition opt_dict (o : option dict) : value :=
  match o with Some d => VDict d | None => VNone end.

(** [ToolExecutor._result]: the envelope with its seven keys. *)
Definition _result (success : bool) (action message : str)
    (error_type error suggestion : option str) (data : option dict) : dict :=
  <[lit "success" := VBool success]>
  (<[lit "action" := VStr action]>
  (<[lit "message" := VStr message]>
  (<[lit "error_type" := opt_value error_type]>
  (<[lit "error" := opt_value error]>
  (<[lit "suggestion" := opt_value suggestion]>
  (<[lit "data" := opt_dict data]> ∅)))))).

(** ** [ToolExecutor.analyze_page]: the distillation script *)

(** The object the script pushes for a visible node. *)
Definition distilled_of (agent_id : str) (idx : Z) (el : dom_node)
  : DistilledElement :=
  {| el_id := idx;
     el_agent_id := agent_id;
     el_tag := nd_tag el;
     el_role := nd_role el;
     el_input_type := nd_input_type el;
     el_text := nd_text el;
     el_placeholder := nd_placeholder el;
     el_aria_label := nd_aria_label el;
     el_href := nd_href el;
     el_location := nd_location el |}.

(** The script's loop [for (const el of allNodes)], with its counter [id]
    and its array [distilled]; the objects carry no [id] yet ([el_id] is
    filled in by [enumerate] below, 0 here). *)
Fixpoint distill_loop (stamp : str) (allNodes : list dom_node) (id : Z)
    (distilled : list DistilledElement) : list DistilledElement :=
  match allNodes with
  | [] => distilled
  | el :: rest =>
    if negb (nd_visible el) then distill_loop stamp rest id distilled
    else
      let agentId := stamp ++ lit "-" ++ show_Z id in
      let distilled' := distilled ++ [distilled_of agentId 0 el] in
      if 200 <=? len distilled' then distilled'
      else distill_loop stamp rest (id + 1) distilled'
  end.

(** The script: dialogs' nodes first when there is a dialog. *)
Definition distill_script (stamp : str) (p : page_nodes)
  : list DistilledElement :=
  let dialogNodes := concat (dialogs p) in
  let pageNodes := selector_nodes p in
  let allNodes :=
    match dialogs p with
    | [] => pageNodes
    | _ :: _ => dialogNodes ++ pageNodes
    end in
  distill_loop stamp allNodes 0 [].

(** [for idx, raw in enumerate(raw_elements): elements.append(
    DistilledElement(id=idx, ...))], counting from [idx]. *)
Fixpoint enumerate_elements (idx : Z) (raw_elements : list DistilledElement)
  : list DistilledElement :=
  match raw_elements with
  | [] => []
  | raw :: rest =>
    {| el_id := idx;
       el_agent_id := el_agent_id raw;
       el_tag := el_tag raw;
       el_role := el_role raw;
       el_input_type := el_input_type raw;
       el_text := el_text raw;
       el_placeholder := el_placeholder raw;
       el_aria_label := el_aria_label raw;
       el_href := el_href raw;
       el_location := el_location raw |}
    :: enumerate_elements (idx + 1) rest
  end.

(** The entries of [condensed]. *)
Definition opt_or (a b : option str) : option str :=
  match a with
  | Some s => if str_falsy s then b else a
  | None => b
  end.

Definition condensed_concise (el : DistilledElement) : value :=
  VDict
    (<[lit "id" := VInt (el_id el)]>
    (<[lit "type" := opt_value (opt_or (el_input_type el) (Some (el_tag el)))]>
    (<[lit "text" :=
         opt_value (opt_or (opt_or (Some (el_text el)) (el_aria_label el))
                           (el_placeholder el))]>
    (<[lit "location" := VStr (el_location el)]> ∅)))).

Definition condensed_detailed (el : DistilledElement) : value :=
  VDict
    (<[lit "id" := VInt (el_id el)]>
    (<[lit "type" := opt_value (opt_or (el_input_type el) (Some (el_tag el)))]>
    (<[lit "text" := VStr (el_text el)]>
    (<[lit "placeholder" := opt_value (el_placeholder el)]>
    (<[lit "aria_label" := opt_value (el_aria_label el)]>
    (<[lit "href" := opt_value (el_href el)]>
    (<[lit "location" := VStr (el_location el)]> ∅))))))).

(** [v == s] for a value and a string literal. *)
Definition value_is_str (v : value) (s : str) : bool :=
  match v with VStr t => str_eqb t s | _ => false end.

Section Program.

Context {W : Type} (env : Env W).

(** [_sync_active_page], [self.page.title()], [self.page.url]. *)
Definition _sync_active_page : M W unit := ask EvSync (drv_sync env).
Definition page_title : M W str := ask EvTitle (drv_title env).
Definition page_url : M W str := ask EvUrl (drv_url env).

(** [ToolExecutor.analyze_page]. *)
Definition analyze_page (response_format : value) : M W dict :=
  _sync_active_page ;;
  let* now := ask EvClock (fun w => let '(t, w') := drv_clock env w in (Ok t, w')) in
  let stamp := show_Z now in
  let* raw :=
    try_catch
      (let* nodes := ask (EvDistill stamp) (drv_distill env stamp) in
       ret (Ok (distill_script stamp nodes)))
      (fun exc => ret (Exc exc)) in
  match raw with
  | Exc exc =>
    ret (_result false (lit "analyze_page") (lit "Failed to analyze page")
           (Some (lit "AnalysisError")) (Some (exn_str exc))
           (Some (lit "Try: 1) wait_for_element(); 2) close_modal(); 3) analyze_page() again."))
           None)
  | Ok raw_elements =>
    let elements := enumerate_elements 0 raw_elements in
    set_last_elements elements ;;
    let condensed :=
      if value_is_str response_format (lit "concise")
      then map condensed_concise (take 20 elements)
      else map condensed_detailed elements in
    let* title := page_title in
    let* url := page_url in
    ret (_result true (lit "analyze_page")
           (lit "Distilled " ++ show_Z (len elements) ++ lit " elements")
           None None None
           (Some (<[lit "page_title" := VStr title]>
                 (<[lit "url" := VStr url]>
                 (<[lit "elements" := VList condensed]>
                 (<[lit "note" :=
                      VStr (show_Z (len elements)
                            ++ lit " elements distilled. Use click_element(id) / type_text(id, text).")]>
                  ∅))))))
  end.

(** The local function [_ok] of [click_element]. *)
Definition click_ok (element_id : Z) (msg_suffix : str) : M W dict :=
  emit (EvSleep 800) ;;
  _sync_active_page ;;
  let* url := page_url in
  ret (_result true (lit "click_element")
         (lit "Clicked element " ++ show_Z element_id ++ msg_suffix)
         None None None
         (Some (<[lit "url" := VStr url]>
               (<[lit "element_id" := VInt element_id]> ∅)))).

Definition click (target : locator) : M W unit :=
  ask (EvClick target) (drv_click env target).

(** [ToolExecutor.click_element]. *)
Definition click_element (element_id : Z) : M W dict :=
  let* els := get_last_elements in
  match _get_element els element_id with
  | None =>
    ret (_result false (lit "click_element") (lit "Unknown element ID")
           (Some (lit "ElementNotFound"))
           (Some (lit "Unknown element ID. Call analyze_page() first."))
           (Some (lit "Call analyze_page() to refresh IDs, then retry with the new ID."))
           None)
  | Some element =>
    (* [self.page.locator(agent_selector)], before the [try] *)
    (fun st => (drv_page env (world st), st)) ;;
    let text := strip (str_or (el_text element) []) in
    try_catch
      (let* n := ask (EvCount (el_agent_id element))
                     (drv_count env (el_agent_id element)) in
       if n =? 0 then
         let* snapshot := analyze_page (VStr (lit "detailed")) in
         if negb (truthy (dict_get snapshot (lit "success"))) then
           ret (_result false (lit "click_element")
                  (lit "Element disappeared and re-analyze_page() failed")
                  (Some (lit "ClickError")) None
                  (Some (lit "Try analyze_page() manually and use search_elements()/click_text()."))
                  None)
         else if negb (str_falsy text) then
           let* fresh := get_last_elements in
           match find (fun el => str_eqb (strip (str_or (el_text el) [])) text)
                      fresh with
           | Some el =>
             click (ByMarker (el_agent_id el)) ;;
             click_ok element_id (lit " (via refreshed agent-id)")
           | None =>
             try_catch
               (click (ByText text) ;;
                click_ok element_id (lit " (via text fallback)"))
               (fun exc2 =>
                  ret (_result false (lit "click_element")
                         (lit "Failed to click element by text '" ++ text ++ lit "'")
                         (Some (lit "ClickError")) (Some (exn_str exc2))
                         (Some (lit "Try scroll_page()/close_modal(), then analyze_page() and click_text() manually."))
                         None))
           end
         else
           ret (_result false (lit "click_element")
                  (lit "Element disappeared and has no stable text to match")
                  (Some (lit "ElementNotFound")) None
                  (Some (lit "Run analyze_page() again and choose element by new ID."))
                  None)
       else
         click (ByMarker (el_agent_id element)) ;;
         click_ok element_id [])
      (fun exc =>
         if decide (exn_kind_of exc = PlaywrightTimeout) then
           if negb (str_falsy text) then
             try_catch
               (click (ByText text) ;;
                click_ok element_id (lit " (via text fallback after timeout)"))
               (fun exc2 =>
                  ret (_result false (lit "click_element")
                         (lit "Timeout clicking element (id & text fallback failed)")
                         (Some (lit "Timeout"))
                         (Some (exn_str exc ++ lit "; text_fallback_error=" ++ exn_str exc2))
                         (Some (lit "Try scroll_page()/close_modal(), then analyze_page() and click_text()."))
                         None))
           else
             ret (_result false (lit "click_element")
                    (lit "Timeout clicking element")
                    (Some (lit "Timeout")) (Some (exn_str exc))
                    (Some (lit "Try: 1) scroll_page(); 2) close_modal(); 3) analyze_page() and use click_text()."))
                    None)
         else
           ret (_result false (lit "click_element")
                  (lit "Failed to click element")
                  (Some (lit "ClickError")) (Some (exn_str exc))
                  (Some (lit "Try: 1) scroll_page(); 2) close_modal(); 3) analyze_page() and retry click_element."))
                  None))
  end.

(** ** [BrowserAgent]: the history manager *)

Variable config : AgentConfig.

(** [[blk.text for blk in content if blk.type == "text"]]. *)
Definition text_parts (content : list rblock) : list str :=
  omap (fun blk => match blk with RText t => Some t | _ => None end) content.

(** [BrowserAgent._summarize_history].  The body of the [try] is one call
    of the completion service; whatever it raises is caught. *)
Definition _summarize_history (history : list message) (prior_summary : str)
  : M W str :=
  try_catch
    (let* content :=
       ask (EvSummaryCreate history prior_summary)
           (summary_create env history prior_summary) in
     let parts := text_parts content in
     let new_summary := strip (join nl parts) in
     ret (str_or new_summary prior_summary))
    (fun _ => ret prior_summary).

Definition is_tool_result (blk : block) : bool :=
  match blk with BToolResult _ _ => true | _ => false end.
Definition is_tool_use (blk : block) : bool :=
  match blk with BToolUse _ _ _ => true | _ => false end.

(** [is_tool_result_msg] and [has_tool_use] of the repair loop. *)
Definition is_tool_result_msg (msg : message) : bool :=
  match msg_content msg with
  | CBlocks blocks => existsb is_tool_result blocks
  | CStr _ => false
  end.
Definition has_tool_use (msg : message) : bool :=
  match msg_content msg with
  | CBlocks blocks => existsb is_tool_use blocks
  | CStr _ => false
  end.

(** The repair loop [for msg in pruned], returning what it appends to
    [cleaned]; [prev] is the last turn kept. *)
Fixpoint repair (prev : option message) (pruned : list message)
  : list message :=
  match pruned with
  | [] => []
  | msg :: rest =>
    if is_tool_result_msg msg then
      match prev with
      | None => repair prev rest
      | Some p =>
        if negb (str_eqb (role p) (lit "assistant")) then repair prev rest
        else if negb (has_tool_use p) then repair prev rest
        else msg :: repair (Some msg) rest
      end
    else msg :: repair (Some msg) rest
  end.

Definition window : Z := Z.max 3 (history_window config).

Definition summary_block (s : str) : message :=
  Message (lit "assistant") (CBlocks [BText (lit "[Сводка]" ++ nl ++ s)]).

(** [BrowserAgent._apply_history_window]. *)
Definition _apply_history_window (messages : list message)
  : M W (list message) :=
  if len messages <=? window then ret messages
  else
    match messages with
    | [] => ret messages
    | first :: rest =>
      if len rest <=? window then ret messages
      else
        let older := slice_to (len rest - window) rest in
        let recent := drop (Z.to_nat (len rest - window)) rest in
        let* prior := get_summary in
        let* s := _summarize_history older prior in
        set_summary s ;;
        let pruned := [first; summary_block s] ++ recent in
        ret (repair None pruned)
    end.

(** ** [BrowserAgent]: dispatch *)

(** [float(v)]. *)
Definition py_float (v : value) : result Q :=
  match v with
  | VBool b => Ok (if b then 1%Q else 0%Q)
  | VInt z => Ok (inject_Z z)
  | VFloat q => Ok q
  | VStr s =>
    match float_of_str env s with
    | Some q => Ok q
    | None => Exc (Exn ValueError (lit "could not convert string to float"))
    end
  | _ => Exc (Exn TypeError (lit "float() argument must be a string or a real number"))
  end.

(** A call of an executor method. *)
Definition executor (call : ExecCall) : M W dict :=
  match call with
  | AnalyzePage response_format => analyze_page response_format
  | ClickElement element_id => click_element element_id
  | _ =>
    fun st =>
      let '(r, els, w') := executor_other env call (last_elements st) (world st) in
      (r, State w' (trace st ++ [EvExecutor call]) els (summary st)
                (finished st) (printed_header st))
  end.

Definition item (params : dict) (k : str) : M W value :=
  lift_result (dict_item params k).
Definition int_item (params : dict) (k : str) : M W Z :=
  let* v := item params k in lift_result (py_int v).
Definition int_get (params : dict) (k : str) (dflt : Z) : M W Z :=
  lift_result (py_int (dict_get_or params k (VInt dflt))).

(** [name == "..."]. *)
Definition name_is (name : str) (n : string) : bool := str_eqb name (lit n).
Arguments name_is name n%_string.

(** The answers the gate takes as a yes. *)
Definition affirmative (ans : str) : bool :=
  str_eqb ans (lit "y") || str_eqb ans (lit "yes")
  || str_eqb ans (lit "д") || str_eqb ans (lit "да").

Definition cancelled (name : str) (params : dict) : dict :=
  <[lit "success" := VBool false]>
  (<[lit "action" := VStr name]>
  (<[lit "message" := VStr (lit "Action cancelled by user")]>
  (<[lit "error_type" := VStr (lit "UserCancelled")]>
  (<[lit "data" := VDict (<[lit "params" := VDict params]> ∅)]> ∅)))).

Definition unknown_tool (name : str) : dict :=
  <[lit "error" := VStr (lit "Unknown tool '" ++ name ++ lit "'")]> ∅.

(** The chain of [if name == ...] of [_dispatch_tool], after the gate. *)
Definition dispatch_chain (name : str) (params : dict) : M W dict :=
  if name_is name "analyze_page" then
    executor (AnalyzePage
                (dict_get_or params (lit "response_format") (VStr (lit "concise"))))
  else if name_is name "click_element" then
    let* id := int_item params (lit "element_id") in
    executor (ClickElement id)
  else if name_is name "type_text" then
    let* id := int_item params (lit "element_id") in
    let* text := item params (lit "text") in
    executor (TypeText id text (dict_get_or params (lit "press_enter") (VBool false)))
  else if name_is name "click_and_type" then
    let* id := int_item params (lit "element_id") in
    let* text := item params (lit "text") in
    executor (ClickAndType id text (dict_get_or params (lit "press_enter") (VBool true)))
  else if name_is name "click_text" then
    let* text := item params (lit "text") in
    executor (ClickText text (truthy (dict_get_or params (lit "exact") (VBool false))))
  else if name_is name "navigate_url" then
    let* url := item params (lit "url") in
    executor (NavigateUrl url)
  else if name_is name "take_screenshot" then
    executor (TakeScreenshot (dict_get params (lit "label"))
                (dict_get_or params (lit "embed_b64") (VBool false)))
  else if name_is name "wait_for_element" then
    let* query := item params (lit "query") in
    let* timeout :=
      lift_result (py_float (dict_get_or params (lit "timeout") (VInt 5))) in
    executor (WaitForElement query timeout)
  else if name_is name "search_elements" then
    let* query := item params (lit "query") in
    let* n := int_get params (lit "max_results") 5 in
    executor (SearchElements query n)
  else if name_is name "validate_task_complete" then
    executor (ValidateTaskComplete (dict_get params (lit "hint")))
  else if name_is name "query_dom" then
    let* query := item params (lit "query") in
    executor (QueryDom query)
  else if name_is name "finish_task" then
    let summary := dict_get_or params (lit "summary") (VStr []) in
    set_finished true ;;
    _log (nl ++ lit "=== ЗАДАЧА ЗАВЕРШЕНА ===") ;;
    _log (py_str (py_repr env) summary) ;;
    ret (<[lit "success" := VBool true]>
        (<[lit "action" := VStr (lit "finish_task")]>
        (<[lit "message" := VStr (lit "Task finished")]>
        (<[lit "data" := VDict (<[lit "summary" := summary]> ∅)]> ∅))))
  else if name_is name "scroll_page" then
    let* amount := int_get params (lit "amount") 800 in
    executor (ScrollPage (dict_get_or params (lit "direction") (VStr (lit "down")))
                amount)
  else if name_is name "switch_to_page" then
    let* index := int_get params (lit "index") (-1) in
    executor (SwitchToPage index)
  else if name_is name "go_back" then executor GoBack
  else if name_is name "extract_text" then
    let* selector := item params (lit "selector") in
    let all_matches := truthy (dict_get_or params (lit "all_matches") (VBool false)) in
    let* max_chars := int_get params (lit "max_chars") 4000 in
    executor (ExtractText selector all_matches max_chars)
  else if name_is name "collect_elements" then
    let* selector := item params (lit "selector") in
    let* limit := int_get params (lit "limit") 20 in
    executor (CollectElements selector limit)
  else if name_is name "switch_frame" then
    let selector := dict_get params (lit "selector") in
    let* idx := int_get params (lit "index") 0 in
    executor (SwitchFrame selector idx)
  else if name_is name "close_modal" then executor CloseModal
  else ret (unknown_tool name).

(** [BrowserAgent._dispatch_tool]. *)
Definition _dispatch_tool (name : str) (params : dict) : M W dict :=
  let* els := get_last_elements in
  if _is_potentially_destructive (py_repr env) config els name params then
    emit (EvPrompt name params) ;;
    let* line := ask EvInput (console_input env) in
    let ans := lower (strip line) in
    if negb (affirmative ans) then ret (cancelled name params)
    else dispatch_chain name params
  else dispatch_chain name params.

(** ** [BrowserAgent]: the loop *)

(** [BrowserAgent._serialize_blocks]. *)
Definition _serialize_blocks (blocks : list rblock) : list block :=
  omap (fun blk =>
          match blk with
          | RText text => Some (BText text)
          | RToolUse id name input => Some (BToolUse id name input)
          | ROther _ => None
          end) blocks.

(** [BrowserAgent._truncate_content]. *)
Definition _truncate_content (s : str) (max_len : Z) : str :=
  if len s <=? max_len then s
  else slice_to max_len s ++ lit "...<truncated>".

(** [BrowserAgent._print_assistant_text]. *)
Definition _print_assistant_text (text : str) : M W unit :=
  let shown := strip (str_or text []) in
  let shown :=
    if 800 <? len shown then slice_to 800 shown ++ lit "...<truncated>"
    else shown in
  _log (nl ++ lit "Assistant: " ++ shown).

(** [BrowserAgent._print_user_header]. *)
Definition _print_user_header (task : str) : M W unit :=
  let* printed := get_printed_header in
  if printed then ret tt
  else _log (lit "You: " ++ task) ;; set_printed_header true.

(** What is fed back for a tool's result: the envelope, without the image
    of a screenshot. *)
Definition payload_of (name : str) (r : dict) : dict :=
  if name_is name "take_screenshot" then
    match r !! lit "data" with
    | Some (VDict data) =>
      if truthy (dict_get data (lit "base64_png"))
      then <[lit "data" := VDict (delete (lit "base64_png") data)]> r
      else r
    | _ => r
    end
  else r.

(** How the body of the loop leaves an iteration. *)
Inductive flow :=
| Continue          (* on to the next iteration *)
| ReturnByText      (* [return] after an auto-finish phrase *)
| ReturnByFinish    (* [return] after [finish_task] *)
| BreakEndTurn.     (* [break] on [stop_reason == "end_turn"] *)

(** The loop [for block in response.content], from [blocks] on, with
    [tool_results] so far: a [return] taken, or the final [tool_results]. *)
Fixpoint process_blocks (blocks : list rblock) (tool_results : list block)
  : M W (flow + list block) :=
  match blocks with
  | [] => ret (inr tool_results)
  | RText text :: rest =>
    _print_assistant_text text ;;
    if _should_auto_finish_from_text text then
      let s := _truncate_content (strip text) 800 in
      set_summary s ;;
      _log (nl ++ lit "=== ЗАДАЧА ЗАВЕРШЕНА (по тексту агента) ===") ;;
      _log s ;;
      ret (inl ReturnByText)
    else process_blocks rest tool_results
  | RToolUse id name input :: rest =>
    emit (EvPrintToolCall name input) ;;
    let* r := _dispatch_tool name input in
    if name_is name "finish_task" then
      _log (lit "Агент завершил задачу через finish_task.") ;;
      emit (EvPrintToolResult r) ;;
      ret (inl ReturnByFinish)
    else
      let content_str :=
        _truncate_content (json_dumps env (VDict (payload_of name r))) 4000 in
      emit (EvPrintToolResult r) ;;
      process_blocks rest (tool_results ++ [BToolResult id content_str])
  | ROther _ :: rest => process_blocks rest tool_results
  end.

(** The line logged at the head of an iteration. *)
Definition iteration_header (iteration : Z) : str :=
  nl ++ lit "==== Итерация " ++ show_Z iteration ++ lit "/"
     ++ show_Z (max_iterations config) ++ lit " ====".

(** The body of [for iteration in range(1, max_iterations + 1)]: how it
    leaves the iteration, and [messages] after it. *)
Definition run_iteration (iteration : Z) (messages : list message)
  : M W (flow * list message) :=
  _log (iteration_header iteration) ;;
  let* response :=
    ask (EvMessagesCreate messages) (messages_create env messages) in
  let messages :=
    messages ++ [Message (lit "assistant")
                   (CBlocks (_serialize_blocks (resp_content response)))] in
  let* r := process_blocks (resp_content response) [] in
  match r with
  | inl fl => ret (fl, messages)
  | inr tool_results =>
    match tool_results with
    | _ :: _ =>
      let messages := messages ++ [Message (lit "user") (CBlocks tool_results)] in
      let* messages := _apply_history_window messages in
      ret (Continue, messages)
    | [] =>
      if bool_decide (stop_reason response = Some (lit "end_turn")) then
        _log (lit "Агент завершил разговор.") ;;
        ret (BreakEndTurn, messages)
      else
        let* messages := _apply_history_window messages in
        ret (Continue, messages)
    end
  end.

(** How [run] ends when it does not raise. *)
Inductive outcome :=
| FinishedByText
| FinishedByTool
| EndOfTurn
| NotCompleted.     (* the [else] of the [for] *)

(** The [for ... else] of [run], with [n] iterations left, the next one
    numbered [iteration]. *)
Fixpoint run_loop (n : nat) (iteration : Z) (messages : list message)
  : M W outcome :=
  match n with
  | O =>
    _log (lit "Max iterations reached without explicit completion.") ;;
    ret NotCompleted
  | S n' =>
    let* r := run_iteration iteration messages in
    match fst r with
    | Continue => run_loop n' (iteration + 1) (snd r)
    | ReturnByText => ret FinishedByText
    | ReturnByFinish => ret FinishedByTool
    | BreakEndTurn => ret EndOfTurn
    end
  end.

(** [BrowserAgent.run]. *)
Definition run : M W outcome :=
  let messages := [Message (lit "user") (CStr (task config))] in
  _print_user_header (task config) ;;
  run_loop (Z.to_nat (max_iterations config)) 1 messages.

(** *** Vocabulary for statements about the history manager *)

(** The summary call failed, or its answer has no text. *)
Definition summary_call_fails (history : list message) (prior : str) (w : W)
  : Prop :=
  (exists e w', summary_create env history prior w = (Exc e, w'))
  \/ (exists content w',
         summary_create env history prior w = (Ok content, w')
         /\ strip (join nl (text_parts content)) = []).

(** [n] applications in a row. *)
Fixpoint apply_repeatedly (n : nat) (messages : list message) (st : state W)
  : list message * state W :=
  match n with
  | O => (messages, st)
  | S n' =>
    match _apply_history_window messages st with
    | (Ok messages', st') => apply_repeatedly n' messages' st'
    | (Exc _, st') => (messages, st')
    end
  end.

(** *** Vocabulary for statements about [click_element] *)

(** The state in which [click_element] re-distils: the state after
    [locator.count()] answered. *)
Definition counted (st : state W) (agent_id : str) (w1 : W) : state W :=
  State w1 (trace st ++ [EvCount agent_id]) (last_elements st) (summary st)
        (finished st) (printed_header st).

(** *** Vocabulary for statements about the loop *)

(** The state in which [run] enters its loop, and the first turn. *)
Definition started (st : state W) : state W :=
  snd (_print_user_header (task config) st).
Definition first_turn : message := Message (lit "user") (CStr (task config)).

(** The state in which the blocks of iteration [iteration] are processed,
    when the completion service left the world [w']. *)
Definition answered (iteration : Z) (messages : list message) (st : state W)
    (w' : W) : state W :=
  State w'
    (trace st ++ [EvLog (iteration_header iteration); EvMessagesCreate messages])
    (last_elements st) (summary st) (finished st) (printed_header st).

(** [k] iterations in a row, numbered from [iteration], each of which ends
    without a [return], a [break] or an exception: the conversation and the
    state they leave. *)
Fixpoint iterations (k : nat) (iteration : Z) (messages : list message)
    (st : state W) : option (list message * state W) :=
  match k with
  | O => Some (messages, st)
  | S k' =>
    match run_iteration iteration messages st with
    | (Ok (Continue, messages'), st') =>
      iterations k' (iteration + 1) messages' st'
    | _ => None
    end
  end.

(** How [run] ends after a [return] or a [break]. *)
Definition outcome_of (fl : flow) : outcome :=
  match fl with
  | ReturnByText => FinishedByText
  | ReturnByFinish => FinishedByTool
  | BreakEndTurn => EndOfTurn
  | Continue => NotCompleted
  end.

End Program.


(** ** Predicates on traces *)

(** [m] only extends the trace, by events satisfying [P]. *)
Definition emits {W A} (P : event -> Prop) (m : M W A) : Prop :=
  forall st r st',
    m st = (r, st') ->
    exists evs, trace st' = trace st ++ evs /\ Forall P evs.

(** Events other than a click. *)
Definition not_click (e : event) : Prop :=
  match e with EvClick _ => False | _ => True end.

(** Events other than the confirmation prompt and its answer. *)
Definition not_console (e : event) : Prop :=
  match e with EvPrompt _ _ | EvInput => False | _ => True end.

(** ** Sample data and scripted worlds *)

(** *** The gate at concrete clicks *)

Definition confirming : AgentConfig :=
  {| model := lit "claude-sonnet-4-5-20250929"; task := lit "купи футболку";
     max_iterations := 50; confirm_actions := true; history_window := 7;
     temperature := 0 |}.

Definition no_repr : value -> str := fun _ => [].

Definition pay_button : DistilledElement :=
  {| el_id := 0; el_agent_id := lit "1730000000000-0"; el_tag := lit "button";
     el_role := None; el_input_type := Some (lit "submit");
     el_text := lit "Оплатить заказ"; el_placeholder := None;
     el_aria_label := None; el_href := None; el_location := lit "10x20" |}.

(** A pager button: its only field is its text. *)
Definition next_button : DistilledElement :=
  {| el_id := 2; el_agent_id := lit "1730000000000-2"; el_tag := lit "button";
     el_role := None; el_input_type := None; el_text := lit "Next page";
     el_placeholder := None; el_aria_label := None; el_href := None;
     el_location := lit "50x20" |}.

(** An element with no text, label, placeholder or link. *)
Definition blank_element : DistilledElement :=
  {| el_id := 1; el_agent_id := lit "1730000000000-1"; el_tag := lit "button";
     el_role := None; el_input_type := None; el_text := [];
     el_placeholder := None; el_aria_label := None; el_href := None;
     el_location := lit "30x20" |}.

Definition click_text_params (text : string) : dict :=
  <[lit "text" := VStr (lit text)]> ∅.
Arguments click_text_params text%_string.

Definition click_element_params (element_id : Z) : dict :=
  <[lit "element_id" := VInt element_id]> ∅.

(** ** Scripted worlds *)

(** A world with no memory whose oracles answer from a script: the
    completion service as a function of the conversation, and one fixed
    answer each for the summary call, the console, [locator.count()] and
    the nodes the script finds.  Everything else succeeds. *)
Record script := {
  sc_reply : list message -> result response;
  sc_summary : result (list rblock);
  sc_answer : result str;
  sc_count : result Z;
  sc_nodes : result page_nodes;
}.

Definition scripted (s : script) : Env unit :=
  {| messages_create := fun messages w => (sc_reply s messages, w);
     summary_create := fun _ _ w => (sc_summary s, w);
     console_input := fun w => (sc_answer s, w);
     executor_other := fun call els w =>
       (Ok (_result true (lit "tool") (lit "done") None None None None), els, w);
     drv_page := fun _ => Ok tt;
     drv_sync := fun w => (Ok tt, w);
     drv_clock := fun w => (1730000000000, w);
     drv_distill := fun _ w => (sc_nodes s, w);
     drv_title := fun w => (Ok (lit "Shop"), w);
     drv_url := fun w => (Ok (lit "https://shop.example/cart"), w);
     drv_count := fun _ w => (sc_count s, w);
     drv_click := fun _ w => (Ok tt, w);
     py_repr := no_repr;
     json_dumps := fun _ => lit "{}";
     float_of_str := fun _ => None |}.

Definition initial (els : list DistilledElement) : state unit :=
  State tt [] els [] false false.

Definition service_down : exn := Exn OtherError (lit "Connection error.").

Definition node (visible : bool) (tag text : string) : dom_node :=
  {| nd_visible := visible; nd_tag := lit tag; nd_role := None;
     nd_input_type := None; nd_text := lit text; nd_placeholder := None;
     nd_aria_label := None; nd_href := None; nd_location := lit "0x0" |}.
Arguments node visible (tag text)%_string.

Definition cart_page : page_nodes :=
  {| dialogs := [];
     selector_nodes :=
       [ node true "button" "Add to cart"; node false "a" "hidden link";
         node true "a" "Cart" ] |}.

Definition silent (nodes : result page_nodes) (count : result Z) : script :=
  {| sc_reply := fun _ => Exc service_down;
     sc_summary := Exc service_down;
     sc_answer := Ok (lit "n");
     sc_count := count;
     sc_nodes := nodes |}.

(** *** The history manager at a concrete conversation *)

Definition windowed : AgentConfig :=
  {| model := lit "claude-sonnet-4-5-20250929";
     task := lit "добавь футболку в корзину, оплату не производи";
     max_iterations := 50; confirm_actions := false; history_window := 3;
     temperature := 0 |}.

Definition task_turn : message := Message (lit "user") (CStr (task windowed)).

Definition uses (id : string) : message :=
  Message (lit "assistant") (CBlocks [BToolUse (lit id) (lit "analyze_page") ∅]).
Arguments uses id%_string.

Definition answers (id : string) : message :=
  Message (lit "user") (CBlocks [BToolResult (lit id) (lit "{}")]).
Arguments answers id%_string.

(** The conversation [run] holds after two iterations with one tool each. *)
Definition five_turns : list message :=
  [task_turn; uses "t1"; answers "t1"; uses "t2"; answers "t2"].

Definition offline : Env unit := scripted (silent (Ok cart_page) (Ok 1)).

(** *** [click_element] at a vanished element with no text *)

(** The marker is gone and the page cannot be distilled again. *)
Definition vanished_unreadable : Env unit :=
  scripted (silent (Exc service_down) (Ok 0)).

(** The marker is gone and the page distils again. *)
Definition vanished : Env unit := scripted (silent (Ok cart_page) (Ok 0)).

(** *** The loop in scripted worlds *)

Definition finish_input : dict :=
  <[lit "summary" := VStr (lit "товар добавлен в корзину")]> ∅.

Definition finish_block : rblock :=
  RToolUse (lit "toolu_02") (lit "finish_task") finish_input.

(** A remark, then [finish_task]. *)
Definition reply_finish : response :=
  Response [RText (lit "Товар в корзине, завершаю."); finish_block]
           (Some (lit "tool_use")).

(** A [click_element] with no [element_id], then [finish_task]. *)
Definition reply_broken_click : response :=
  Response [RToolUse (lit "toolu_01") (lit "click_element") ∅; finish_block]
           (Some (lit "tool_use")).

(** A remark cut off by the token limit. *)
Definition reply_thinking : response :=
  Response [RText (lit "Продолжаю поиск товара.")] (Some (lit "max_tokens")).

(** The completion service always answers [r]. *)
Definition answering (r : response) : Env unit :=
  scripted {| sc_reply := fun _ => Ok r;
              sc_summary := Exc service_down;
              sc_answer := Ok (lit "n");
              sc_count := Ok 1;
              sc_nodes := Ok cart_page |}.

Definition patient : AgentConfig :=
  {| model := lit "claude-sonnet-4-5-20250929"; task := lit "найди футболку";
     max_iterations := 3; confirm_actions := false; history_window := 7;
     temperature := 0 |}.


(** *** More sample data *)

(** An element whose text is that of a node of [cart_page]. *)
Definition cart_link : DistilledElement :=
  {| el_id := 0; el_agent_id := lit "1720000000000-4"; el_tag := lit "a";
     el_role := None; el_input_type := None; el_text := lit "Cart";
     el_placeholder := None; el_aria_label := None; el_href := None;
     el_location := lit "5x900" |}.

(** The envelope of [click_element] for an id that is not in
    [last_elements]. *)
Definition unknown_element_id : dict :=
  _result false (lit "click_element") (lit "Unknown element ID")
    (Some (lit "ElementNotFound"))
    (Some (lit "Unknown element ID. Call analyze_page() first."))
    (Some (lit "Call analyze_page() to refresh IDs, then retry with the new ID."))
    None.

(** The envelope [_ok] builds. *)
Definition clicked (element_id : Z) (msg_suffix url : str) : dict :=
  _result true (lit "click_element")
    (lit "Clicked element " ++ show_Z element_id ++ msg_suffix)
    None None None
    (Some (<[lit "url" := VStr url]>
          (<[lit "element_id" := VInt element_id]> ∅))).

(** What [enumerate] makes of the node ["Cart"] of [cart_page]. *)
Definition fresh_cart_link : DistilledElement :=
  {| el_id := 1; el_agent_id := lit "1730000000000-1"; el_tag := lit "a";
     el_role := None; el_input_type := None; el_text := lit "Cart";
     el_placeholder := None; el_aria_label := None; el_href := None;
     el_location := lit "0x0" |}.

(** *** The distillation script, said in one line *)

(** All nodes the script may visit, dialogs first. *)
Definition all_nodes (p : page_nodes) : list dom_node :=
  concat (dialogs p) ++ selector_nodes p.

(** The objects for a list of nodes, numbered from [id]. *)
Fixpoint number_from (stamp : str) (id : Z) (nodes : list dom_node)
  : list DistilledElement :=
  match nodes with
  | [] => []
  | el :: rest =>
    distilled_of (stamp ++ lit "-" ++ show_Z id) 0 el
    :: number_from stamp (id + 1) rest
  end.

(** The first 200 visible nodes, numbered from 0. *)
Definition distill_reference (stamp : str) (p : page_nodes)
  : list DistilledElement :=
  number_from stamp 0 (take 200 (List.filter nd_visible (all_nodes p))).

(** *** Well-paired conversations *)

(** Every tool-result turn of the list comes right after an assistant turn
    with a [tool_use] block; [prev] is the turn before the list. *)
Fixpoint paired (prev : option message) (messages : list message) : Prop :=
  match messages with
  | [] => True
  | msg :: rest =>
    (is_tool_result_msg msg = true ->
     exists p, prev = Some p /\ role p = lit "assistant"
               /\ has_tool_use p = true)
    /\ paired (Some msg) rest
  end.

(** *** Ids of a response and of a tool-result turn *)

(** The [id]s of the [tool_use] blocks of a response, in order. *)
Definition tool_use_ids (blocks : list rblock) : list str :=
  omap (fun blk => match blk with RToolUse id _ _ => Some id | _ => None end)
       blocks.

(** The [tool_use_id]s of the blocks of a tool-result turn, in order. *)
Definition tool_result_ids (results : list block) : list str :=
  omap (fun blk => match blk with BToolResult id _ => Some id | _ => None end)
       results.

(** A [tool_result] block whose content has at most [n] code points. *)
Definition result_within (n : Z) (blk : block) : Prop :=
  match blk with
  | BToolResult _ content => len content <= n
  | _ => False
  end.

(** *** Required arguments *)

(** For each branch of [_dispatch_tool] that subscripts [params], the tool
    name and the first key it subscripts. *)
Definition first_required : list (str * str) :=
  [ (lit "click_element", lit "element_id");
    (lit "type_text", lit "element_id");
    (lit "click_and_type", lit "element_id");
    (lit "click_text", lit "text");
    (lit "navigate_url", lit "url");
    (lit "wait_for_element", lit "query");
    (lit "search_elements", lit "query");
    (lit "query_dom", lit "query");
    (lit "extract_text", lit "selector");
    (lit "collect_elements", lit "selector") ].

(** *** More responses *)

(** One [analyze_page] invocation. *)
Definition reply_analyze : response :=
  Response [RToolUse (lit "toolu_01") (lit "analyze_page") ∅]
           (Some (lit "tool_use")).

(** A closing remark with no phrase of the list. *)
Definition reply_done : response :=
  Response [RText (lit "Готово, товар в корзине.")] (Some (lit "end_turn")).

(** ** More of the tool surface

    In the loop above the methods below are the oracle [executor_other].
    Here they are modelled on their own, from their source. *)

(** [s[:n]] for any integer [n]: a negative [n] counts from the end. *)
Definition py_slice_to {A} (n : Z) (l : list A) : list A :=
  if 0 <=? n then take (Z.to_nat n) l
  else take (Z.to_nat (len l + n)) l.

(** [type(v).__name__]. *)
Definition type_name (v : value) : str :=
  match v with
  | VNone => lit "NoneType"
  | VBool _ => lit "bool"
  | VInt _ => lit "int"
  | VFloat _ => lit "float"
  | VStr _ => lit "str"
  | VList _ => lit "list"
  | VDict _ => lit "dict"
  end.

(** The [AttributeError] of [v.attr] for a [v] that is not a string. *)
Definition attribute_error (v : value) (attr : string) : exn :=
  Exn OtherError
      (lit "'" ++ type_name v ++ lit "' object has no attribute '"
           ++ lit attr ++ lit "'").
Arguments attribute_error v attr%_string.

(** *** [ToolExecutor.search_elements] *)

(** The local [haystack] of the loop. *)
Definition search_haystack (el : DistilledElement) : str :=
  lower (join (lit " ")
           [ str_or (el_text el) [];
             opt_or_empty (el_placeholder el);
             opt_or_empty (el_aria_label el);
             opt_or_empty (el_href el) ]).

(** The loop [for el in self.last_elements], from [els] on, with [matches]
    so far. *)
Fixpoint search_loop (q : str) (max_results : Z) (els : list DistilledElement)
    (matches : list DistilledElement) : list DistilledElement :=
  match els with
  | [] => matches
  | el :: rest =>
    let matches' :=
      if contains q (search_haystack el) then matches ++ [el] else matches in
    if max_results <=? len matches' then matches'
    else search_loop q max_results rest matches'
  end.

(** The envelope [search_elements] returns. *)
Definition search_result (query : str) (matches : list DistilledElement)
  : dict :=
  _result true (lit "search_elements")
    (lit "Found " ++ show_Z (len matches) ++ lit " results for '" ++ query
       ++ lit "'")
    None None None
    (Some (<[lit "query" := VStr query]>
          (<[lit "results" := VList (map condensed_concise matches)]>
          (<[lit "note" := VStr (lit "IDs are from the latest analyze_page() run.")]>
           ∅)))).

(** The test [q in haystack] of the loop, for the query [query]. *)
Definition search_hit (query : str) (el : DistilledElement) : bool :=
  contains (lower query) (search_haystack el).

Section Search.

Context {W : Type} (env : Env W).

(** [ToolExecutor.search_elements]. *)
Definition search_elements (query : value) (max_results : Z) : M W dict :=
  let* els := get_last_elements in
  (match els with
   | [] => analyze_page env (VStr (lit "detailed")) ;; ret tt
   | _ :: _ => ret tt
   end) ;;
  match query with
  | VStr query_s =>
    let q := lower query_s in
    let* els := get_last_elements in
    ret (search_result query_s (search_loop q max_results els []))
  | _ => raise (attribute_error query "lower")
  end.

End Search.

(** *** [BrowserAgent._format_params] *)

Section FormatParams.

(** [repr]. *)
Variable repr : value -> str.

(** One [f"{k}={vs}"] of the loop. *)
Definition format_param (kv : str * value) : str :=
  let vs := repr (snd kv) in
  let vs := if 40 <? len vs then py_slice_to 37 vs ++ lit "…" else vs in
  fst kv ++ lit "=" ++ vs.

(** [BrowserAgent._format_params], on [params.items()] in the order of the
    dictionary. *)
Definition _format_params (items : list (str * value)) (max_len : Z) : str :=
  let line := join (lit ", ") (map format_param items) in
  if max_len <? len line then py_slice_to (max_len - 1) line ++ lit "…"
  else line.

End FormatParams.

(** *** Further driver operations *)

(** The page operations of the methods below, as oracles over the world;
    an answer [Exc e] is the call raising [e].  A parameter that the
    program passes on as it got it from the tool call is a [value]. *)
Record Driver (W : Type) := {
  (* [locator('[data-agent-id=...]').fill(text, timeout=5000)] *)
  drv_fill : str -> value -> W -> result unit * W;
  (* [locator('[data-agent-id=...]').press(key)] *)
  drv_press : str -> str -> W -> result unit * W;
  (* [page.goto(target, wait_until="load")] *)
  drv_goto : str -> W -> result unit * W;
  (* [page.mouse.wheel(dx, dy)] *)
  drv_wheel : Z -> Z -> W -> result unit * W;
  (* [page.locator(selector).inner_text(timeout=5000)] *)
  drv_inner_text : value -> W -> result str * W;
  (* [page.locator(selector).all_inner_texts()] *)
  drv_all_inner_texts : value -> W -> result (list str) * W;
  (* [page.get_by_text(query).first.wait_for(timeout=ms)] *)
  drv_wait_for : value -> Q -> W -> result unit * W;
}.
Arguments drv_fill {W}.
Arguments drv_press {W}.
Arguments drv_goto {W}.
Arguments drv_wheel {W}.
Arguments drv_inner_text {W}.
Arguments drv_all_inner_texts {W}.
Arguments drv_wait_for {W}.

(** A call of one of these operations: it threads the world; the trace
    records the operations of [Env] only. *)
Definition call {W A} (f : W -> result A * W) : M W A :=
  fun st =>
    let '(r, w') := f (world st) in
    (r, State w' (trace st) (last_elements st) (summary st) (finished st)
              (printed_header st)).

(** [try: m  except TimeoutError as e: h e]: any other exception goes on. *)
Definition try_catch_timeout {W A} (m : M W A) (h : exn -> M W A) : M W A :=
  try_catch m
    (fun exc =>
       if decide (exn_kind_of exc = PlaywrightTimeout) then h exc
       else raise exc).

(** [a and b]. *)
Definition py_and (a b : value) : value := if truthy a then b else a.

(** [ToolExecutor._result] with fields that are values already. *)
Definition envelope (success : value) (action message : str)
    (error_type error suggestion data : value) : dict :=
  <[lit "success" := success]>
  (<[lit "action" := VStr action]>
  (<[lit "message" := VStr message]>
  (<[lit "error_type" := error_type]>
  (<[lit "error" := error]>
  (<[lit "suggestion" := suggestion]>
  (<[lit "data" := data]> ∅)))))).

(** [url.strip()], with [https://] put in front when no scheme is there:
    the local [target] of [navigate_url]. *)
Definition navigate_target (url : str) : str :=
  let target := strip url in
  if negb (starts_with (lit "http://") target
           || starts_with (lit "https://") target)
  then lit "https://" ++ target
  else target.

(** A string with no white space at its head. *)
Definition clean (s : str) : Prop :=
  match s with [] => True | c :: _ => is_space c = false end.

(** The local [dy] of [scroll_page]. *)
Definition scroll_dy (direction : value) (amount : Z) : Z :=
  let delta := Z.abs amount in
  if value_is_str direction (lit "down") then delta else - delta.

(** The success envelope of [extract_text] for the text [full]. *)
Definition extracted (message full : str) (max_chars : Z) : dict :=
  _result true (lit "extract_text") message None None None
    (Some (<[lit "text" := VStr (py_slice_to max_chars full)]>
          (<[lit "truncated" := VBool (max_chars <? len full)]> ∅))).

Section MoreTools.

Context {W : Type} (env : Env W) (drv : Driver W).

(** [self.page], which raises when no page is there. *)
Definition the_page : M W unit := fun st => (drv_page env (world st), st).

(** [ToolExecutor.type_text]. *)
Definition type_text (element_id : Z) (text press_enter : value) : M W dict :=
  let* els := get_last_elements in
  match _get_element els element_id with
  | None =>
    ret (_result false (lit "type_text") (lit "Unknown element ID")
           (Some (lit "ElementNotFound"))
           (Some (lit "Unknown element ID. Call analyze_page() first."))
           (Some (lit "Call analyze_page() to refresh IDs, then retry with the new ID."))
           None)
  | Some element =>
    the_page ;;
    try_catch
      (call (drv_fill drv (el_agent_id element) text) ;;
       (if truthy press_enter
        then call (drv_press drv (el_agent_id element) (lit "Enter"))
        else ret tt) ;;
       emit (EvSleep 500) ;;
       let* url := page_url env in
       ret (_result true (lit "type_text")
              (lit "Typed into element " ++ show_Z element_id)
              None None None
              (Some (<[lit "url" := VStr url]>
                    (<[lit "element_id" := VInt element_id]> ∅)))))
      (fun exc =>
         if decide (exn_kind_of exc = PlaywrightTimeout) then
           ret (_result false (lit "type_text")
                  (lit "Timeout typing into element")
                  (Some (lit "Timeout")) (Some (exn_str exc))
                  (Some (lit "Try: 1) click_element() on the field; 2) close_modal(); 3) analyze_page() and retry type_text."))
                  None)
         else
           ret (_result false (lit "type_text")
                  (lit "Failed to type into element")
                  (Some (lit "TypeError")) (Some (exn_str exc))
                  (Some (lit "Try: 1) click_element() on the input; 2) analyze_page() for a fresh ID; 3) retry type_text."))
                  None))
  end.

(** [ToolExecutor.click_and_type]. *)
Definition click_and_type (element_id : Z) (text press_enter : value)
  : M W dict :=
  let* click_res := click_element env element_id in
  if negb (truthy (dict_get click_res (lit "success"))) then ret click_res
  else
    let* type_res := type_text element_id text press_enter in
    let success :=
      py_and (dict_get click_res (lit "success"))
             (dict_get type_res (lit "success")) in
    let on_failure (k : str) : value :=
      if negb (truthy success) then dict_get type_res k else VNone in
    ret (envelope success (lit "click_and_type") (lit "Clicked and typed")
           (on_failure (lit "error_type")) (on_failure (lit "error"))
           (on_failure (lit "suggestion"))
           (VDict (<[lit "click" := VDict click_res]>
                  (<[lit "type" := VDict type_res]> ∅)))).

(** [ToolExecutor.navigate_url]. *)
Definition navigate_url (url : value) : M W dict :=
  match url with
  | VStr url_s =>
    let target := navigate_target url_s in
    try_catch
      (the_page ;;
       call (drv_goto drv target) ;;
       _sync_active_page env ;;
       let* now := page_url env in
       ret (_result true (lit "navigate_url") (lit "Navigated to " ++ target)
              None None None (Some (<[lit "url" := VStr now]> ∅))))
      (fun exc =>
         if decide (exn_kind_of exc = PlaywrightTimeout) then
           ret (_result false (lit "navigate_url") (lit "Timeout navigating")
                  (Some (lit "Timeout")) (Some (exn_str exc))
                  (Some (lit "Try: 1) wait_for_element(); 2) retry navigate_url(); 3) take_screenshot() for debugging."))
                  None)
         else
           ret (_result false (lit "navigate_url") (lit "Failed to navigate")
                  (Some (lit "NavigationError")) (Some (exn_str exc))
                  (Some (lit "Check URL format (use https://), then retry navigate_url()."))
                  None))
  | _ => raise (attribute_error url "strip")
  end.

(** [ToolExecutor.scroll_page]; [amount] is the integer [_dispatch_tool]
    passes, so [int(amount)] is [amount]. *)
Definition scroll_page (direction : value) (amount : Z) : M W dict :=
  let delta := Z.abs amount in
  let dy := scroll_dy direction amount in
  try_catch
    (the_page ;;
     call (drv_wheel drv 0 dy) ;;
     emit (EvSleep 300) ;;
     ret (_result true (lit "scroll_page")
            (lit "Scrolled " ++ py_str (py_repr env) direction ++ lit " by "
               ++ show_Z delta ++ lit "px")
            None None None
            (Some (<[lit "direction" := direction]>
                  (<[lit "amount" := VInt delta]> ∅)))))
    (fun exc =>
       ret (_result false (lit "scroll_page") (lit "Failed to scroll")
              (Some (lit "ScrollError")) (Some (exn_str exc))
              (Some (lit "Try smaller amount, click on page to focus, then retry scroll_page()."))
              None)).

(** [ToolExecutor.extract_text]. *)
Definition extract_text (selector : value) (all_matches : bool)
    (max_chars : Z) : M W dict :=
  try_catch
    (the_page ;;
     if all_matches then
       let* texts := call (drv_all_inner_texts drv selector) in
       let joined := join (nl ++ nl ++ lit "---" ++ nl ++ nl) texts in
       ret (extracted (lit "Extracted texts") joined max_chars)
     else
       let* text := call (drv_inner_text drv selector) in
       ret (extracted (lit "Extracted text") text max_chars))
    (fun exc =>
       if decide (exn_kind_of exc = PlaywrightTimeout) then
         ret (_result false (lit "extract_text") (lit "Timeout extracting text")
                (Some (lit "Timeout")) (Some (exn_str exc))
                (Some (lit "Try: 1) scroll_page(); 2) ensure selector is visible; 3) retry extract_text()."))
                None)
       else
         ret (_result false (lit "extract_text") (lit "Failed to extract text")
                (Some (lit "ExtractError")) (Some (exn_str exc))
                (Some (lit "Verify selector exists; call analyze_page() for context and retry."))
                None)).

(** [ToolExecutor.wait_for_element]; [timeout] is the float
    [_dispatch_tool] passes. *)
Definition wait_for_element (query : value) (timeout : Q) : M W dict :=
  try_catch_timeout
    (the_page ;;
     call (drv_wait_for drv query (timeout * 1000)%Q) ;;
     ret (_result true (lit "wait_for_element")
            (lit "Element containing '" ++ py_str (py_repr env) query
               ++ lit "' appeared")
            None None None
            (Some (<[lit "query" := query]>
                  (<[lit "timeout" := VFloat timeout]> ∅)))))
    (fun exc =>
       ret (_result false (lit "wait_for_element")
              (lit "Timed out after " ++ py_str (py_repr env) (VFloat timeout)
                 ++ lit "s waiting for '" ++ py_str (py_repr env) query
                 ++ lit "'")
              (Some (lit "Timeout")) (Some (exn_str exc))
              (Some (lit "Try: 1) increase timeout; 2) take_screenshot(); 3) analyze_page() and search_elements()."))
              None)).

End MoreTools.

(** *** A scripted driver *)

(** Every operation succeeds; the page has the text [shown]. *)
Definition quiet_driver (shown : str) : Driver unit :=
  {| drv_fill := fun _ _ w => (Ok tt, w);
     drv_press := fun _ _ w => (Ok tt, w);
     drv_goto := fun _ w => (Ok tt, w);
     drv_wheel := fun _ _ w => (Ok tt, w);
     drv_inner_text := fun _ w => (Ok shown, w);
     drv_all_inner_texts := fun _ w => (Ok [shown; shown], w);
     drv_wait_for := fun _ _ w => (Ok tt, w) |}.

(** Every operation raises [failure]. *)
Definition failing_driver (failure : exn) : Driver unit :=
  {| drv_fill := fun _ _ w => (Exc failure, w);
     drv_press := fun _ _ w => (Exc failure, w);
     drv_goto := fun _ w => (Exc failure, w);
     drv_wheel := fun _ _ w => (Exc failure, w);
     drv_inner_text := fun _ w => (Exc failure, w);
     drv_all_inner_texts := fun _ w => (Exc failure, w);
     drv_wait_for := fun _ _ w => (Exc failure, w) |}.

Definition target_closed : exn :=
  Exn OtherError (lit "Target page, context or browser has been closed").

(** ** Tactics *)

(** Reduce the projections of a state that was just built. *)
Ltac proj :=
  cbn [world trace last_elements summary finished printed_header fst snd].

(** ** Strings: basic facts *)

Lemma str_eqb_true (a b : str) : str_eqb a b = true <-> a = b.
Proof. unfold str_eqb. apply bool_decide_eq_true. Qed.

Lemma str_eqb_false (a b : str) : str_eqb a b = false <-> a <> b.
Proof. unfold str_eqb. apply bool_decide_eq_false. Qed.

Lemma str_eqb_refl (a : str) : str_eqb a a = true.
Proof. by apply str_eqb_true. Qed.

Lemma str_falsy_nil (s : str) : str_falsy s = true <-> s = [].
Proof. destruct s; simpl; split; congruence. Qed.

Lemma contains_nil_r (needle : str) :
  contains needle [] = true -> needle = [].
Proof. destruct needle; simpl; [done | discriminate]. Qed.

(** No keyword of the gate is the empty string. *)
Lemma dangerous_keywords_nonempty (kw : str) :
  In kw dangerous_keywords -> kw <> [].
Proof.
  intros Hin ->. revert Hin.
  assert (H : forallb (fun k => negb (str_falsy k)) dangerous_keywords = true)
    by (vm_compute; reflexivity).
  rewrite forallb_forall in H. intros Hin. specialize (H _ Hin). discriminate.
Qed.

Lemma existsb_intro {A} (f : A -> bool) (l : list A) (x : A) :
  In x l -> f x = true -> existsb f l = true.
Proof. intros Hin Hf. apply existsb_exists. eauto. Qed.

(** ** The explicit-completion heuristic *)

(** The heuristic is a substring test on the lower-cased text. *)
Lemma auto_finish_iff (text : str) :
  _should_auto_finish_from_text text = true <->
  exists m, In m finish_markers /\ contains m (lower text) = true.
Proof.
  unfold _should_auto_finish_from_text. split.
  - destruct (str_falsy text); [discriminate |].
    intros H. apply existsb_exists in H. exact H.
  - intros (m & Hin & Hc). destruct text as [| c text'].
    + apply contains_nil_r in Hc. subst m. exfalso. revert Hin.
      vm_compute. intuition discriminate.
    + simpl str_falsy. cbv iota. apply existsb_exists. eauto.
Qed.

(** C4: at a hedged sentence that ends in a phrase of the list,
    [_should_auto_finish_from_text] answers true (the claim and the
    docstring say such intermediate reasoning is ignored), and so does it
    at a negated one; a text with no phrase of the list is ignored. *)
Theorem auto_finish_fires_on_hedged_text :
  _should_auto_finish_from_text
    (lit "Это может указывать на то, что задача выполнена") = true
  /\ _should_auto_finish_from_text
       (lit "Пока неверно, что цель достигнута: корзина пуста") = true
  /\ _should_auto_finish_from_text
       (lit "Возможно, задача почти выполнена") = false.
Proof. repeat split; vm_compute; reflexivity. Qed.

(** ** The destructive-action gate *)

Section Gate.

Variable py_repr0 : value -> str.
Variable config : AgentConfig.
Variable els : list DistilledElement.

Local Abbreviation gate := (_is_potentially_destructive py_repr0 config els).
Local Abbreviation label_of := (gate_label py_repr0 els).

Lemma gate_true_inv (name : str) (params : dict) :
  gate name params = true ->
  confirm_actions config = true
  /\ (name = lit "click_element" \/ name = lit "click_text")
  /\ exists kw, In kw dangerous_keywords
                /\ contains kw (label_of name params) = true.
Proof.
  unfold _is_potentially_destructive.
  destruct (confirm_actions config); cbn [negb]; [| discriminate].
  destruct (str_eqb name (lit "click_element")) eqn:E1; cbn [negb orb].
  - apply str_eqb_true in E1.
    destruct (str_falsy _); [discriminate |].
    intros H. apply existsb_exists in H. auto.
  - destruct (str_eqb name (lit "click_text")) eqn:E2; cbn [negb orb];
      [| discriminate].
    apply str_eqb_true in E2.
    destruct (str_falsy _); [discriminate |].
    intros H. apply existsb_exists in H. auto.
Qed.

Lemma gate_off (name : str) (params : dict) :
  confirm_actions config = false -> gate name params = false.
Proof. unfold _is_potentially_destructive. by intros ->. Qed.

Lemma gate_other_name (name : str) (params : dict) :
  name <> lit "click_element" -> name <> lit "click_text" ->
  gate name params = false.
Proof.
  intros H1 H2. unfold _is_potentially_destructive.
  apply str_eqb_false in H1. apply str_eqb_false in H2.
  rewrite H1, H2. cbn [negb orb]. by destruct (confirm_actions config).
Qed.

Lemma gate_keyword (name : str) (params : dict) (kw : str) :
  confirm_actions config = true ->
  name = lit "click_element" \/ name = lit "click_text" ->
  In kw dangerous_keywords ->
  contains kw (label_of name params) = true ->
  gate name params = true.
Proof.
  intros Hc Hn Hin Hkw. unfold _is_potentially_destructive.
  rewrite Hc. cbn [negb].
  assert (Hname : str_eqb name (lit "click_element")
                  || str_eqb name (lit "click_text") = true).
  { destruct Hn as [-> | ->]; [by rewrite str_eqb_refl |].
    rewrite (str_eqb_refl (lit "click_text")). apply orb_true_r. }
  rewrite Hname. cbn [negb].
  destruct (str_falsy (label_of name params)) eqn:El.
  - apply str_falsy_nil in El. rewrite El in Hkw.
    apply contains_nil_r in Hkw.
    by apply dangerous_keywords_nonempty in Hin.
  - by apply existsb_intro with kw.
Qed.

Lemma gate_no_keyword (name : str) (params : dict) :
  existsb (fun kw => contains kw (label_of name params)) dangerous_keywords
    = false ->
  gate name params = false.
Proof.
  intros H. unfold _is_potentially_destructive. rewrite H.
  destruct (negb (confirm_actions config)); [done |].
  destruct (negb _); [done |]. by destruct (str_falsy _).
Qed.

(** C3: the gate answers true exactly when confirmation mode is on, the
    action is [click_element] or [click_text], and the label derived for the
    click contains a keyword of the list; so for every other action name,
    with confirmation mode off, and for a click whose label contains no
    keyword, it answers false.  ["checkout"] and ["оплатить"] are keywords
    of the list.  A click by text whose label is ["next page"] requires no
    confirmation, and neither does a click on an element whose text is
    ["Next page"] (in any case) and whose other fields are empty: its label
    is that text followed by the three separators of the join. *)
Theorem gate_only_clicks_with_confirmation (name : str) (params : dict) :
  (gate name params = true <->
     confirm_actions config = true
     /\ (name = lit "click_element" \/ name = lit "click_text")
     /\ exists kw, In kw dangerous_keywords
                   /\ contains kw (label_of name params) = true)
  /\ (name <> lit "click_element" -> name <> lit "click_text" ->
      gate name params = false)
  /\ (confirm_actions config = false -> gate name params = false)
  /\ In (lit "checkout") dangerous_keywords
  /\ In (lit "оплатить") dangerous_keywords
  /\ (label_of name params = lit "next page" -> gate name params = false)
  /\ (forall id el,
        name = lit "click_element" ->
        py_int (dict_get params (lit "element_id")) = Ok id ->
        _get_element els id = Some el ->
        lower (el_text el) = lit "next page" ->
        opt_or_empty (el_aria_label el) = [] ->
        opt_or_empty (el_placeholder el) = [] ->
        opt_or_empty (el_href el) = [] ->
        label_of name params = lit "next page   "
        /\ gate name params = false).
Proof.
  split; [| split; [| split; [| split; [| split; [| split]]]]].
  - split; [apply gate_true_inv |].
    intros (Hc & Hn & kw & Hin & Hkw). by apply gate_keyword with kw.
  - apply gate_other_name.
  - apply gate_off.
  - vm_compute. tauto.
  - vm_compute. tauto.
  - intros Hl. apply gate_no_keyword. rewrite Hl. vm_compute. reflexivity.
  - intros id el -> Hint Hget Hlow Ha Hp Hh.
    assert (Hl : label_of (lit "click_element") params = lit "next page   ").
    { unfold gate_label.
      replace (str_eqb (lit "click_element") (lit "click_text")) with false
        by (vm_compute; reflexivity).
      rewrite str_eqb_refl, Hint, Hget, Ha, Hp, Hh.
      assert (Ht : str_or (el_text el) [] = el_text el)
        by (by destruct (el_text el)).
      rewrite Ht. cbn [join]. unfold lower in *. rewrite map_app, Hlow.
      vm_compute. reflexivity. }
    split; [exact Hl |].
    apply gate_no_keyword. rewrite Hl. vm_compute. reflexivity.
Qed.

End Gate.

(** The gate at three clicks: a checkout link, the pay button, the next
    page. *)
Lemma gate_witness :
  _is_potentially_destructive no_repr confirming
    [pay_button; blank_element; next_button]
    (lit "click_text") (click_text_params "Proceed to Checkout") = true
  /\ _is_potentially_destructive no_repr confirming
       [pay_button; blank_element; next_button]
       (lit "click_element") (click_element_params 0) = true
  /\ _is_potentially_destructive no_repr confirming
       [pay_button; blank_element; next_button]
       (lit "click_text") (click_text_params "Next page") = false
  /\ _is_potentially_destructive no_repr confirming
       [pay_button; blank_element; next_button]
       (lit "click_element") (click_element_params 2) = false.
Proof.
  pose proof (gate_only_clicks_with_confirmation no_repr confirming
                [pay_button; blank_element; next_button]) as G.
  split; [| split; [| split]].
  - destruct (G (lit "click_text") (click_text_params "Proceed to Checkout"))
      as (H & _).
    apply H. split; [reflexivity |]. split; [by right |].
    exists (lit "checkout"). split; [vm_compute; tauto | vm_compute; reflexivity].
  - destruct (G (lit "click_element") (click_element_params 0)) as (H & _).
    apply H. split; [reflexivity |]. split; [by left |].
    exists (lit "оплатить"). split; [vm_compute; tauto | vm_compute; reflexivity].
  - destruct (G (lit "click_text") (click_text_params "Next page"))
      as (_ & _ & _ & _ & _ & H & _).
    apply H. vm_compute. reflexivity.
  - destruct (G (lit "click_element") (click_element_params 2))
      as (_ & _ & _ & _ & _ & _ & H).
    apply (H 2 next_button); reflexivity.
Defined.

(** ** Distillation: the cap and the ids *)

Lemma len_app {A} (l1 l2 : list A) : len (l1 ++ l2) = len l1 + len l2.
Proof. unfold len. rewrite length_app. lia. Qed.

Lemma len_nonneg {A} (l : list A) : 0 <= len l.
Proof. unfold len. lia. Qed.

Lemma len_cons {A} (x : A) (l : list A) : len (x :: l) = 1 + len l.
Proof. unfold len. simpl length. lia. Qed.

(** The script stops pushing at 200 objects. *)
Lemma distill_loop_cap (stamp : str) (allNodes : list dom_node) :
  forall (id : Z) (distilled : list DistilledElement),
    len distilled < 200 ->
    len (distill_loop stamp allNodes id distilled) <= 200.
Proof.
  induction allNodes as [| el rest IH]; intros id distilled Hlt; simpl.
  - lia.
  - destruct (negb (nd_visible el)); [by apply IH |].
    destruct (200 <=? len (distilled ++ _)) eqn:Hcap.
    + rewrite len_app, len_cons in *. unfold len in *. simpl in *. lia.
    + apply IH. apply Z.leb_gt in Hcap. exact Hcap.
Qed.

Lemma distill_script_cap (stamp : str) (p : page_nodes) :
  len (distill_script stamp p) <= 200.
Proof. unfold distill_script. apply distill_loop_cap. unfold len. simpl. lia. Qed.

Lemma enumerate_len (raw_elements : list DistilledElement) :
  forall idx, len (enumerate_elements idx raw_elements) = len raw_elements.
Proof.
  induction raw_elements as [| raw rest IH]; intros idx; simpl; [done |].
  rewrite !len_cons. by rewrite IH.
Qed.

(** [enumerate] numbers the elements from [idx] on, in list order. *)
Lemma enumerate_ids (raw_elements : list DistilledElement) :
  forall idx,
    map el_id (enumerate_elements idx raw_elements)
    = seqZ idx (len raw_elements).
Proof.
  induction raw_elements as [| raw rest IH]; intros idx; simpl.
  - by rewrite seqZ_nil.
  - rewrite len_cons, seqZ_cons by (pose proof (len_nonneg rest); lia).
    simpl. f_equal. rewrite IH. f_equal; lia.
Qed.

(** In a list whose ids are [k], [k+1], ..., looking an id up is indexing. *)
Lemma get_element_sequential (els : list DistilledElement) :
  forall (k i : Z),
    map el_id els = seqZ k (len els) ->
    _get_element els i
    = if bool_decide (k <= i < k + len els) then els !! Z.to_nat (i - k)
      else None.
Proof.
  unfold _get_element.
  induction els as [| el rest IH]; intros k i Hids.
  - simpl. case_bool_decide; [| done]. unfold len in *. simpl in *. lia.
  - pose proof (len_nonneg rest) as Hn.
    rewrite len_cons, seqZ_cons in Hids by lia.
    simpl in Hids. injection Hids as Hid Hrest.
    replace (Z.pred (1 + len rest)) with (len rest) in Hrest by lia.
    simpl find. rewrite Hid.
    destruct (k =? i) eqn:Hki.
    + apply Z.eqb_eq in Hki. subst i.
      rewrite bool_decide_eq_true_2 by (rewrite len_cons; lia).
      by replace (k - k) with 0 by lia.
    + apply Z.eqb_neq in Hki.
      rewrite (IH (Z.succ k) i Hrest). rewrite len_cons.
      case_bool_decide as H1; case_bool_decide as H2; try lia; [| done].
      replace (Z.to_nat (i - k)) with (S (Z.to_nat (i - Z.succ k))) by lia.
      done.
Qed.

(** ** Distillation: what a successful [analyze_page] leaves *)

Section AnalyzePage.

Context {W : Type} (env : Env W).

(** A successful [analyze_page] stores the script's objects, numbered. *)
Lemma analyze_page_inv (response_format : value) (st st' : state W) (r : dict) :
  analyze_page env response_format st = (Ok r, st') ->
  dict_get r (lit "success") = VBool true ->
  exists stamp nodes,
    last_elements st' = enumerate_elements 0 (distill_script stamp nodes).
Proof.
  unfold analyze_page, _sync_active_page, page_title, page_url, bind, ask,
    try_catch, ret, set_last_elements.
  destruct (drv_sync env (world st)) as [[[]|e] w1]; proj; [| discriminate].
  destruct (drv_clock env w1) as [now w2]; proj.
  destruct (drv_distill env (show_Z now) w2) as [[nodes|e] w3]; proj.
  - destruct (drv_title env w3) as [[title|e] w4]; proj; [| discriminate].
    destruct (drv_url env w4) as [[url|e] w5]; proj; [| discriminate].
    intros [= <- <-] _. proj. eauto.
  - intros [= <- <-]. vm_compute. discriminate.
Qed.

(** C10: after a successful [analyze_page], [last_elements] holds at most
    200 elements, their ids are 0, 1, ..., N-1 in list order, and
    [_get_element i] finds an element exactly when [0 <= i < N], namely the
    [i]-th of the list. *)
Theorem analyze_page_ids (response_format : value) (st st' : state W)
    (r : dict) :
  analyze_page env response_format st = (Ok r, st') ->
  dict_get r (lit "success") = VBool true ->
  len (last_elements st') <= 200
  /\ map el_id (last_elements st') = seqZ 0 (len (last_elements st'))
  /\ (forall i, is_Some (_get_element (last_elements st') i)
                <-> 0 <= i < len (last_elements st'))
  /\ (forall i, 0 <= i < len (last_elements st') ->
                _get_element (last_elements st') i
                = last_elements st' !! Z.to_nat i).
Proof.
  intros Hrun Hok.
  destruct (analyze_page_inv _ _ _ _ Hrun Hok) as (stamp & nodes & ->).
  set (raw := distill_script stamp nodes).
  assert (Hids : map el_id (enumerate_elements 0 raw)
                 = seqZ 0 (len (enumerate_elements 0 raw)))
    by (rewrite enumerate_len; apply enumerate_ids).
  split; [| split; [| split]].
  - rewrite enumerate_len. apply distill_script_cap.
  - exact Hids.
  - intros i. rewrite (get_element_sequential _ 0 i Hids).
    case_bool_decide as Hi.
    + split; [lia |]. intros _. apply lookup_lt_is_Some.
      unfold len in Hi. lia.
    + split; [| lia]. by intros [? ?].
  - intros i Hi. rewrite (get_element_sequential _ 0 i Hids).
    rewrite bool_decide_eq_true_2 by lia. f_equal. lia.
Qed.

End AnalyzePage.

(** A page with two visible nodes and a hidden one distils to ids 0 and 1. *)
Lemma analyze_page_ids_witness :
  exists r st',
    analyze_page (scripted (silent (Ok cart_page) (Ok 1)))
      (VStr (lit "concise")) (initial []) = (Ok r, st')
    /\ len (last_elements st') = 2
    /\ map el_id (last_elements st') = [0; 1]
    /\ _get_element (last_elements st') 1 = last_elements st' !! 1%nat
    /\ _get_element (last_elements st') 2 = None.
Proof.
  assert (F : match analyze_page (scripted (silent (Ok cart_page) (Ok 1)))
                      (VStr (lit "concise")) (initial []) with
              | (Ok r, st') =>
                dict_get r (lit "success") = VBool true
                /\ len (last_elements st') = 2
              | _ => False
              end) by (vm_compute; split; reflexivity).
  destruct (analyze_page _ _ _) as [[r | e] st'] eqn:Hrun; [| destruct F].
  destruct F as (Hok & Hlen).
  destruct (analyze_page_ids _ _ _ _ _ Hrun Hok) as (_ & Hids & Hsome & Hnth).
  exists r, st'. rewrite Hlen in *.
  split; [done |]. split; [done |]. split; [exact Hids |]. split.
  - apply (Hnth 1). lia.
  - destruct (_get_element (last_elements st') 2) eqn:Hg; [| done].
    assert (is_Some (Some d)) as Hs by eauto. rewrite <- Hg in Hs.
    apply Hsome in Hs. lia.
Defined.

(** ** The history manager *)

Lemma repair_sublist (pruned : list message) :
  forall prev, sublist (repair prev pruned) pruned.
Proof.
  induction pruned as [| msg rest IH]; intros prev; simpl; [constructor |].
  destruct (is_tool_result_msg msg).
  - destruct prev as [p |]; [| by apply sublist_cons].
    destruct (negb _); [by apply sublist_cons |].
    destruct (negb _); [by apply sublist_cons |].
    by apply sublist_skip.
  - by apply sublist_skip.
Qed.

Lemma repair_len (pruned : list message) (prev : option message) :
  len (repair prev pruned) <= len pruned.
Proof.
  unfold len. pose proof (sublist_length _ _ (repair_sublist pruned prev)). lia.
Qed.

(** A turn that is not a tool-result turn is always kept. *)
Lemma repair_keeps (pruned : list message) :
  forall prev msg,
    In msg pruned -> is_tool_result_msg msg = false ->
    In msg (repair prev pruned).
Proof.
  induction pruned as [| m rest IH]; intros prev msg Hin Hkeep; [done |].
  simpl. destruct Hin as [-> | Hin].
  - rewrite Hkeep. by left.
  - destruct (is_tool_result_msg m).
    + destruct prev as [p |]; [| by apply IH].
      destruct (negb _); [by apply IH |].
      destruct (negb _); [by apply IH |]. right. by apply IH.
    + right. by apply IH.
Qed.

Lemma repair_no_tool_results (pruned : list message) :
  forall prev,
    forallb (fun m => negb (is_tool_result_msg m)) pruned = true ->
    repair prev pruned = pruned.
Proof.
  induction pruned as [| m rest IH]; intros prev H; [done |].
  simpl in *. apply andb_true_iff in H as [Hm Hrest].
  destruct (is_tool_result_msg m); [discriminate |]. f_equal. by apply IH.
Qed.

Section History.

Context {W : Type} (env : Env W) (config : AgentConfig).

(** [_summarize_history] never raises and touches only the world and the
    trace. *)
Lemma summarize_total (history : list message) (prior : str) (st : state W) :
  exists s w',
    _summarize_history env history prior st
    = (Ok s, State w' (trace st ++ [EvSummaryCreate history prior])
                   (last_elements st) (summary st) (finished st)
                   (printed_header st)).
Proof.
  unfold _summarize_history, try_catch, bind, ask, ret.
  destruct (summary_create env history prior (world st)) as [[c|e] w'];
    proj; eauto.
Qed.

Lemma summarize_failure (history : list message) (prior : str) (st : state W) :
  summary_call_fails env history prior (world st) ->
  fst (_summarize_history env history prior st) = Ok prior.
Proof.
  unfold _summarize_history, try_catch, bind, ask, ret.
  intros [(e & w' & ->) | (content & w' & -> & Hempty)]; proj; [done |].
  by rewrite Hempty.
Qed.

Lemma window_ge_3 : 3 <= window config.
Proof. unfold window. lia. Qed.

(** At or below the threshold [1 + window] the conversation is returned as
    it is, and nothing else happens. *)
Lemma apply_window_short (messages : list message) (st : state W) :
  len messages <= 1 + window config ->
  _apply_history_window env config messages st = (Ok messages, st).
Proof.
  intros Hle. unfold _apply_history_window.
  destruct (len messages <=? window config) eqn:H1; [done |].
  destruct messages as [| first rest]; [done |].
  rewrite len_cons in Hle.
  destruct (len rest <=? window config) eqn:H2; [done |].
  apply Z.leb_gt in H2. lia.
Qed.

(** Above it, the older turns are summarized and the rest is repaired. *)
Lemma apply_window_long (first : message) (rest : list message)
    (st : state W) :
  window config < len rest ->
  let older := slice_to (len rest - window config) rest in
  let recent := drop (Z.to_nat (len rest - window config)) rest in
  exists s w',
    _summarize_history env older (summary st) st
    = (Ok s, State w' (trace st ++ [EvSummaryCreate older (summary st)])
                   (last_elements st) (summary st) (finished st)
                   (printed_header st))
    /\ _apply_history_window env config (first :: rest) st
       = (Ok (repair None ([first; summary_block s] ++ recent)),
          State w' (trace st ++ [EvSummaryCreate older (summary st)])
                (last_elements st) s (finished st) (printed_header st)).
Proof.
  intros Hlt older recent.
  destruct (summarize_total older (summary st) st) as (s & w' & Hs).
  exists s, w'. split; [exact Hs |].
  unfold _apply_history_window.
  pose proof (len_nonneg rest).
  rewrite (proj2 (Z.leb_gt _ _)) by (rewrite len_cons; lia).
  rewrite (proj2 (Z.leb_gt _ _)) by lia.
  unfold bind at 1. unfold get_summary at 1.
  unfold bind at 1. fold older. rewrite Hs.
  unfold bind, set_summary, ret. proj. reflexivity.
Qed.

Lemma summary_block_kept (s : str) :
  is_tool_result_msg (summary_block s) = false.
Proof. reflexivity. Qed.

Lemma len_recent (rest : list message) :
  window config < len rest ->
  len (drop (Z.to_nat (len rest - window config)) rest) = window config.
Proof.
  intros Hlt. pose proof window_ge_3. unfold len in *.
  rewrite length_drop. lia.
Qed.

(** C6: when the summary call raises, or its answer has no text,
    [_summarize_history] returns the prior summary; the call changes no
    attribute of the agent, and after the windowing that made the call
    [self.summary] is what it was. *)
Theorem summarize_failure_keeps_prior (history : list message) (prior : str)
    (st : state W) :
  summary_call_fails env history prior (world st) ->
  fst (_summarize_history env history prior st) = Ok prior
  /\ summary (snd (_summarize_history env history prior st)) = summary st
  /\ (forall first rest,
        window config < len rest ->
        history = slice_to (len rest - window config) rest ->
        prior = summary st ->
        summary (snd (_apply_history_window env config (first :: rest) st))
        = summary st).
Proof.
  intros Hfail. pose proof (summarize_failure _ _ _ Hfail) as Hprior.
  split; [exact Hprior |]. split.
  - destruct (summarize_total history prior st) as (s & w' & ->). by proj.
  - intros first rest Hlt -> ->.
    destruct (apply_window_long first rest st Hlt) as (s & w' & Hs & ->).
    rewrite Hs in Hprior. proj. by injection Hprior.
Qed.

(** One application above the threshold, for a first turn that is not a
    tool-result turn. *)
Lemma apply_window_pruned (first : message) (rest : list message)
    (st : state W) :
  is_tool_result_msg first = false ->
  window config < len rest ->
  exists s st',
    _apply_history_window env config (first :: rest) st
    = (Ok (first :: summary_block s
             :: repair (Some (summary_block s))
                  (drop (Z.to_nat (len rest - window config)) rest)), st')
    /\ summary st' = s.
Proof.
  intros Hfirst Hlt.
  destruct (apply_window_long first rest st Hlt) as (s & w' & _ & ->).
  eexists s, _. split.
  - cbn [app repair]. rewrite Hfirst, summary_block_kept. reflexivity.
  - reflexivity.
Qed.

(** Any application keeps the first turn and leaves at most
    [1 + 1 + window] turns, or the conversation as it was. *)
Lemma apply_window_bounded (first : message) (rest : list message)
    (st : state W) :
  is_tool_result_msg first = false ->
  exists tl st',
    _apply_history_window env config (first :: rest) st = (Ok (first :: tl), st')
    /\ len (first :: tl) <= 1 + 1 + window config
    /\ len (first :: tl) <= len (first :: rest).
Proof.
  intros Hfirst. pose proof window_ge_3.
  destruct (Z.le_gt_cases (len rest) (window config)) as [Hle | Hgt].
  - exists rest, st. rewrite apply_window_short by (rewrite len_cons; lia).
    rewrite len_cons. split; [done |]. lia.
  - destruct (apply_window_pruned first rest st Hfirst) as (s & st' & -> & _);
      [lia |].
    eexists _, st'. split; [done |].
    rewrite !len_cons.
    pose proof (repair_len (drop (Z.to_nat (len rest - window config)) rest)
                  (Some (summary_block s))).
    rewrite len_recent in * by lia. lia.
Qed.

Lemma apply_repeatedly_bounded (n : nat) :
  forall first rest st,
    is_tool_result_msg first = false ->
    exists tl,
      fst (apply_repeatedly env config n (first :: rest) st) = first :: tl
      /\ (len (first :: rest) <= 1 + 1 + window config \/ (0 < n)%nat ->
          len (first :: tl) <= 1 + 1 + window config).
Proof.
  induction n as [| n IH]; intros first rest st Hfirst.
  - exists rest. split; [done |]. intros [H | H]; [done | lia].
  - cbn [apply_repeatedly].
    destruct (apply_window_bounded first rest st Hfirst)
      as (tl & st' & -> & Hb & _).
    destruct (IH first tl st' Hfirst) as (tl' & -> & Hb').
    exists tl'. split; [done |]. intros _. apply Hb'. by left.
Qed.

(** C1, as the code has it: above the threshold of [1 + window] turns, and
    for a first turn that is not a tool-result turn, one application returns
    the first turn unchanged, one summary turn, and what the repair pass
    keeps of the last [window] turns: a sublist of them holding every turn
    that is not a tool-result turn, and all of them when none is.  The
    result has at most [1 + 1 + window] turns; so has the conversation after
    any number of applications, and its first turn is still the original. *)
Theorem history_window_shape (first : message) (rest : list message)
    (st : state W) :
  is_tool_result_msg first = false ->
  window config < len rest ->
  let recent := drop (Z.to_nat (len rest - window config)) rest in
  exists s st' kept,
    _apply_history_window env config (first :: rest) st
    = (Ok (first :: summary_block s :: kept), st')
    /\ summary st' = s
    /\ len recent = window config
    /\ kept = repair (Some (summary_block s)) recent
    /\ sublist kept recent
    /\ (forall msg, In msg recent -> is_tool_result_msg msg = false ->
                    In msg kept)
    /\ (forallb (fun m => negb (is_tool_result_msg m)) recent = true ->
        kept = recent)
    /\ len (first :: summary_block s :: kept) <= 1 + 1 + window config
    /\ (forall n, (0 < n)%nat ->
          exists tl,
            fst (apply_repeatedly env config n (first :: rest) st) = first :: tl
            /\ len (first :: tl) <= 1 + 1 + window config).
Proof.
  intros Hfirst Hlt recent.
  destruct (apply_window_pruned first rest st Hfirst Hlt) as (s & st' & Hrun & Hs).
  exists s, st', (repair (Some (summary_block s)) recent).
  split; [exact Hrun |]. split; [exact Hs |].
  split; [by apply len_recent |]. split; [done |].
  split; [apply repair_sublist |].
  split; [intros msg; apply repair_keeps |].
  split; [apply repair_no_tool_results |]. split.
  - rewrite !len_cons.
    pose proof (repair_len recent (Some (summary_block s))).
    unfold recent in *. rewrite len_recent in * by lia. lia.
  - intros n Hn.
    destruct (apply_repeatedly_bounded n first rest st Hfirst) as (tl & Htl & Hb).
    exists tl. split; [exact Htl |]. apply Hb. by right.
Qed.

End History.

(** C1, as stated, fails: five turns exceed the threshold for a window of
    three, and the result has four turns, not [1 + 1 + 3]: the first of the
    last three turns, a tool result whose tool use was summarized away, is
    dropped by the repair pass. *)
Lemma history_window_drops_dangling_result :
  window windowed = 3
  /\ len five_turns = 5
  /\ fst (_apply_history_window offline windowed five_turns (initial []))
     = Ok [task_turn; summary_block []; uses "t2"; answers "t2"]
  /\ [task_turn; summary_block []; uses "t2"; answers "t2"]
     <> [task_turn; summary_block []] ++ [answers "t1"; uses "t2"; answers "t2"].
Proof.
  split; [reflexivity |]. split; [reflexivity |]. split.
  - vm_compute. reflexivity.
  - intros H. apply (f_equal length) in H. discriminate.
Qed.

(** The five turns, pruned: the task, the summary and the last exchange. *)
Lemma history_window_shape_witness :
  exists s st' kept,
    _apply_history_window offline windowed five_turns (initial [])
    = (Ok (task_turn :: summary_block s :: kept), st')
    /\ kept = [uses "t2"; answers "t2"]
    /\ len (task_turn :: summary_block s :: kept) <= 1 + 1 + 3.
Proof.
  destruct (history_window_shape offline windowed task_turn
              [uses "t1"; answers "t1"; uses "t2"; answers "t2"] (initial [])
              eq_refl eq_refl)
    as (s & st' & kept & Hrun & _ & _ & Hkept & _ & _ & _ & Hlen & _).
  exists s, st', kept. split; [exact Hrun |]. split; [| exact Hlen].
  rewrite Hkept. vm_compute. reflexivity.
Defined.

(** With the service down, the prior summary comes back. *)
Lemma summarize_failure_keeps_prior_witness :
  fst (_summarize_history offline [uses "t1"] (lit "оплату не производить")
         (initial []))
  = Ok (lit "оплату не производить").
Proof.
  apply (summarize_failure_keeps_prior offline windowed [uses "t1"]
           (lit "оплату не производить") (initial [])).
  left. by exists service_down, tt.
Defined.

(** ** What a computation adds to the trace *)

Section Emits.

Context {W : Type}.

Variable P : event -> Prop.

Lemma emits_ret {A} (a : A) : emits P (@ret W A a).
Proof. intros st r st' [= <- <-]. exists []. by rewrite app_nil_r. Qed.

Lemma emits_raise {A} (e : exn) : emits P (@raise W A e).
Proof. intros st r st' [= <- <-]. exists []. by rewrite app_nil_r. Qed.

Lemma emits_lift_result {A} (x : result A) : emits P (@lift_result W A x).
Proof. intros st r st' [= <- <-]. exists []. by rewrite app_nil_r. Qed.

Lemma emits_bind {A B} (m : M W A) (k : A -> M W B) :
  emits P m -> (forall a, emits P (k a)) -> emits P (bind m k).
Proof.
  intros Hm Hk st r st'. unfold bind.
  destruct (m st) as [[a | e] st1] eqn:Em.
  - intros Ek. destruct (Hm _ _ _ Em) as (evs1 & E1 & H1).
    destruct (Hk a _ _ _ Ek) as (evs2 & E2 & H2).
    exists (evs1 ++ evs2). rewrite E2, E1, app_assoc. split; [done |].
    by apply Forall_app.
  - intros [= <- <-]. by apply (Hm _ _ _ Em).
Qed.

Lemma emits_try_catch {A} (m : M W A) (h : exn -> M W A) :
  emits P m -> (forall e, emits P (h e)) -> emits P (try_catch m h).
Proof.
  intros Hm Hh st r st'. unfold try_catch.
  destruct (m st) as [[a | e] st1] eqn:Em.
  - intros [= <- <-]. by apply (Hm _ _ _ Em).
  - intros Eh. destruct (Hm _ _ _ Em) as (evs1 & E1 & H1).
    destruct (Hh e _ _ _ Eh) as (evs2 & E2 & H2).
    exists (evs1 ++ evs2). rewrite E2, E1, app_assoc. split; [done |].
    by apply Forall_app.
Qed.

Lemma emits_emit (e : event) : P e -> emits P (@emit W e).
Proof.
  intros He st r st' [= <- <-]. exists [e]. split; [done |]. by constructor.
Qed.

Lemma emits_ask {A} (e : event) (f : W -> result A * W) :
  P e -> emits P (ask e f).
Proof.
  intros He st r st'. unfold ask. destruct (f (world st)) as [r0 w'].
  intros [= <- <-]. exists [e]. split; [done |]. by constructor.
Qed.

Lemma emits_get_last_elements : emits P (@get_last_elements W).
Proof. intros st r st' [= <- <-]. exists []. by rewrite app_nil_r. Qed.

Lemma emits_set_last_elements els : emits P (@set_last_elements W els).
Proof. intros st r st' [= <- <-]. exists []. by rewrite app_nil_r. Qed.

Lemma emits_get_summary : emits P (@get_summary W).
Proof. intros st r st' [= <- <-]. exists []. by rewrite app_nil_r. Qed.

Lemma emits_set_summary s : emits P (@set_summary W s).
Proof. intros st r st' [= <- <-]. exists []. by rewrite app_nil_r. Qed.

Lemma emits_set_finished b : emits P (@set_finished W b).
Proof. intros st r st' [= <- <-]. exists []. by rewrite app_nil_r. Qed.

Lemma emits_pure {A} (f : state W -> result A) :
  emits P (fun st => (f st, st)).
Proof. intros st r st' [= <- <-]. exists []. by rewrite app_nil_r. Qed.

End Emits.

Ltac emits_step :=
  first
    [ apply emits_ret | apply emits_raise | apply emits_lift_result
    | apply emits_get_last_elements | apply emits_set_last_elements
    | apply emits_get_summary | apply emits_set_summary
    | apply emits_set_finished | apply emits_pure
    | apply emits_emit | apply emits_ask
    | apply emits_bind; [| intros ?]
    | apply emits_try_catch; [| intros ?]
    | match goal with
      | |- emits _ (if ?b then _ else _) => destruct b
      | |- emits _ (match ?x with _ => _ end) => destruct x
      end ].

Section ExecutorTrace.

Context {W : Type} (env : Env W).

Lemma analyze_page_no_click (response_format : value) :
  emits not_click (analyze_page env response_format).
Proof.
  unfold analyze_page, _sync_active_page, page_title, page_url.
  repeat emits_step; exact I.
Qed.

Lemma analyze_page_no_console (response_format : value) :
  emits not_console (analyze_page env response_format).
Proof.
  unfold analyze_page, _sync_active_page, page_title, page_url.
  repeat emits_step; exact I.
Qed.

Lemma click_element_no_console (element_id : Z) :
  emits not_console (click_element env element_id).
Proof.
  unfold click_element, click_ok, click, _sync_active_page, page_url.
  repeat first [apply analyze_page_no_console | emits_step]; exact I.
Qed.

End ExecutorTrace.

Lemma str_or_nil_r (a : str) : str_or a [] = a.
Proof. by destruct a. Qed.

Lemma not_click_spec (evs : list event) :
  Forall not_click evs -> forall target, ~ In (EvClick target) evs.
Proof.
  intros H target Hin. rewrite Forall_forall in H.
  apply list_elem_of_In in Hin. by apply (H _ Hin).
Qed.

Section ClickElement.

Context {W : Type} (env : Env W).

(** C5, as the code has it: for an element of the last distillation whose
    marker is gone from the page and whose captured text is empty,
    [click_element] re-distils and returns a failure envelope with a
    suggestion, and no click is attempted on any path.  The envelope is
    [ElementNotFound] when the re-distillation succeeds and [ClickError]
    when it returns a failure.  The re-distillation can also raise (its tab
    sync and its reads of the title and the URL are outside its [try]):
    the envelope is then [Timeout] for a Playwright time-out and the
    general [ClickError] for any other exception, with the text of the
    exception as its error. *)
Theorem click_vanished_blank_element (element_id : Z)
    (element : DistilledElement) (st : state W) (w1 : W) :
  _get_element (last_elements st) element_id = Some element ->
  strip (el_text element) = [] ->
  drv_page env (world st) = Ok tt ->
  drv_count env (el_agent_id element) (world st) = (Ok 0, w1) ->
  exists r st' evs,
    click_element env element_id st = (Ok r, st')
    /\ dict_get r (lit "success") = VBool false
    /\ dict_get r (lit "action") = VStr (lit "click_element")
    /\ (exists hint, dict_get r (lit "suggestion") = VStr hint /\ hint <> [])
    /\ trace st' = trace st ++ evs
    /\ (forall target, ~ In (EvClick target) evs)
    /\ (forall snapshot st2,
          analyze_page env (VStr (lit "detailed"))
            (counted st (el_agent_id element) w1) = (Ok snapshot, st2) ->
          st' = st2
          /\ dict_get r (lit "error_type")
             = VStr (if truthy (dict_get snapshot (lit "success"))
                     then lit "ElementNotFound" else lit "ClickError"))
    /\ (forall exc st2,
          analyze_page env (VStr (lit "detailed"))
            (counted st (el_agent_id element) w1) = (Exc exc, st2) ->
          st' = st2
          /\ dict_get r (lit "error_type")
             = VStr (if decide (exn_kind_of exc = PlaywrightTimeout)
                     then lit "Timeout" else lit "ClickError")
          /\ dict_get r (lit "message")
             = VStr (if decide (exn_kind_of exc = PlaywrightTimeout)
                     then lit "Timeout clicking element"
                     else lit "Failed to click element")
          /\ dict_get r (lit "error") = VStr (exn_str exc)).
Proof.
  intros Hget Htext Hpage Hcount.
  unfold click_element.
  unfold bind at 1. unfold get_last_elements at 1. rewrite Hget.
  unfold bind at 1. rewrite Hpage.
  rewrite str_or_nil_r, Htext.
  unfold try_catch at 1. unfold bind at 1. unfold ask at 1.
  rewrite Hcount. cbn [Z.eqb]. fold (counted st (el_agent_id element) w1).
  unfold bind at 1.
  pose proof (analyze_page_no_click env (VStr (lit "detailed"))
                (counted st (el_agent_id element) w1)) as Htr.
  destruct (analyze_page env (VStr (lit "detailed"))
              (counted st (el_agent_id element) w1))
    as [[snapshot | exc] st2] eqn:Ea;
    destruct (Htr _ _ eq_refl) as (evs & Etr & Hevs); cbn [trace counted] in Etr.
  - destruct (truthy (dict_get snapshot (lit "success"))) eqn:Hs;
      cbn [negb str_falsy]; unfold ret;
      eexists _, st2, ([EvCount (el_agent_id element)] ++ evs);
      (split; [reflexivity |]);
      (split; [vm_compute; reflexivity |]);
      (split; [vm_compute; reflexivity |]);
      (split; [eexists; split; [vm_compute; reflexivity | discriminate] |]);
      (split; [by rewrite Etr, app_assoc |]);
      (split; [apply not_click_spec; by constructor |]);
      (split; [| intros exc' st2' [=]]);
      intros snapshot' st2' [= <- <-]; rewrite Hs;
      (split; [reflexivity | vm_compute; reflexivity]).
  - destruct (decide (exn_kind_of exc = PlaywrightTimeout)) as [Hk | Hk] eqn:Hd;
      cbn [negb str_falsy]; unfold ret;
      eexists _, st2, ([EvCount (el_agent_id element)] ++ evs);
      (split; [reflexivity |]);
      (split; [vm_compute; reflexivity |]);
      (split; [vm_compute; reflexivity |]);
      (split; [eexists; split; [vm_compute; reflexivity | discriminate] |]);
      (split; [by rewrite Etr, app_assoc |]);
      (split; [apply not_click_spec; by constructor |]);
      (split; [intros snapshot' st2' [=] |]);
      intros exc' st2' [= <- <-]; rewrite Hd;
      (split; [reflexivity |]);
      (split; [vm_compute; reflexivity |]);
      (split; vm_compute; reflexivity).
Qed.

End ClickElement.

(** C5, as stated, fails: the element is in the last distillation, its
    marker is gone and its text is empty, and the envelope is a
    [ClickError], because the re-distillation failed. *)
Lemma click_vanished_reanalysis_failed :
  _get_element [pay_button; blank_element] 1 = Some blank_element
  /\ strip (el_text blank_element) = []
  /\ drv_count vanished_unreadable (el_agent_id blank_element) tt = (Ok 0, tt)
  /\ match click_element vanished_unreadable 1
             (initial [pay_button; blank_element]) with
     | (Ok r, _) =>
       dict_get r (lit "error_type") = VStr (lit "ClickError")
       /\ dict_get r (lit "error_type") <> VStr (lit "ElementNotFound")
     | (Exc _, _) => False
     end.
Proof.
  split; [reflexivity |]. split; [reflexivity |]. split; [reflexivity |].
  vm_compute. split; [reflexivity | discriminate].
Qed.

(** When the page distils again, the envelope is [ElementNotFound] and the
    trace holds no click. *)
Lemma click_vanished_blank_element_witness :
  exists r st',
    click_element vanished 1 (initial [pay_button; blank_element]) = (Ok r, st')
    /\ dict_get r (lit "error_type") = VStr (lit "ElementNotFound")
    /\ forall target, ~ In (EvClick target) (trace st').
Proof.
  destruct (click_vanished_blank_element vanished 1 blank_element
              (initial [pay_button; blank_element]) tt
              eq_refl eq_refl eq_refl eq_refl)
    as (r & st' & evs & Hrun & _ & _ & _ & Htr & Hno & Hsnap & _).
  assert (F : match analyze_page vanished (VStr (lit "detailed"))
                      (counted (initial [pay_button; blank_element])
                         (el_agent_id blank_element) tt) with
              | (Ok snapshot, _) =>
                truthy (dict_get snapshot (lit "success")) = true
              | _ => False
              end) by (vm_compute; reflexivity).
  destruct (analyze_page _ _ _) as [[snapshot | e] st2] eqn:Ha; [| destruct F].
  destruct (Hsnap _ _ eq_refl) as [_ Het]. rewrite F in Het.
  exists r, st'. split; [exact Hrun |]. split; [exact Het |].
  rewrite Htr. exact Hno.
Defined.

(** ** Dispatch *)



Section Dispatch.

Context {W : Type} (env : Env W) (config : AgentConfig).




(** A well-formed [element_id] is read by the chain as the gate read it. *)
Lemma dispatch_chain_click (params : dict) (id : Z) (st : state W) :
  py_int (dict_get params (lit "element_id")) = Ok id ->
  dispatch_chain env (lit "click_element") params st
  = click_element env id st.
Proof.
  intros Hint. unfold dispatch_chain.
  replace (name_is (lit "click_element") "analyze_page") with false
    by (vm_compute; reflexivity).
  replace (name_is (lit "click_element") "click_element") with true
    by (vm_compute; reflexivity).
  unfold int_item, item, dict_item, lift_result, bind.
  unfold dict_get in Hint.
  destruct (params !! lit "element_id") as [v |]; [| discriminate].
  change (py_int v = Ok id) in Hint. by rewrite Hint.
Qed.

(** C9, as the code has it: with an [element_id] that reads as an integer,
    when no element of the last distillation has that id the label is
    empty, and when the element found has no text, aria-label, placeholder
    or link the label is the three spaces of the join; in both cases the
    gate answers false, also in confirmation mode, and [_dispatch_tool] is
    [click_element] with nothing before it: no prompt is printed and no
    answer is read. *)
Theorem blank_label_click_is_not_gated (params : dict) (id : Z)
    (st : state W) :
  py_int (dict_get params (lit "element_id")) = Ok id ->
  _get_element (last_elements st) id = None
  \/ (exists el,
        _get_element (last_elements st) id = Some el
        /\ el_text el = [] /\ opt_or_empty (el_aria_label el) = []
        /\ opt_or_empty (el_placeholder el) = []
        /\ opt_or_empty (el_href el) = []) ->
  gate_label (py_repr env) (last_elements st) (lit "click_element") params
  = match _get_element (last_elements st) id with
    | None => []
    | Some _ => lit "   "
    end
  /\ _is_potentially_destructive (py_repr env) config (last_elements st)
       (lit "click_element") params = false
  /\ _dispatch_tool env config (lit "click_element") params st
     = click_element env id st
  /\ exists evs,
       trace (snd (_dispatch_tool env config (lit "click_element") params st))
       = trace st ++ evs
       /\ Forall not_console evs.
Proof.
  intros Hint Hcase.
  assert (Hlabel : gate_label (py_repr env) (last_elements st)
                     (lit "click_element") params
                   = match _get_element (last_elements st) id with
                     | None => []
                     | Some _ => lit "   "
                     end).
  { unfold gate_label.
    replace (str_eqb (lit "click_element") (lit "click_text")) with false
      by (vm_compute; reflexivity).
    replace (str_eqb (lit "click_element") (lit "click_element")) with true
      by (vm_compute; reflexivity).
    rewrite Hint.
    destruct Hcase as [-> | (el & -> & -> & -> & -> & ->)]; reflexivity. }
  assert (Hgate : _is_potentially_destructive (py_repr env) config
                    (last_elements st) (lit "click_element") params = false).
  { apply gate_no_keyword. rewrite Hlabel.
    destruct (_get_element (last_elements st) id); vm_compute; reflexivity. }
  assert (Hrun : _dispatch_tool env config (lit "click_element") params st
                 = click_element env id st).
  { unfold _dispatch_tool, bind, get_last_elements. rewrite Hgate.
    by apply dispatch_chain_click. }
  split; [exact Hlabel |]. split; [exact Hgate |]. split; [exact Hrun |].
  rewrite Hrun.
  destruct (click_element env id st) as [r st'] eqn:Hclick.
  exact (click_element_no_console env id _ _ _ Hclick).
Qed.

End Dispatch.

(** *** Dispatch at concrete invocations *)



(** C9, as stated, fails: the element found has no text, aria-label,
    placeholder or link, and the label derived from it is three spaces, not
    the empty string. *)
Lemma blank_element_label_is_not_empty :
  _get_element [pay_button; blank_element] 1 = Some blank_element
  /\ el_text blank_element = []
  /\ gate_label no_repr [pay_button; blank_element] (lit "click_element")
       (click_element_params 1) = lit "   "
  /\ lit "   " <> [].
Proof.
  split; [reflexivity |]. split; [reflexivity |].
  split; [vm_compute; reflexivity | discriminate].
Qed.

(** In confirmation mode, neither the blank element nor an unlisted id is
    gated. *)
Lemma blank_label_click_is_not_gated_witness :
  _is_potentially_destructive no_repr confirming [pay_button; blank_element]
    (lit "click_element") (click_element_params 1) = false
  /\ _is_potentially_destructive no_repr confirming [pay_button; blank_element]
       (lit "click_element") (click_element_params 7) = false.
Proof.
  assert (H1 : py_int (dict_get (click_element_params 1) (lit "element_id"))
               = Ok 1) by (vm_compute; reflexivity).
  assert (H7 : py_int (dict_get (click_element_params 7) (lit "element_id"))
               = Ok 7) by (vm_compute; reflexivity).
  split.
  - apply (blank_label_click_is_not_gated offline confirming
             (click_element_params 1) 1
             (initial [pay_button; blank_element]) H1).
    right. exists blank_element. by repeat split.
  - apply (blank_label_click_is_not_gated offline confirming
             (click_element_params 7) 7
             (initial [pay_button; blank_element]) H7).
    by left.
Defined.

(** ** The loop *)

Section Run.

Context {W : Type} (env : Env W) (config : AgentConfig).

(** Processing a list of blocks is processing a prefix, then the rest,
    unless the prefix returns or raises. *)
Lemma process_blocks_app (pre rest : list rblock) :
  forall (acc : list block) (st : state W),
    process_blocks env config (pre ++ rest) acc st
    = match process_blocks env config pre acc st with
      | (Ok (inr acc'), st') => process_blocks env config rest acc' st'
      | (Ok (inl fl), st') => (Ok (inl fl), st')
      | (Exc e, st') => (Exc e, st')
      end.
Proof.
  induction pre as [| blk pre IH]; intros acc st; [reflexivity |].
  destruct blk as [text | id name input | ty]; cbn [app process_blocks].
  - unfold bind, _print_assistant_text, _log, emit. cbv beta iota zeta.
    destruct (_should_auto_finish_from_text text); [reflexivity | apply IH].
  - unfold bind, emit. cbv beta iota zeta.
    destruct (_dispatch_tool env config name input _) as [[r | e] st2];
      [| reflexivity].
    destruct (name_is name "finish_task"); [reflexivity | apply IH].
  - apply IH.
Qed.

(** The only [return]s inside the loop over the blocks. *)
Lemma process_blocks_returns (blocks : list rblock) :
  forall acc st fl st',
    process_blocks env config blocks acc st = (Ok (inl fl), st') ->
    fl = ReturnByText \/ fl = ReturnByFinish.
Proof.
  induction blocks as [| blk blocks IH]; intros acc st fl st';
    [discriminate |].
  destruct blk as [text | id name input | ty]; cbn [process_blocks].
  - unfold bind, _print_assistant_text, _log, emit, set_summary, ret.
    cbv beta iota zeta.
    destruct (_should_auto_finish_from_text text); [| apply IH].
    intros [= <- _]. by left.
  - unfold bind, _log, emit, ret. cbv beta iota zeta.
    destruct (_dispatch_tool env config name input _) as [[r | e] st2];
      [| discriminate].
    destruct (name_is name "finish_task"); [| apply IH].
    intros [= <- _]. by right.
  - apply IH.
Qed.

(** [finish_task] is never gated, cannot raise, and sets [_finished]. *)
Lemma dispatch_finish_task (input : dict) (st : state W) :
  exists r st',
    _dispatch_tool env config (lit "finish_task") input st = (Ok r, st')
    /\ dict_get r (lit "success") = VBool true
    /\ world st' = world st /\ finished st' = true.
Proof.
  unfold _dispatch_tool, bind, get_last_elements.
  rewrite gate_other_name by (vm_compute; discriminate).
  unfold dispatch_chain.
  repeat match goal with
         | |- context [name_is (lit "finish_task") ?n] =>
           let b := eval vm_compute in (name_is (lit "finish_task") n) in
           replace (name_is (lit "finish_task") n) with b
             by (vm_compute; reflexivity)
         end.
  unfold bind, set_finished, _log, emit, ret. cbv beta iota zeta. proj.
  eexists _, _. split; [reflexivity |]. split; [| split; reflexivity].
  unfold dict_get. by rewrite lookup_insert_eq.
Qed.

(** At a [finish_task] block the loop over the blocks returns. *)
Lemma process_finish_task (id : str) (input : dict) (post : list rblock)
    (acc : list block) (st : state W) :
  exists st',
    process_blocks env config (RToolUse id (lit "finish_task") input :: post)
      acc st = (Ok (inl ReturnByFinish), st')
    /\ finished st' = true.
Proof.
  cbn [process_blocks]. unfold bind at 1. unfold emit at 1.
  unfold bind at 1.
  destruct (dispatch_finish_task input
              (State (world st) (trace st ++ [EvPrintToolCall (lit "finish_task") input])
                 (last_elements st) (summary st) (finished st)
                 (printed_header st)))
    as (r & st1 & -> & _ & _ & Hfin).
  replace (name_is (lit "finish_task") "finish_task") with true
    by (vm_compute; reflexivity).
  unfold bind, _log, emit, ret. cbv beta iota zeta. proj.
  eexists. split; [reflexivity |]. by proj.
Qed.

(** An iteration whose blocks return, returns. *)
Lemma run_iteration_returns (iteration : Z) (messages : list message)
    (st : state W) (response : response) (w' : W) (fl : flow)
    (st1 : state W) :
  messages_create env messages (world st) = (Ok response, w') ->
  process_blocks env config (resp_content response) []
    (answered config iteration messages st w') = (Ok (inl fl), st1) ->
  run_iteration env config iteration messages st
  = (Ok (fl, messages ++ [Message (lit "assistant")
                            (CBlocks (_serialize_blocks (resp_content response)))]),
     st1).
Proof.
  intros Hcreate Hblocks. unfold run_iteration.
  unfold bind at 1. unfold _log, emit. unfold bind at 1. unfold ask. proj.
  rewrite Hcreate. proj. unfold bind at 1.
  unfold answered in Hblocks. rewrite <- app_assoc. cbn [app].
  by rewrite Hblocks.
Qed.

(** An iteration that raises at a block, raises. *)
Lemma run_iteration_raises (iteration : Z) (messages : list message)
    (st : state W) (response : response) (w' : W) (e : exn)
    (st1 : state W) :
  messages_create env messages (world st) = (Ok response, w') ->
  process_blocks env config (resp_content response) []
    (answered config iteration messages st w') = (Exc e, st1) ->
  run_iteration env config iteration messages st = (Exc e, st1).
Proof.
  intros Hcreate Hblocks. unfold run_iteration.
  unfold bind at 1. unfold _log, emit. unfold bind at 1. unfold ask. proj.
  rewrite Hcreate. proj. unfold bind at 1.
  unfold answered in Hblocks. rewrite <- app_assoc. cbn [app].
  by rewrite Hblocks.
Qed.

(** What makes the loop over the blocks return: an auto-finish phrase in a
    text block, or a [finish_task] invocation. *)
Lemma process_blocks_return_cause (blocks : list rblock) :
  forall acc st fl st',
    process_blocks env config blocks acc st = (Ok (inl fl), st') ->
    (fl = ReturnByText
     /\ exists text,
          In (RText text) blocks /\ _should_auto_finish_from_text text = true)
    \/ (fl = ReturnByFinish
        /\ exists id input, In (RToolUse id (lit "finish_task") input) blocks).
Proof.
  induction blocks as [| blk blocks IH]; intros acc st fl st';
    [discriminate |].
  assert (Hlater : forall acc0 st0,
             process_blocks env config blocks acc0 st0 = (Ok (inl fl), st') ->
             (fl = ReturnByText
              /\ exists text,
                   In (RText text) (blk :: blocks)
                   /\ _should_auto_finish_from_text text = true)
             \/ (fl = ReturnByFinish
                 /\ exists id input,
                      In (RToolUse id (lit "finish_task") input) (blk :: blocks))).
  { intros acc0 st0 H.
    destruct (IH _ _ _ _ H) as [(-> & t & Hin & Ht) | (-> & i & inp & Hin)];
      [left | right]; (split; [done |]); eauto using in_cons. }
  destruct blk as [text | id name input | ty]; cbn [process_blocks].
  - unfold bind, _print_assistant_text, _log, emit, set_summary, ret.
    cbv beta iota zeta.
    destruct (_should_auto_finish_from_text text) eqn:Ht; [| apply Hlater].
    intros [= <- _]. left. split; [done |]. exists text. split; [by left | done].
  - unfold bind, _log, emit, ret. cbv beta iota zeta.
    destruct (_dispatch_tool env config name input _) as [[r | e] st2];
      [| discriminate].
    destruct (name_is name "finish_task") eqn:Hn; [| apply Hlater].
    apply str_eqb_true in Hn. subst name.
    intros [= <- _]. right. split; [done |]. exists id, input. by left.
  - apply Hlater.
Qed.

(** An iteration that completes on a response with no [finish_task]
    invocation, no auto-finish phrase and a stop reason other than
    [end_turn] goes on to the next iteration. *)
Lemma quiet_iteration_continues (iteration : Z) (messages : list message)
    (st : state W) (response : response) (w' : W) :
  messages_create env messages (world st) = (Ok response, w') ->
  (forall text, In (RText text) (resp_content response) ->
                _should_auto_finish_from_text text = false) ->
  (forall id input,
     ~ In (RToolUse id (lit "finish_task") input) (resp_content response)) ->
  stop_reason response <> Some (lit "end_turn") ->
  forall fl messages' st',
    run_iteration env config iteration messages st = (Ok (fl, messages'), st') ->
    fl = Continue.
Proof.
  intros Hcreate Htext Hfinish Hstop fl messages' st'.
  unfold run_iteration.
  unfold bind at 1. unfold _log, emit. unfold bind at 1. unfold ask. proj.
  rewrite Hcreate. proj. unfold bind at 1.
  destruct (process_blocks env config (resp_content response) [] _)
    as [[[fl0 | tool_results] | e] st1] eqn:Hblocks; [| | discriminate].
  - exfalso.
    destruct (process_blocks_return_cause _ _ _ _ _ Hblocks)
      as [(_ & t & Hin & Ht) | (_ & i & inp & Hin)].
    + rewrite (Htext _ Hin) in Ht. discriminate.
    + by apply (Hfinish i inp).
  - destruct tool_results as [| tr trs].
    + rewrite bool_decide_eq_false_2 by done.
      unfold bind, ret.
      destruct (_apply_history_window env config _ st1) as [[m | e] st2];
        [| discriminate].
      by intros [= <- _ _].
    + unfold bind, ret.
      destruct (_apply_history_window env config _ st1) as [[m | e] st2];
        [| discriminate].
      by intros [= <- _ _].
Qed.

Lemma run_loop_prefix (k : nat) :
  forall (n : nat) (iteration : Z) (messages messages' : list message)
         (st st' : state W),
    iterations env config k iteration messages st = Some (messages', st') ->
    run_loop env config (k + n) iteration messages st
    = run_loop env config n (iteration + Z.of_nat k) messages' st'.
Proof.
  induction k as [| k IH]; intros n iteration messages messages' st st'.
  - intros [= <- <-]. cbn [plus]. f_equal. lia.
  - cbn [iterations plus run_loop]. unfold bind at 1.
    destruct (run_iteration env config iteration messages st)
      as [[[fl m1] | e] st1]; [| discriminate].
    destruct fl; try discriminate. intros Hk. cbn [fst snd].
    rewrite (IH n _ _ _ _ _ Hk). f_equal. lia.
Qed.

Lemma run_loop_return (n : nat) (iteration : Z)
    (messages messages' : list message) (st st' : state W) (fl : flow) :
  run_iteration env config iteration messages st = (Ok (fl, messages'), st') ->
  fl <> Continue ->
  run_loop env config (S n) iteration messages st = (Ok (outcome_of fl), st').
Proof.
  intros Hit Hfl. cbn [run_loop]. unfold bind. rewrite Hit. cbn [fst snd].
  by destruct fl.
Qed.

Lemma run_loop_raise (n : nat) (iteration : Z) (messages : list message)
    (st st' : state W) (e : exn) :
  run_iteration env config iteration messages st = (Exc e, st') ->
  run_loop env config (S n) iteration messages st = (Exc e, st').
Proof. intros Hit. cbn [run_loop]. unfold bind. by rewrite Hit. Qed.

Lemma run_unfold (st : state W) :
  run env config st
  = run_loop env config (Z.to_nat (max_iterations config)) 1
      [first_turn config] (started config st).
Proof.
  unfold run, started, first_turn, bind.
  destruct (_print_user_header (task config) st) as [[[] | e] st1] eqn:Hh;
    [reflexivity |].
  revert Hh. unfold _print_user_header, bind, get_printed_header, _log, emit,
    set_printed_header, ret.
  cbv beta iota zeta. by destruct (printed_header st).
Qed.

(** C7: when all [max_iterations] iterations end without a [return]
    ([finish_task], an auto-finish phrase), a [break] (an [end_turn] with no
    tool call) or an exception, [run] ends normally: it logs that the
    maximum was reached without completion, as its last act, and raises
    nothing. *)
Theorem exhausted_run_reports_not_completed (st0 st : state W)
    (messages : list message) :
  iterations env config (Z.to_nat (max_iterations config)) 1
    [first_turn config] (started config st0) = Some (messages, st) ->
  run env config st0
  = (Ok NotCompleted,
     State (world st)
       (trace st
        ++ [EvLog (lit "Max iterations reached without explicit completion.")])
       (last_elements st) (summary st) (finished st) (printed_header st)).
Proof.
  intros Hall. rewrite run_unfold.
  rewrite <- (Nat.add_0_r (Z.to_nat (max_iterations config))).
  rewrite (run_loop_prefix _ 0 _ _ _ _ _ Hall). reflexivity.
Qed.

(** C2, as the code has it: when the loop reaches iteration [i] and the
    response there holds a [finish_task] invocation, and the blocks before
    it are processed without an exception, [run] returns at iteration [i],
    on that block or on an auto-finish phrase before it, in the state that
    block left: no later iteration runs, whatever [max_iterations] is.  When
    the blocks before it do not return, it returns on [finish_task], with
    [_finished] set. *)
Theorem finish_task_ends_the_loop (i : Z) (st0 st : state W)
    (messages : list message) (response : response) (w' : W)
    (pre post : list rblock) (id : str) (input : dict) :
  1 <= i <= max_iterations config ->
  iterations env config (Z.to_nat (i - 1)) 1 [first_turn config]
    (started config st0) = Some (messages, st) ->
  messages_create env messages (world st) = (Ok response, w') ->
  resp_content response = pre ++ RToolUse id (lit "finish_task") input :: post ->
  (forall e st1,
     process_blocks env config pre [] (answered config i messages st w')
     <> (Exc e, st1)) ->
  exists fl messages' st',
    run_iteration env config i messages st = (Ok (fl, messages'), st')
    /\ (fl = ReturnByFinish \/ fl = ReturnByText)
    /\ run env config st0 = (Ok (outcome_of fl), st')
    /\ (forall acc st1,
          process_blocks env config pre [] (answered config i messages st w')
          = (Ok (inr acc), st1) ->
          fl = ReturnByFinish /\ finished st' = true).
Proof.
  intros Hi Hreach Hcreate Hcontent Hpre.
  assert (Hblocks : exists fl st',
             process_blocks env config (resp_content response) []
               (answered config i messages st w') = (Ok (inl fl), st')
             /\ (fl = ReturnByFinish \/ fl = ReturnByText)
             /\ (forall acc st1,
                   process_blocks env config pre []
                     (answered config i messages st w') = (Ok (inr acc), st1) ->
                   fl = ReturnByFinish /\ finished st' = true)).
  { rewrite Hcontent, process_blocks_app.
    destruct (process_blocks env config pre []
                (answered config i messages st w'))
      as [[[fl | acc] | e] st1] eqn:Epre.
    - exists fl, st1. split; [done |]. split; [| discriminate].
      destruct (process_blocks_returns _ _ _ _ _ Epre); auto.
    - destruct (process_finish_task id input post acc st1) as (st' & -> & Hfin).
      exists ReturnByFinish, st'. split; [done |]. split; [by left |].
      by intros acc' st1' _.
    - by destruct (Hpre e st1). }
  destruct Hblocks as (fl & st' & Hblocks & Hfl & Hfin).
  pose proof (run_iteration_returns i _ _ _ _ _ _ Hcreate Hblocks) as Hit.
  eexists fl, _, st'. split; [exact Hit |]. split; [exact Hfl |].
  split; [| exact Hfin].
  rewrite run_unfold.
  replace (Z.to_nat (max_iterations config))
    with (Z.to_nat (i - 1) + S (Z.to_nat (max_iterations config - i)))%nat
    by lia.
  rewrite (run_loop_prefix _ _ _ _ _ _ _ Hreach).
  replace (1 + Z.of_nat (Z.to_nat (i - 1))) with i by lia.
  apply (run_loop_return _ _ _ _ _ _ _ Hit).
  by destruct Hfl as [-> | ->].
Qed.

End Run.

(** C2, as stated, fails: the first response holds a [finish_task]
    invocation, and [run] raises the [KeyError] of the invocation before
    it, whose [input] has no [element_id]. *)
Lemma finish_task_after_failing_call_raises :
  In finish_block (resp_content reply_broken_click)
  /\ max_iterations windowed = 50
  /\ fst (run (answering reply_broken_click) windowed (initial []))
     = Exc (Exn KeyError (lit "'element_id'")).
Proof.
  split; [right; left; reflexivity |]. split; [reflexivity |].
  vm_compute. reflexivity.
Qed.

(** A remark, then [finish_task], in the first response of fifty possible
    iterations: the run ends there. *)
Lemma finish_task_ends_the_loop_witness :
  exists st',
    run (answering reply_finish) windowed (initial [])
    = (Ok FinishedByTool, st')
    /\ finished st' = true.
Proof.
  assert (F : match process_blocks (answering reply_finish) windowed
                      [RText (lit "Товар в корзине, завершаю.")] []
                      (answered windowed 1 [first_turn windowed]
                         (started windowed (initial [])) tt) with
              | (Ok (inr _), _) => True
              | _ => False
              end) by (vm_compute; exact I).
  destruct (process_blocks _ _ _ _ _) as [[[fl0 | acc] | e0] st1] eqn:Epre;
    try destruct F.
  destruct (finish_task_ends_the_loop (answering reply_finish) windowed 1
              (initial []) (started windowed (initial []))
              [first_turn windowed] reply_finish tt
              [RText (lit "Товар в корзине, завершаю.")] []
              (lit "toolu_02") finish_input)
    as (fl & messages' & st' & _ & _ & Hrun & Hfin).
  - cbn. lia.
  - reflexivity.
  - reflexivity.
  - reflexivity.
  - intros e st2 H. rewrite Epre in H. discriminate.
  - destruct (Hfin acc st1 Epre) as [-> Hfinished].
    exists st'. by split.
Defined.

(** Three iterations of remarks cut off by the token limit: the run reports
    that it did not complete. *)
Lemma exhausted_run_reports_not_completed_witness :
  exists st',
    run (answering reply_thinking) patient (initial []) = (Ok NotCompleted, st')
    /\ last (trace st')
       = Some (EvLog (lit "Max iterations reached without explicit completion.")).
Proof.
  assert (F : match iterations (answering reply_thinking) patient
                      (Z.to_nat (max_iterations patient)) 1
                      [first_turn patient] (started patient (initial [])) with
              | Some _ => True
              | None => False
              end) by (vm_compute; exact I).
  destruct (iterations _ _ _ _ _ _) as [[messages st] |] eqn:Hall;
    [| destruct F].
  rewrite (exhausted_run_reports_not_completed _ _ _ _ _ Hall).
  eexists. split; [reflexivity |]. cbn [trace]. apply last_snoc.
Defined.

(** * Further properties of the code *)

(** ** [click_element]: the paths not covered above *)

Section ClickPaths.

Context {W : Type} (env : Env W).

(** After a successful [analyze_page] that left [N] elements, a click on an
    id outside [0 .. N-1] is answered [ElementNotFound] at once: the state,
    world and trace included, is left as it was. *)
Theorem click_outside_distillation (response_format : value)
    (st st' : state W) (r : dict) (i : Z) :
  analyze_page env response_format st = (Ok r, st') ->
  dict_get r (lit "success") = VBool true ->
  ~ (0 <= i < len (last_elements st')) ->
  click_element env i st' = (Ok unknown_element_id, st').
Proof.
  intros Hrun Hok Hout.
  destruct (analyze_page_inv env _ _ _ _ Hrun Hok) as (stamp & nodes & Hels).
  assert (Hnone : _get_element (last_elements st') i = None).
  { rewrite Hels in *.
    rewrite (get_element_sequential _ 0 i)
      by (rewrite enumerate_len; apply enumerate_ids).
    rewrite bool_decide_eq_false_2; [done | lia]. }
  unfold click_element, bind, get_last_elements. by rewrite Hnone.
Qed.

(** The marker path: when the marker is still on the page and the click,
    the tab sync and the URL read succeed, [click_element] clicks the
    marker once and reports success; it neither distils again nor clicks
    by text. *)
Theorem click_by_marker (element_id : Z) (element : DistilledElement)
    (st : state W) (n : Z) (w1 w2 w3 w4 : W) (url : str) :
  _get_element (last_elements st) element_id = Some element ->
  drv_page env (world st) = Ok tt ->
  drv_count env (el_agent_id element) (world st) = (Ok n, w1) ->
  n <> 0 ->
  drv_click env (ByMarker (el_agent_id element)) w1 = (Ok tt, w2) ->
  drv_sync env w2 = (Ok tt, w3) ->
  drv_url env w3 = (Ok url, w4) ->
  click_element env element_id st
  = (Ok (clicked element_id [] url),
     State w4
       (trace st ++ [EvCount (el_agent_id element);
                     EvClick (ByMarker (el_agent_id element));
                     EvSleep 800; EvSync; EvUrl])
       (last_elements st) (summary st) (finished st) (printed_header st)).
Proof.
  intros Hget Hpage Hcount Hn Hclick Hsync Hurl.
  unfold click_element, click_ok, click, _sync_active_page, page_url.
  unfold bind, try_catch, ask, emit, get_last_elements, ret.
  rewrite Hget, Hpage. proj. rewrite Hcount. proj.
  rewrite (proj2 (Z.eqb_neq n 0) Hn). proj.
  rewrite Hclick. proj. rewrite Hsync. proj. rewrite Hurl. proj.
  unfold clicked. repeat rewrite <- app_assoc. reflexivity.
Qed.

(** The refreshed-id path: when the marker is gone, the page distils again
    and the fresh distillation holds an element with the same text (white
    space at the ends apart), the first such element is clicked by its new
    marker; no click by text is made. *)
Theorem click_by_refreshed_marker (element_id : Z)
    (element fresh : DistilledElement) (st st2 : state W)
    (snapshot : dict) (w1 w3 w4 w5 : W) (url : str) :
  _get_element (last_elements st) element_id = Some element ->
  drv_page env (world st) = Ok tt ->
  drv_count env (el_agent_id element) (world st) = (Ok 0, w1) ->
  analyze_page env (VStr (lit "detailed"))
    (counted st (el_agent_id element) w1) = (Ok snapshot, st2) ->
  truthy (dict_get snapshot (lit "success")) = true ->
  strip (el_text element) <> [] ->
  find (fun el => str_eqb (strip (str_or (el_text el) []))
                    (strip (el_text element)))
       (last_elements st2) = Some fresh ->
  drv_click env (ByMarker (el_agent_id fresh)) (world st2) = (Ok tt, w3) ->
  drv_sync env w3 = (Ok tt, w4) ->
  drv_url env w4 = (Ok url, w5) ->
  click_element env element_id st
  = (Ok (clicked element_id (lit " (via refreshed agent-id)") url),
     State w5
       (trace st2 ++ [EvClick (ByMarker (el_agent_id fresh));
                      EvSleep 800; EvSync; EvUrl])
       (last_elements st2) (summary st2) (finished st2) (printed_header st2)).
Proof.
  intros Hget Hpage Hcount Hre Hok Htext Hfind Hclick Hsync Hurl.
  unfold click_element.
  unfold bind at 1. unfold get_last_elements at 1. rewrite Hget.
  unfold bind at 1. rewrite Hpage. rewrite str_or_nil_r.
  unfold try_catch at 1. unfold bind at 1. unfold ask at 1.
  rewrite Hcount. cbn [Z.eqb]. fold (counted st (el_agent_id element) w1).
  unfold bind at 1. rewrite Hre, Hok. cbn [negb].
  destruct (str_falsy (strip (el_text element))) eqn:Hf;
    [by apply str_falsy_nil in Hf |].
  cbn [negb]. unfold bind at 1. unfold get_last_elements at 1.
  rewrite Hfind.
  unfold click_ok, click, _sync_active_page, page_url.
  unfold bind, ask, emit, ret.
  rewrite Hclick. proj. rewrite Hsync. proj. rewrite Hurl. proj.
  unfold clicked. repeat rewrite <- app_assoc. reflexivity.
Qed.

(** On an initialised page [click_element] raises nothing: every failure
    of the driver, in the click, the re-distillation or the fallbacks, comes
    back as an envelope. *)
Theorem click_element_returns_an_envelope (element_id : Z) (st : state W) :
  drv_page env (world st) = Ok tt ->
  exists r st', click_element env element_id st = (Ok r, st').
Proof.
  intros Hpage. unfold click_element.
  unfold bind at 1. unfold get_last_elements at 1.
  destruct (_get_element (last_elements st) element_id) as [element |];
    [| unfold ret; eauto].
  unfold bind at 1. rewrite Hpage.
  unfold try_catch at 1.
  match goal with
  | |- context [match ?m st with _ => _ end] => destruct (m st) as [[r | exc] st1]
  end; [eauto |].
  destruct (decide (exn_kind_of exc = PlaywrightTimeout)); [| unfold ret; eauto].
  destruct (negb (str_falsy _)); [| unfold ret; eauto].
  unfold try_catch.
  match goal with
  | |- context [match ?m st1 with _ => _ end] => destruct (m st1) as [[r | exc2] st2]
  end; unfold ret; eauto.
Qed.

End ClickPaths.

(** *** The paths of [click_element] in scripted worlds *)

(** Two elements are distilled; id 2 is unknown. *)
Lemma click_outside_distillation_witness :
  exists r st',
    analyze_page offline (VStr (lit "concise")) (initial []) = (Ok r, st')
    /\ click_element offline 2 st' = (Ok unknown_element_id, st').
Proof.
  assert (F : match analyze_page offline (VStr (lit "concise")) (initial []) with
              | (Ok r, st') =>
                dict_get r (lit "success") = VBool true
                /\ len (last_elements st') = 2
              | _ => False
              end) by (vm_compute; split; reflexivity).
  destruct (analyze_page _ _ _) as [[r | e] st'] eqn:Hrun; [| destruct F].
  destruct F as (Hok & Hlen). exists r, st'. split; [done |].
  apply (click_outside_distillation offline _ _ _ _ 2 Hrun Hok).
  rewrite Hlen. lia.
Defined.

Lemma click_by_marker_witness :
  click_element offline 0 (initial [pay_button])
  = (Ok (clicked 0 [] (lit "https://shop.example/cart")),
     State tt
       [EvCount (el_agent_id pay_button);
        EvClick (ByMarker (el_agent_id pay_button)); EvSleep 800; EvSync; EvUrl]
       [pay_button] [] false false).
Proof.
  apply (click_by_marker offline 0 pay_button (initial [pay_button]) 1
           tt tt tt tt (lit "https://shop.example/cart"));
    (reflexivity || lia).
Defined.

Lemma click_by_refreshed_marker_witness :
  exists st',
    click_element vanished 0 (initial [cart_link])
    = (Ok (clicked 0 (lit " (via refreshed agent-id)")
             (lit "https://shop.example/cart")), st')
    /\ last_elements st' <> [cart_link].
Proof.
  assert (F : match analyze_page vanished (VStr (lit "detailed"))
                      (counted (initial [cart_link]) (el_agent_id cart_link) tt) with
              | (Ok snapshot, st2) =>
                truthy (dict_get snapshot (lit "success")) = true
                /\ find (fun el => str_eqb (strip (str_or (el_text el) []))
                                     (strip (el_text cart_link)))
                        (last_elements st2) = Some fresh_cart_link
                /\ len (last_elements st2) = 2
              | _ => False
              end) by (vm_compute; repeat split; reflexivity).
  destruct (analyze_page _ _ _) as [[snapshot | e] st2] eqn:Hre; [| destruct F].
  destruct F as (Hok & Hfind & Hlen).
  eexists. split.
  - apply (click_by_refreshed_marker vanished 0 cart_link fresh_cart_link
             (initial [cart_link]) st2 snapshot tt (world st2) (world st2)
             (world st2) (lit "https://shop.example/cart"));
      (reflexivity || assumption || (vm_compute; discriminate)).
  - cbn [last_elements]. intros H. rewrite H in Hlen. discriminate.
Defined.

Lemma click_element_returns_an_envelope_witness :
  exists r st', click_element vanished_unreadable 0 (initial [cart_link])
                = (Ok r, st').
Proof.
  by apply (click_element_returns_an_envelope vanished_unreadable 0
              (initial [cart_link])).
Defined.

(** Look a literal key up in a dictionary built by insertions. *)
Ltac dict_lookup :=
  repeat (rewrite lookup_insert_ne by (vm_compute; discriminate));
  apply lookup_insert_eq.

(** ** [analyze_page]: failure, and what is listed *)

Section AnalyzeMore.

Context {W : Type} (env : Env W).

(** An [analyze_page] that returns anything but a success leaves
    [last_elements] as it was; it returns so exactly because the script
    raised, and its envelope is an [AnalysisError] whose error is the text
    of that exception. *)
Theorem analyze_page_failure_keeps_elements (response_format : value)
    (st st' : state W) (r : dict) :
  analyze_page env response_format st = (Ok r, st') ->
  dict_get r (lit "success") <> VBool true ->
  last_elements st' = last_elements st
  /\ dict_get r (lit "success") = VBool false
  /\ dict_get r (lit "error_type") = VStr (lit "AnalysisError")
  /\ exists exc w1 now w2,
       drv_sync env (world st) = (Ok tt, w1)
       /\ drv_clock env w1 = (now, w2)
       /\ drv_distill env (show_Z now) w2 = (Exc exc, world st')
       /\ dict_get r (lit "error") = VStr (exn_str exc).
Proof.
  unfold analyze_page, _sync_active_page, page_title, page_url, bind, ask,
    try_catch, ret, set_last_elements.
  destruct (drv_sync env (world st)) as [[[]|e] w1] eqn:Hsync; proj;
    [| discriminate].
  destruct (drv_clock env w1) as [now w2] eqn:Hclock; proj.
  destruct (drv_distill env (show_Z now) w2) as [[nodes|e] w3] eqn:Hdistill;
    proj.
  - destruct (drv_title env w3) as [[title|e] w4]; proj; [| discriminate].
    destruct (drv_url env w4) as [[url|e] w5]; proj; [| discriminate].
    intros [= <- <-] Hnot. exfalso. apply Hnot. vm_compute. reflexivity.
  - intros [= <- <-] _. proj. split; [done |].
    split; [vm_compute; reflexivity |]. split; [vm_compute; reflexivity |].
    exists e, w1, now, w2. split; [done |]. split; [done |].
    split; [done |]. vm_compute. reflexivity.
Qed.

(** A successful [analyze_page] lists the first 20 elements when asked for
    ["concise"] and all of them for any other format, while [last_elements]
    holds all of them either way. *)
Theorem analyze_page_listing (response_format : value) (st st' : state W)
    (r : dict) :
  analyze_page env response_format st = (Ok r, st') ->
  dict_get r (lit "success") = VBool true ->
  exists data items,
    r !! lit "data" = Some (VDict data)
    /\ data !! lit "elements" = Some (VList items)
    /\ items = (if value_is_str response_format (lit "concise")
                then map condensed_concise (take 20 (last_elements st'))
                else map condensed_detailed (last_elements st'))
    /\ len items = (if value_is_str response_format (lit "concise")
                    then Z.min 20 (len (last_elements st'))
                    else len (last_elements st')).
Proof.
  unfold analyze_page, _sync_active_page, page_title, page_url, bind, ask,
    try_catch, ret, set_last_elements.
  destruct (drv_sync env (world st)) as [[[]|e] w1]; proj; [| discriminate].
  destruct (drv_clock env w1) as [now w2]; proj.
  destruct (drv_distill env (show_Z now) w2) as [[nodes|e] w3]; proj.
  - destruct (drv_title env w3) as [[title|e] w4]; proj; [| discriminate].
    destruct (drv_url env w4) as [[url|e] w5]; proj; [| discriminate].
    intros [= <- <-] _. proj.
    eexists _, _. split; [unfold _result, opt_dict; dict_lookup |].
    split; [dict_lookup |]. split; [reflexivity |].
    destruct (value_is_str response_format (lit "concise")); unfold len.
    + rewrite length_map, length_take. lia.
    + by rewrite length_map.
  - intros [= <- <-]. vm_compute. discriminate.
Qed.

End AnalyzeMore.

(** *** [analyze_page] in scripted worlds *)

Lemma analyze_page_failure_keeps_elements_witness :
  exists r st',
    analyze_page vanished_unreadable (VStr (lit "detailed")) (initial [cart_link])
    = (Ok r, st')
    /\ last_elements st' = [cart_link]
    /\ dict_get r (lit "error_type") = VStr (lit "AnalysisError")
    /\ dict_get r (lit "error") = VStr (lit "Connection error.").
Proof.
  assert (F : match analyze_page vanished_unreadable (VStr (lit "detailed"))
                      (initial [cart_link]) with
              | (Ok r, _) => dict_get r (lit "success") <> VBool true
              | _ => False
              end) by (vm_compute; discriminate).
  destruct (analyze_page _ _ _) as [[r | e] st'] eqn:Hrun; [| destruct F].
  destruct (analyze_page_failure_keeps_elements _ _ _ _ _ Hrun F)
    as (Hels & _ & Herr & exc & w1 & now & w2 & _ & _ & Hexc & Htext).
  exists r, st'. split; [done |]. split; [done |]. split; [done |].
  injection Hexc as <- _. exact Htext.
Defined.

Lemma analyze_page_listing_witness :
  exists r st' data items,
    analyze_page offline (VStr (lit "concise")) (initial []) = (Ok r, st')
    /\ r !! lit "data" = Some (VDict data)
    /\ data !! lit "elements" = Some (VList items)
    /\ len items = 2.
Proof.
  assert (F : match analyze_page offline (VStr (lit "concise")) (initial []) with
              | (Ok r, st') =>
                dict_get r (lit "success") = VBool true
                /\ len (last_elements st') = 2
              | _ => False
              end) by (vm_compute; split; reflexivity).
  destruct (analyze_page _ _ _) as [[r | e] st'] eqn:Hrun; [| destruct F].
  destruct F as (Hok & Hlen).
  destruct (analyze_page_listing _ _ _ _ _ Hrun Hok)
    as (data & items & Hdata & Hitems & _ & Hn).
  exists r, st', data, items. repeat split; try done.
  rewrite Hn, Hlen. reflexivity.
Defined.

(** ** The distillation script *)

Lemma distill_loop_reference (stamp : str) (allNodes : list dom_node) :
  forall (id : Z) (distilled : list DistilledElement),
    (length distilled < 200)%nat ->
    distill_loop stamp allNodes id distilled
    = distilled
      ++ number_from stamp id
           (take (200 - length distilled) (List.filter nd_visible allNodes)).
Proof.
  induction allNodes as [| el rest IH]; intros id distilled Hlt.
  - cbn. by rewrite take_nil, app_nil_r.
  - cbn [distill_loop List.filter].
    destruct (nd_visible el); cbn [negb]; [| by apply IH].
    destruct (200 - length distilled)%nat as [| k] eqn:Hk; [lia |].
    cbn [take number_from].
    destruct (200 <=? len (distilled ++ _)) eqn:Hcap.
    + apply Z.leb_le in Hcap. unfold len in Hcap.
      rewrite length_app in Hcap. cbn [length] in Hcap.
      replace k with 0%nat by lia. by rewrite take_0.
    + apply Z.leb_gt in Hcap. unfold len in Hcap.
      rewrite length_app in Hcap. cbn [length] in Hcap.
      rewrite IH by (rewrite length_app; cbn [length]; lia).
      rewrite <- app_assoc. cbn [app]. do 2 f_equal.
      rewrite length_app. cbn [length]. do 2 f_equal. lia.
Qed.

(** The script returns the objects of the first 200 visible nodes, in the
    order of the page with the nodes of dialogs first, marked [stamp-0],
    [stamp-1], ... *)
Theorem distill_script_is_reference (stamp : str) (p : page_nodes) :
  distill_script stamp p = distill_reference stamp p.
Proof.
  unfold distill_script, distill_reference, all_nodes.
  rewrite distill_loop_reference by (cbn; lia). cbn [app length].
  destruct (dialogs p); [| reflexivity]. reflexivity.
Qed.

Lemma show_Z_inj (a b : Z) : show_Z a = show_Z b -> a = b.
Proof.
  unfold show_Z. intros H.
  assert (Hl : list_ascii_of_string (NilZero.string_of_int (Z.to_int a))
               = list_ascii_of_string (NilZero.string_of_int (Z.to_int b))).
  { revert H.
    generalize (list_ascii_of_string (NilZero.string_of_int (Z.to_int a))).
    generalize (list_ascii_of_string (NilZero.string_of_int (Z.to_int b))).
    intros l2 l1. revert l2.
    induction l1 as [| x l1 IH]; intros [| y l2]; try discriminate; [done |].
    cbn [map]. intros [= Hxy Hrest]. f_equal; [| by apply IH].
    rewrite <- (ascii_N_embedding x), <- (ascii_N_embedding y). by rewrite Hxy. }
  assert (Hs : NilZero.string_of_int (Z.to_int a)
               = NilZero.string_of_int (Z.to_int b)).
  { rewrite <- (string_of_list_ascii_of_string (NilZero.string_of_int (Z.to_int a))),
            <- (string_of_list_ascii_of_string (NilZero.string_of_int (Z.to_int b))).
    by rewrite Hl. }
  assert (Hnn : forall z, Z.to_int z <> Decimal.Pos Decimal.Nil
                          /\ Z.to_int z <> Decimal.Neg Decimal.Nil).
  { intros [| p | p]; cbn; split; try discriminate;
      intros [= Hp]; by apply (DecimalPos.Unsigned.to_uint_nonnil p). }
  assert (Hi : Some (Z.to_int a) = Some (Z.to_int b)).
  { rewrite <- (NilZero.isi (Z.to_int a)) by apply Hnn.
    rewrite <- (NilZero.isi (Z.to_int b)) by apply Hnn. by rewrite Hs. }
  injection Hi as Hi.
  rewrite <- (DecimalZ.of_to a), <- (DecimalZ.of_to b). by rewrite Hi.
Qed.

Lemma number_from_markers (stamp : str) (nodes : list dom_node) :
  forall id,
    map el_agent_id (number_from stamp id nodes)
    = map (fun k => stamp ++ lit "-" ++ show_Z k) (seqZ id (len nodes)).
Proof.
  induction nodes as [| el rest IH]; intros id.
  - by rewrite seqZ_nil.
  - rewrite len_cons, seqZ_cons by (pose proof (len_nonneg rest); lia).
    cbn [number_from map distilled_of el_agent_id]. f_equal.
    rewrite IH. do 2 f_equal; lia.
Qed.

Lemma enumerate_markers (raw_elements : list DistilledElement) :
  forall idx,
    map el_agent_id (enumerate_elements idx raw_elements)
    = map el_agent_id raw_elements.
Proof.
  induction raw_elements as [| raw rest IH]; intros idx; [done |].
  cbn. by rewrite IH.
Qed.

Section Markers.

Context {W : Type} (env : Env W).

(** After a successful [analyze_page] the stable markers of [last_elements]
    are pairwise distinct: a marker names one element. *)
Theorem markers_are_distinct (response_format : value) (st st' : state W)
    (r : dict) :
  analyze_page env response_format st = (Ok r, st') ->
  dict_get r (lit "success") = VBool true ->
  NoDup (map el_agent_id (last_elements st')).
Proof.
  intros Hrun Hok.
  destruct (analyze_page_inv env _ _ _ _ Hrun Hok) as (stamp & nodes & ->).
  rewrite enumerate_markers, distill_script_is_reference.
  unfold distill_reference. rewrite number_from_markers.
  apply NoDup_fmap_2; [| apply NoDup_seqZ].
  intros a b H. apply app_inv_head in H. apply app_inv_head in H.
  by apply show_Z_inj.
Qed.

End Markers.

Lemma markers_are_distinct_witness :
  exists r st',
    analyze_page offline (VStr (lit "detailed")) (initial []) = (Ok r, st')
    /\ NoDup (map el_agent_id (last_elements st')).
Proof.
  assert (F : match analyze_page offline (VStr (lit "detailed")) (initial []) with
              | (Ok r, st') => dict_get r (lit "success") = VBool true
              | _ => False
              end) by (vm_compute; reflexivity).
  destruct (analyze_page _ _ _) as [[r | e] st'] eqn:Hrun; [| destruct F].
  exists r, st'. split; [done |].
  exact (markers_are_distinct offline _ _ _ _ Hrun F).
Defined.

(** ** The repair pass *)

Lemma repair_paired (pruned : list message) :
  forall prev, paired prev (repair prev pruned).
Proof.
  induction pruned as [| msg rest IH]; intros prev; [exact I |].
  cbn [repair].
  destruct (is_tool_result_msg msg) eqn:Hm.
  - destruct prev as [p |]; [| apply IH].
    destruct (str_eqb (role p) (lit "assistant")) eqn:Hr; cbn [negb];
      [| apply IH].
    destruct (has_tool_use p) eqn:Hu; cbn [negb]; [| apply IH].
    cbn [paired]. split; [| apply IH].
    intros _. exists p. apply str_eqb_true in Hr. by repeat split.
  - cbn [paired]. split; [| apply IH]. intros H. congruence.
Qed.

Lemma repair_of_paired (messages : list message) :
  forall prev, paired prev messages -> repair prev messages = messages.
Proof.
  induction messages as [| msg rest IH]; intros prev Hp; [done |].
  cbn [paired] in Hp. destruct Hp as [Hmsg Hrest]. cbn [repair].
  destruct (is_tool_result_msg msg) eqn:Hm.
  - destruct (Hmsg eq_refl) as (p & -> & Hr & Hu).
    rewrite Hr, str_eqb_refl, Hu. cbn [negb]. f_equal. by apply IH.
  - f_equal. by apply IH.
Qed.

(** What the repair pass returns is well paired: no tool-result turn is
    left without the assistant turn that asked for it right before. *)
Theorem repair_leaves_no_dangling_result (prev : option message)
    (pruned : list message) :
  paired prev (repair prev pruned).
Proof. apply repair_paired. Qed.

(** The repair pass changes exactly the lists that are not well paired;
    so a second pass changes nothing. *)
Theorem repair_fixes_exactly_unpaired (prev : option message)
    (messages : list message) :
  (repair prev messages = messages <-> paired prev messages)
  /\ repair prev (repair prev messages) = repair prev messages.
Proof.
  split; [split |].
  - intros <-. apply repair_paired.
  - apply repair_of_paired.
  - apply repair_of_paired, repair_paired.
Qed.

Section HistoryMore.

Context {W : Type} (env : Env W) (config : AgentConfig).

(** What one application of the window does, for every conversation with a
    first turn: up to [window] further turns, nothing at all (no summary
    call, the state as it was); above, one summary call, made on exactly the
    turns that are not kept, with the summary so far, after which
    [self.summary] is the summary shown in the summary turn.  The first turn
    is never among the summarized ones. *)
Theorem window_summarizes_what_it_drops (first : message)
    (rest : list message) (st : state W) :
  exists messages' st',
    _apply_history_window env config (first :: rest) st = (Ok messages', st')
    /\ (len rest <= window config -> messages' = first :: rest /\ st' = st)
    /\ (window config < len rest ->
        exists older recent,
          rest = older ++ recent
          /\ len recent = window config
          /\ trace st' = trace st ++ [EvSummaryCreate older (summary st)]
          /\ messages'
             = repair None (first :: summary_block (summary st') :: recent)
          /\ last_elements st' = last_elements st
          /\ finished st' = finished st).
Proof.
  destruct (Z.le_gt_cases (len rest) (window config)) as [Hle | Hgt].
  - exists (first :: rest), st.
    split; [apply apply_window_short; rewrite len_cons; lia |].
    split; [done | lia].
  - destruct (apply_window_long env config first rest st Hgt)
      as (s & w' & _ & ->).
    eexists _, _. split; [reflexivity |]. split; [lia |]. intros _.
    exists (slice_to (len rest - window config) rest),
           (drop (Z.to_nat (len rest - window config)) rest).
    split; [unfold slice_to; by rewrite take_drop |].
    split; [by apply len_recent |]. by proj.
Qed.

(** An iteration that goes on leaves a conversation that still starts with
    its first turn and has at most [1 + 1 + window] turns. *)
Lemma continue_keeps_bound (iteration : Z) (first : message)
    (tl messages' : list message) (st st' : state W) :
  is_tool_result_msg first = false ->
  run_iteration env config iteration (first :: tl) st
  = (Ok (Continue, messages'), st') ->
  exists tl', messages' = first :: tl'
              /\ len messages' <= 1 + 1 + window config.
Proof.
  intros Hfirst. unfold run_iteration.
  unfold bind at 1. unfold _log, emit. unfold bind at 1. unfold ask. proj.
  destruct (messages_create env (first :: tl) (world st)) as [[response | e] w'];
    proj; [| discriminate].
  unfold bind at 1.
  destruct (process_blocks env config (resp_content response) [] _)
    as [[[fl0 | tool_results] | e] st1] eqn:Hblocks; [| | discriminate].
  - intros [= -> _ _].
    destruct (process_blocks_returns _ _ _ _ _ _ _ Hblocks); discriminate.
  - destruct tool_results as [| tr trs].
    + destruct (bool_decide _).
      * unfold bind, _log, emit, ret. discriminate.
      * unfold bind, ret. cbn [app].
        destruct (apply_window_bounded env config first
                    (tl ++ [Message (lit "assistant")
                              (CBlocks (_serialize_blocks (resp_content response)))])
                    st1 Hfirst) as (tl' & st2 & -> & Hb & _).
        intros [= <- _]. eauto.
    + unfold bind, ret. cbn [app]. rewrite <- app_assoc.
      destruct (apply_window_bounded env config first
                  (tl ++ [Message (lit "assistant")
                            (CBlocks (_serialize_blocks (resp_content response)))]
                      ++ [Message (lit "user") (CBlocks (tr :: trs))])
                  st1 Hfirst) as (tl' & st2 & -> & Hb & _).
      intros [= <- _]. eauto.
Qed.

Lemma iterations_keep_bound (k : nat) :
  forall (iteration : Z) (first : message) (tl messages : list message)
         (st st' : state W),
    is_tool_result_msg first = false ->
    len (first :: tl) <= 1 + 1 + window config ->
    iterations env config k iteration (first :: tl) st = Some (messages, st') ->
    exists tl', messages = first :: tl'
                /\ len messages <= 1 + 1 + window config.
Proof.
  induction k as [| k IH]; intros iteration first tl messages st st' Hfirst Hb.
  - intros [= <- _]. eauto.
  - cbn [iterations].
    destruct (run_iteration env config iteration (first :: tl) st)
      as [[[fl m1] | e] st1] eqn:Hit; [| discriminate].
    destruct fl; try discriminate.
    destruct (continue_keeps_bound _ _ _ _ _ _ Hfirst Hit) as (tl1 & -> & Hb1).
    by apply IH.
Qed.

(** The conversation stays bounded through the run: after any number of
    iterations that go on, it starts with the task turn and has at most
    [1 + 1 + window] turns. *)
Theorem conversation_stays_bounded (k : nat) (st0 st : state W)
    (messages : list message) :
  iterations env config k 1 [first_turn config] (started config st0)
  = Some (messages, st) ->
  exists tl, messages = first_turn config :: tl
             /\ len messages <= 1 + 1 + window config.
Proof.
  apply iterations_keep_bound; [reflexivity |].
  pose proof (window_ge_3 config). rewrite len_cons. unfold len. cbn. lia.
Qed.

End HistoryMore.

(** Three iterations of remarks: the conversation has four turns, within
    the bound of nine. *)
Lemma conversation_stays_bounded_witness :
  exists messages st tl,
    iterations (answering reply_thinking) patient 3 1 [first_turn patient]
      (started patient (initial [])) = Some (messages, st)
    /\ messages = first_turn patient :: tl
    /\ len messages <= 9.
Proof.
  assert (F : match iterations (answering reply_thinking) patient 3 1
                      [first_turn patient] (started patient (initial [])) with
              | Some _ => True
              | None => False
              end) by (vm_compute; exact I).
  destruct (iterations _ _ _ _ _ _) as [[messages st] |] eqn:Hall;
    [| destruct F].
  destruct (conversation_stays_bounded _ _ _ _ _ _ Hall) as (tl & Htl & Hb).
  exists messages, st, tl. split; [done |]. split; [done |].
  exact Hb.
Defined.

(** ** The loop over the blocks of a response *)

Lemma truncate_bound (s : str) (max_len : Z) :
  0 <= max_len -> len (_truncate_content s max_len) <= max_len + 14.
Proof.
  intros H. unfold _truncate_content.
  destruct (len s <=? max_len) eqn:E.
  - apply Z.leb_le in E. lia.
  - rewrite len_app. unfold slice_to, len at 1. rewrite length_take.
    change (len (lit "...<truncated>")) with 14. lia.
Qed.

Lemma tool_use_ids_in (id name : str) (input : dict) (blocks : list rblock) :
  In (RToolUse id name input) blocks -> tool_use_ids blocks <> [].
Proof.
  induction blocks as [| blk blocks IH]; [done |].
  intros [-> | Hin]; [done |].
  destruct blk; cbn; [by apply IH | done | by apply IH].
Qed.

Lemma results_all_answer (n : Z) (results : list block) :
  Forall (result_within n) results ->
  length (tool_result_ids results) = length results.
Proof.
  induction 1 as [| blk results Hblk _ IH]; [done |].
  destruct blk; try done. cbn. f_equal. exact IH.
Qed.

Lemma serialized_not_result (blocks : list rblock) :
  existsb is_tool_result (_serialize_blocks blocks) = false.
Proof.
  induction blocks as [| blk blocks IH]; [done |]. by destruct blk.
Qed.

Lemma serialized_has_tool_use (blocks : list rblock) :
  tool_use_ids blocks <> [] ->
  existsb is_tool_use (_serialize_blocks blocks) = true.
Proof.
  induction blocks as [| blk blocks IH]; [done |].
  destruct blk; cbn; [by apply IH | done | by apply IH].
Qed.

Section Blocks.

Context {W : Type} (env : Env W) (config : AgentConfig).

(** A loop over the blocks that ends without a [return] has answered every
    [tool_use] block, met no auto-finish phrase and no [finish_task]. *)
Lemma process_blocks_results (blocks : list rblock) :
  forall acc st results st',
    process_blocks env config blocks acc st = (Ok (inr results), st') ->
    exists new,
      results = acc ++ new
      /\ tool_result_ids new = tool_use_ids blocks
      /\ Forall (result_within 4014) new
      /\ (forall text, In (RText text) blocks ->
                       _should_auto_finish_from_text text = false)
      /\ (forall id input,
            ~ In (RToolUse id (lit "finish_task") input) blocks).
Proof.
  induction blocks as [| blk blocks IH]; intros acc st results st'.
  - intros [= <- _]. exists []. rewrite app_nil_r.
    repeat split; try done. intros id input [].
  - destruct blk as [text | id name input | ty]; cbn [process_blocks].
    + unfold bind, _print_assistant_text, _log, emit, set_summary, ret.
      cbv beta iota zeta.
      destruct (_should_auto_finish_from_text text) eqn:Ht; [discriminate |].
      intros H. destruct (IH _ _ _ _ H) as (new & -> & Hids & Hall & Htxt & Hfin).
      exists new. repeat split; try done.
      * intros t [[= <-] | Hin]; [done | by apply Htxt].
      * intros i inp [? | Hin]; [discriminate | by apply (Hfin i inp)].
    + unfold bind, _log, emit, ret. cbv beta iota zeta.
      destruct (_dispatch_tool env config name input _) as [[r | e] st2];
        [| discriminate].
      destruct (name_is name "finish_task") eqn:Hn; [discriminate |].
      intros H. destruct (IH _ _ _ _ H) as (new & -> & Hids & Hall & Htxt & Hfin).
      eexists (BToolResult id _ :: new).
      split; [by rewrite <- app_assoc |].
      split; [exact (f_equal (cons id) Hids) |].
      split; [constructor; [apply truncate_bound; lia | done] |].
      split.
      * intros t [? | Hin]; [discriminate | by apply Htxt].
      * intros i inp [[= _ -> _] | Hin]; [| by apply (Hfin i inp)].
        unfold name_is in Hn. by rewrite str_eqb_refl in Hn.
    + intros H. destruct (IH _ _ _ _ H) as (new & -> & Hids & Hall & Htxt & Hfin).
      exists new. repeat split; try done.
      * intros t [? | Hin]; [discriminate | by apply Htxt].
      * intros i inp [? | Hin]; [discriminate | by apply (Hfin i inp)].
Qed.

(** When the blocks of a response are processed without a [return], the
    tool-result turn answers every [tool_use] block of the response, once
    each and in the order of the response, by a [tool_result] block whose
    content has at most 4000 + 14 code points. *)
Theorem tool_results_answer_tool_uses (blocks : list rblock)
    (results : list block) (st st' : state W) :
  process_blocks env config blocks [] st = (Ok (inr results), st') ->
  tool_result_ids results = tool_use_ids blocks
  /\ length results = length (tool_use_ids blocks)
  /\ Forall (result_within 4014) results.
Proof.
  intros H.
  destruct (process_blocks_results _ _ _ _ _ H) as (new & -> & Hids & Hall & _).
  cbn [app]. split; [done |]. split; [| done].
  rewrite <- Hids. symmetry. by apply results_all_answer with (n := 4014).
Qed.

(** A text block with a phrase of the list ends the processing of the
    response when only text without such a phrase came before it: the blocks
    after it, tool invocations included, are not looked at.  Nothing but log
    lines is produced, [self.summary] becomes the stripped text cut at 800
    code points, and [_finished] is left as it was. *)
Theorem auto_finish_text_ends_the_response (pre rest : list rblock)
    (text : str) (acc : list block) :
  tool_use_ids pre = [] ->
  (forall t, In (RText t) pre -> _should_auto_finish_from_text t = false) ->
  _should_auto_finish_from_text text = true ->
  forall st : state W,
  exists logs st',
    process_blocks env config (pre ++ RText text :: rest) acc st
    = (Ok (inl ReturnByText), st')
    /\ trace st' = trace st ++ map EvLog logs
    /\ world st' = world st
    /\ last_elements st' = last_elements st
    /\ finished st' = finished st
    /\ summary st' = _truncate_content (strip text) 800
    /\ len (summary st') <= 814.
Proof.
  intros Hpre Hquiet Htext.
  induction pre as [| blk pre IH]; intros st.
  - cbn [app process_blocks].
    unfold bind, _print_assistant_text, _log, emit, set_summary, ret.
    cbv beta iota zeta. rewrite Htext. proj.
    eexists [_; _; _], _. split; [reflexivity |]. proj.
    split; [by rewrite <- !app_assoc |].
    repeat split. apply (truncate_bound _ 800). lia.
  - destruct blk as [t | id name input | ty]; [| done |].
    + cbn [app process_blocks].
      unfold bind at 1. unfold _print_assistant_text, _log, emit.
      cbv beta iota zeta.
      rewrite (Hquiet t) by by left.
      match goal with
      | |- context [process_blocks _ _ _ _ ?s] =>
        destruct (IH Hpre (fun t' Hin => Hquiet t' (or_intror Hin)) s)
          as (logs & st' & -> & Htr & Hw & Hels & Hfin & Hsum & Hlen)
      end.
      revert Htr. proj. intros Htr.
      eexists (_ :: logs), st'. split; [reflexivity |].
      split; [by rewrite Htr, <- app_assoc |]. by repeat split.
    + cbn [app process_blocks].
      destruct (IH Hpre (fun t' Hin => Hquiet t' (or_intror Hin)) st)
        as (logs & st' & -> & Hrest).
      by exists logs, st'.
Qed.

(** How an iteration that received a response and did not raise ends:
    it breaks out of the loop exactly when the stop reason is [end_turn],
    the response has no [tool_use] block and none of its texts holds a
    phrase of the list.  So an [end_turn] that comes with a tool call does
    not stop the run. *)
Theorem end_turn_breaks_only_without_tools (iteration : Z)
    (messages messages' : list message) (st st' : state W)
    (response : response) (w' : W) (fl : flow) :
  messages_create env messages (world st) = (Ok response, w') ->
  run_iteration env config iteration messages st = (Ok (fl, messages'), st') ->
  fl = BreakEndTurn
  <-> (stop_reason response = Some (lit "end_turn")
       /\ tool_use_ids (resp_content response) = []
       /\ forall text, In (RText text) (resp_content response) ->
                       _should_auto_finish_from_text text = false).
Proof.
  intros Hcreate. unfold run_iteration.
  unfold bind at 1. unfold _log, emit. unfold bind at 1. unfold ask. proj.
  rewrite Hcreate. proj. unfold bind at 1.
  destruct (process_blocks env config (resp_content response) [] _)
    as [[[fl0 | tool_results] | e] st1] eqn:Hblocks; [| | discriminate].
  - intros [= <- _ _]. split.
    + intros ->. destruct (process_blocks_returns _ _ _ _ _ _ _ Hblocks);
        discriminate.
    + intros (_ & Hids & Hquiet). exfalso.
      destruct (process_blocks_return_cause _ _ _ _ _ _ _ Hblocks)
        as [(_ & t & Hin & Ht) | (_ & i & inp & Hin)].
      * rewrite (Hquiet _ Hin) in Ht. discriminate.
      * by apply (tool_use_ids_in _ _ _ _ Hin).
  - destruct (process_blocks_results _ _ _ _ _ Hblocks)
      as (new & Hnew & Hids & Hall & Hquiet & _).
    cbn [app] in Hnew. subst new.
    destruct tool_results as [| tr trs].
    + destruct (bool_decide (stop_reason response = Some (lit "end_turn")))
        eqn:Hstop.
      * apply bool_decide_eq_true in Hstop.
        unfold bind, _log, emit, ret. intros [= <- _ _]. by split.
      * apply bool_decide_eq_false in Hstop. unfold bind, ret.
        destruct (_apply_history_window env config _ st1) as [[m | e] st2];
          [| discriminate].
        intros [= <- _ _]. split; [discriminate |]. by intros (? & _).
    + unfold bind, ret.
      destruct (_apply_history_window env config _ st1) as [[m | e] st2];
        [| discriminate].
      intros [= <- _ _]. split; [discriminate |].
      intros (_ & Hnone & _). rewrite <- Hids in Hnone.
      inversion Hall as [| blk l Hblk _]; subst. by destruct tr.
Qed.

End Blocks.

(** *** The loop over the blocks in scripted worlds *)

(** One [analyze_page] invocation is answered under its id. *)
Lemma tool_results_answer_tool_uses_witness :
  exists results st',
    process_blocks offline windowed (resp_content reply_analyze) [] (initial [])
    = (Ok (inr results), st')
    /\ tool_result_ids results = [lit "toolu_01"].
Proof.
  assert (F : match process_blocks offline windowed (resp_content reply_analyze)
                      [] (initial []) with
              | (Ok (inr _), _) => True
              | _ => False
              end) by (vm_compute; exact I).
  destruct (process_blocks _ _ _ _ _) as [[[fl | results] | e] st'] eqn:Hrun;
    try destruct F.
  destruct (tool_results_answer_tool_uses _ _ _ _ _ _ Hrun) as (Hids & _).
  exists results, st'. split; [done |]. exact Hids.
Defined.

(** A remark, the closing phrase, then a [finish_task] that is never
    dispatched: [_finished] stays false. *)
Lemma auto_finish_text_ends_the_response_witness :
  exists st',
    process_blocks offline windowed
      ([RText (lit "Проверяю корзину.")]
       ++ RText (lit "Задача выполнена: футболка в корзине.") :: [finish_block])
      [] (initial [])
    = (Ok (inl ReturnByText), st')
    /\ finished st' = false.
Proof.
  destruct (auto_finish_text_ends_the_response offline windowed
              [RText (lit "Проверяю корзину.")] [finish_block]
              (lit "Задача выполнена: футболка в корзине.") [])
    with (st := initial [])
    as (logs & st' & Hrun & _ & _ & _ & Hfin & _).
  - reflexivity.
  - intros t [[= <-] | []]. vm_compute. reflexivity.
  - vm_compute. reflexivity.
  - exists st'. split; [exact Hrun | exact Hfin].
Defined.

(** A closing remark with stop reason [end_turn] and no tool call breaks
    out of the loop. *)
Lemma end_turn_breaks_only_without_tools_witness :
  exists messages' st',
    run_iteration (answering reply_done) patient 1 [first_turn patient]
      (initial [])
    = (Ok (BreakEndTurn, messages'), st').
Proof.
  assert (F : match run_iteration (answering reply_done) patient 1
                      [first_turn patient] (initial []) with
              | (Ok _, _) => True
              | _ => False
              end) by (vm_compute; exact I).
  destruct (run_iteration _ _ _ _ _) as [[[fl messages'] | e] st'] eqn:Hrun;
    [| destruct F].
  exists messages', st'. do 3 f_equal.
  apply (end_turn_breaks_only_without_tools (answering reply_done) patient 1
           [first_turn patient] messages' (initial []) st' reply_done tt fl
           eq_refl Hrun).
  split; [reflexivity |]. split; [reflexivity |].
  intros t [[= <-] | []]. vm_compute. reflexivity.
Defined.

(** ** The conversation stays well paired *)

Lemma paired_snoc (l : list message) (m : message) :
  forall prev,
    paired prev l -> is_tool_result_msg m = false -> paired prev (l ++ [m]).
Proof.
  induction l as [| x l IH]; intros prev Hl Hm.
  - cbn. split; [| done]. intros H. congruence.
  - destruct Hl as [Hx Hl]. split; [done |]. by apply IH.
Qed.

Lemma paired_snoc_exchange (l : list message) (a u : message) :
  forall prev,
    paired prev l -> is_tool_result_msg a = false ->
    role a = lit "assistant" -> has_tool_use a = true ->
    paired prev (l ++ [a] ++ [u]).
Proof.
  induction l as [| x l IH]; intros prev Hl Ha Hr Hu.
  - cbn. split; [intros H; congruence |]. split; [| done]. eauto.
  - destruct Hl as [Hx Hl]. split; [done |]. by apply IH.
Qed.

Section Pairing.

Context {W : Type} (env : Env W) (config : AgentConfig).

Lemma apply_window_paired (messages messages' : list message)
    (st st' : state W) :
  paired None messages ->
  _apply_history_window env config messages st = (Ok messages', st') ->
  paired None messages'.
Proof.
  intros Hp. destruct messages as [| first rest].
  - unfold _apply_history_window.
    destruct (len [] <=? window config); by intros [= <- _].
  - destruct (Z.le_gt_cases (len rest) (window config)) as [Hle | Hgt].
    + rewrite apply_window_short by (rewrite len_cons; lia).
      by intros [= <- _].
    + destruct (apply_window_long env config first rest st Hgt)
        as (s & w' & _ & ->).
      intros H.
      assert (E : repair None
                    ([first; summary_block s]
                     ++ drop (Z.to_nat (len rest - window config)) rest)
                  = messages') by congruence.
      rewrite <- E. apply repair_paired.
Qed.

Lemma continue_keeps_paired (iteration : Z) (messages messages' : list message)
    (st st' : state W) :
  paired None messages ->
  run_iteration env config iteration messages st
  = (Ok (Continue, messages'), st') ->
  paired None messages'.
Proof.
  intros Hp. unfold run_iteration.
  unfold bind at 1. unfold _log, emit. unfold bind at 1. unfold ask. proj.
  destruct (messages_create env messages (world st)) as [[response | e] w'];
    proj; [| discriminate].
  unfold bind at 1.
  destruct (process_blocks env config (resp_content response) [] _)
    as [[[fl0 | tool_results] | e] st1] eqn:Hblocks; [| | discriminate].
  - intros [= -> _ _].
    destruct (process_blocks_returns _ _ _ _ _ _ _ Hblocks); discriminate.
  - destruct (process_blocks_results _ _ _ _ _ _ _ Hblocks)
      as (new & Hnew & Hids & Hall & _).
    cbn [app] in Hnew. subst new.
    destruct tool_results as [| tr trs].
    + destruct (bool_decide _).
      * unfold bind, _log, emit, ret. discriminate.
      * unfold bind, ret.
        destruct (_apply_history_window env config _ st1) as [[m | e] st2] eqn:Hw;
          [| discriminate].
        intros [= <- _]. eapply apply_window_paired; [| exact Hw].
        apply paired_snoc; [done |]. apply serialized_not_result.
    + unfold bind, ret.
      destruct (_apply_history_window env config _ st1) as [[m | e] st2] eqn:Hw;
        [| discriminate].
      intros [= <- _]. revert Hw. rewrite <- app_assoc. intros Hw.
      eapply apply_window_paired; [| exact Hw].
      apply paired_snoc_exchange; [done | | done |].
      * apply serialized_not_result.
      * apply serialized_has_tool_use. rewrite <- Hids.
        inversion Hall as [| blk l Hblk _]; subst. by destruct tr.
Qed.

Lemma iterations_keep_paired (k : nat) :
  forall (iteration : Z) (messages messages' : list message) (st st' : state W),
    paired None messages ->
    iterations env config k iteration messages st = Some (messages', st') ->
    paired None messages'.
Proof.
  induction k as [| k IH]; intros iteration messages messages' st st' Hp.
  - by intros [= <- _].
  - cbn [iterations].
    destruct (run_iteration env config iteration messages st)
      as [[[fl m1] | e] st1] eqn:Hit; [| discriminate].
    destruct fl; try discriminate.
    apply IH. by apply (continue_keeps_paired _ _ _ _ _ Hp Hit).
Qed.

(** The conversation stays well paired through the run: after any number of
    iterations that go on, every tool-result turn of the conversation comes
    right after an assistant turn with a [tool_use] block, whatever the
    window has pruned in between. *)
Theorem conversation_stays_paired (k : nat) (st0 st : state W)
    (messages : list message) :
  iterations env config k 1 [first_turn config] (started config st0)
  = Some (messages, st) ->
  paired None messages.
Proof.
  apply iterations_keep_paired. cbn. split; [| done]. intros H. discriminate.
Qed.

End Pairing.

(** Three iterations with one tool call each, under a window of three: the
    conversation was pruned, and is well paired. *)
Lemma conversation_stays_paired_witness :
  exists messages st,
    iterations (answering reply_analyze) windowed 3 1 [first_turn windowed]
      (started windowed (initial [])) = Some (messages, st)
    /\ len messages < 1 + 2 * 3
    /\ paired None messages.
Proof.
  assert (F : match iterations (answering reply_analyze) windowed 3 1
                      [first_turn windowed] (started windowed (initial [])) with
              | Some (messages, _) => (len messages <? 1 + 2 * 3) = true
              | None => False
              end) by (vm_compute; reflexivity).
  destruct (iterations _ _ _ _ _ _) as [[messages st] |] eqn:Hall;
    [| destruct F].
  exists messages, st. split; [done |]. split; [by apply Z.ltb_lt |].
  exact (conversation_stays_paired _ _ _ _ _ _ Hall).
Defined.

(** ** Dispatch: the operator's answer and missing arguments *)

Lemma gate_blank_label (py_repr0 : value -> str) (config : AgentConfig)
    (els : list DistilledElement) (name : str) (params : dict) :
  gate_label py_repr0 els name params = [] ->
  _is_potentially_destructive py_repr0 config els name params = false.
Proof.
  intros H. apply gate_no_keyword. rewrite H. vm_compute. reflexivity.
Qed.

(** Evaluate the comparisons of a literal name with the names of the table. *)
Ltac name_tests :=
  repeat match goal with
         | |- context [name_is (lit ?s) ?n] =>
           let b := eval vm_compute in (name_is (lit s) n) in
           replace (name_is (lit s) n) with b by (vm_compute; reflexivity)
         end.

Section Answers.

Context {W : Type} (env : Env W) (config : AgentConfig).

(** A gated action that the operator does not confirm is not executed:
    after the prompt and one line read from the console, anything but
    [y], [yes], [д], [да] (case and surrounding white space apart) gives the
    [UserCancelled] envelope with the parameters, and nothing else happens:
    no executor call, no change of [last_elements]. *)
Theorem declined_action_is_not_executed (name : str) (params : dict)
    (st : state W) (line : str) (w' : W) :
  _is_potentially_destructive (py_repr env) config (last_elements st) name
    params = true ->
  console_input env (world st) = (Ok line, w') ->
  affirmative (lower (strip line)) = false ->
  _dispatch_tool env config name params st
  = (Ok (cancelled name params),
     State w' (trace st ++ [EvPrompt name params; EvInput])
           (last_elements st) (summary st) (finished st) (printed_header st)).
Proof.
  intros Hgate Hline Hno.
  unfold _dispatch_tool, bind, get_last_elements, emit, ask, ret.
  rewrite Hgate. proj. rewrite Hline, Hno. cbn [negb].
  by rewrite <- app_assoc.
Qed.

(** A tool call that lacks the first argument its branch subscripts is not
    answered by an envelope: [_dispatch_tool] raises the [KeyError] of that
    key, before any prompt, executor call or change of state. *)
Theorem missing_argument_raises_key_error (name key : str) (params : dict)
    (st : state W) :
  In (name, key) first_required ->
  params !! key = None ->
  _dispatch_tool env config name params st
  = (Exc (Exn KeyError (lit "'" ++ key ++ lit "'")), st).
Proof.
  intros Hin Hnone.
  assert (Hgate : _is_potentially_destructive (py_repr env) config
                    (last_elements st) name params = false).
  { unfold first_required in Hin. cbn [In] in Hin.
    repeat (destruct Hin as [[= <- <-] | Hin]);
      try (by destruct Hin);
      try (apply gate_other_name; vm_compute; discriminate);
      apply gate_blank_label; unfold gate_label.
    - replace (str_eqb (lit "click_element") (lit "click_text")) with false
        by (vm_compute; reflexivity).
      rewrite str_eqb_refl. unfold dict_get. by rewrite Hnone.
    - rewrite str_eqb_refl. unfold dict_get. by rewrite Hnone. }
  unfold _dispatch_tool, bind, get_last_elements. rewrite Hgate.
  unfold first_required in Hin. cbn [In] in Hin.
  repeat (destruct Hin as [[= <- <-] | Hin]); try (by destruct Hin);
    unfold dispatch_chain; name_tests;
    unfold int_item, item, dict_item, lift_result, bind;
    by rewrite Hnone.
Qed.

End Answers.

(** The operator answers [n] to a click on the pay button. *)
Lemma declined_action_is_not_executed_witness :
  _dispatch_tool offline confirming (lit "click_element")
    (click_element_params 0) (initial [pay_button])
  = (Ok (cancelled (lit "click_element") (click_element_params 0)),
     State tt [EvPrompt (lit "click_element") (click_element_params 0); EvInput]
           [pay_button] [] false false).
Proof.
  apply (declined_action_is_not_executed offline confirming
           (lit "click_element") (click_element_params 0)
           (initial [pay_button]) (lit "n") tt);
    vm_compute; reflexivity.
Defined.

(** [navigate_url] with no [url]. *)
Lemma missing_argument_raises_key_error_witness :
  _dispatch_tool offline confirming (lit "navigate_url") ∅ (initial [])
  = (Exc (Exn KeyError (lit "'url'")), initial []).
Proof.
  apply (missing_argument_raises_key_error offline confirming
           (lit "navigate_url") (lit "url") ∅ (initial [])).
  - do 4 right. left. reflexivity.
  - apply lookup_empty.
Defined.

(** ** What is fed back for a screenshot *)


(** ** The explicit-completion heuristic: context *)

Lemma starts_with_app (p s post : str) :
  starts_with p s = true -> starts_with p (s ++ post) = true.
Proof.
  revert s. induction p as [| a p IH]; intros [| b s]; cbn; try done.
  intros H. apply andb_true_iff in H as [Hab Hrest].
  rewrite Hab. by apply IH.
Qed.

Lemma contains_app_r (needle hay post : str) :
  contains needle hay = true -> contains needle (hay ++ post) = true.
Proof.
  induction hay as [| c hay IH].
  - intros H. apply contains_nil_r in H. subst needle. by destruct post.
  - cbn [contains app]. intros H. apply orb_true_iff in H as [H | H].
    + apply orb_true_iff. left. by apply (starts_with_app _ (c :: hay)).
    + apply orb_true_iff. right. by apply IH.
Qed.

Lemma contains_app_l (needle pre hay : str) :
  contains needle hay = true -> contains needle (pre ++ hay) = true.
Proof.
  intros H. induction pre as [| c pre IH]; [done |].
  cbn [app contains]. rewrite IH. apply orb_true_r.
Qed.

(** Once a text holds a phrase of the list, nothing written before or after
    it takes the finish back: the heuristic answers true on every text that
    contains one on which it answers true. *)
Theorem auto_finish_survives_context (pre text post : str) :
  _should_auto_finish_from_text text = true ->
  _should_auto_finish_from_text (pre ++ text ++ post) = true.
Proof.
  intros H. apply auto_finish_iff in H as (m & Hin & Hc).
  apply auto_finish_iff. exists m. split; [done |].
  unfold lower. rewrite !map_app.
  by apply contains_app_l, contains_app_r.
Qed.

(** A negation in front and a reservation behind. *)
Lemma auto_finish_survives_context_witness :
  _should_auto_finish_from_text
    (lit "Неверно, что " ++ lit "задача решена" ++ lit ", нужно ещё оплатить")
  = true.
Proof.
  apply (auto_finish_survives_context (lit "Неверно, что ")
           (lit "задача решена") (lit ", нужно ещё оплатить")).
  vm_compute. reflexivity.
Defined.

(** ** [search_elements] *)

Lemma search_loop_take (q : str) (max_results : Z)
    (els : list DistilledElement) :
  forall matches,
    len matches < max_results ->
    search_loop q max_results els matches
    = matches
      ++ take (Z.to_nat max_results - length matches)
           (List.filter (fun el => contains q (search_haystack el)) els).
Proof.
  induction els as [| el rest IH]; intros matches Hlt.
  - cbn. by rewrite take_nil, app_nil_r.
  - cbn [search_loop List.filter]. unfold len in Hlt.
    destruct (contains q (search_haystack el)).
    + destruct (Z.to_nat max_results - length matches)%nat as [| k] eqn:Hk;
        [lia |].
      cbn [take].
      destruct (max_results <=? len (matches ++ [el])) eqn:Hcap.
      * apply Z.leb_le in Hcap. unfold len in Hcap.
        rewrite length_app in Hcap. cbn [length] in Hcap.
        replace k with 0%nat by lia. by rewrite take_0.
      * apply Z.leb_gt in Hcap.
        rewrite IH by done. rewrite <- app_assoc. cbn [app]. do 2 f_equal.
        rewrite length_app. cbn [length]. f_equal. lia.
    + rewrite (proj2 (Z.leb_gt _ _)) by (unfold len; lia). by apply IH.
Qed.

Lemma search_loop_first (q : str) (max_results : Z)
    (els : list DistilledElement) :
  max_results <= 0 ->
  search_loop q max_results els []
  = List.filter (fun el => contains q (search_haystack el)) (take 1 els).
Proof.
  intros Hle. destruct els as [| el rest]; [done |].
  cbn [search_loop take List.filter].
  destruct (contains q (search_haystack el)); cbn [app].
  - rewrite (proj2 (Z.leb_le _ _)); [done | unfold len; cbn; lia].
  - rewrite (proj2 (Z.leb_le _ _)); [done | unfold len; cbn; lia].
Qed.

Section SearchFacts.

Context {W : Type} (env : Env W).

(** With elements at hand and a positive [max_results], [search_elements]
    answers from [last_elements] alone: it returns, in the order of the
    distillation, the first [max_results] elements whose text, placeholder,
    label or link contains the query (case apart), and it touches neither
    the page nor the state. *)
Theorem search_finds_first_matches (query : str) (max_results : Z)
    (st : state W) :
  last_elements st <> [] ->
  0 < max_results ->
  search_elements env (VStr query) max_results st
  = (Ok (search_result query
           (take (Z.to_nat max_results)
              (List.filter (search_hit query) (last_elements st)))),
     st).
Proof.
  intros Hne Hpos. unfold search_elements, bind, get_last_elements, ret.
  destruct (last_elements st) as [| el rest] eqn:Hels; [done |].
  rewrite Hels, search_loop_take by (unfold len; cbn; lia).
  cbn [app length]. by rewrite Nat.sub_0_r.
Qed.

(** With a [max_results] of zero or less the loop still looks at one
    element: the result is the first element of [last_elements] when it
    matches, and no element otherwise, whatever the other elements are. *)
Theorem search_with_no_room_tests_one_element (query : str)
    (max_results : Z) (st : state W) :
  last_elements st <> [] ->
  max_results <= 0 ->
  search_elements env (VStr query) max_results st
  = (Ok (search_result query
           (List.filter (search_hit query) (take 1 (last_elements st)))),
     st).
Proof.
  intros Hne Hle. unfold search_elements, bind, get_last_elements, ret.
  destruct (last_elements st) as [| el rest] eqn:Hels; [done |].
  by rewrite Hels, search_loop_first.
Qed.

End SearchFacts.

(** Two buttons and a link; the query ["ОПЛАТ"] finds the pay button. *)
Lemma search_finds_first_matches_witness :
  search_elements offline (VStr (lit "ОПЛАТ")) 5
    (initial [blank_element; pay_button; cart_link])
  = (Ok (search_result (lit "ОПЛАТ") [pay_button]),
     initial [blank_element; pay_button; cart_link]).
Proof.
  rewrite (search_finds_first_matches offline (lit "ОПЛАТ") 5
             (initial [blank_element; pay_button; cart_link]));
    [| discriminate | lia].
  cbn [last_elements initial].
  replace (List.filter (search_hit (lit "ОПЛАТ"))
             [blank_element; pay_button; cart_link])
    with [pay_button] by (vm_compute; reflexivity).
  reflexivity.
Defined.

(** With [max_results = 0] the pay button, second in the list, is not
    found. *)
Lemma search_with_no_room_tests_one_element_witness :
  search_elements offline (VStr (lit "ОПЛАТ")) 0
    (initial [blank_element; pay_button; cart_link])
  = (Ok (search_result (lit "ОПЛАТ") []),
     initial [blank_element; pay_button; cart_link]).
Proof.
  rewrite (search_with_no_room_tests_one_element offline (lit "ОПЛАТ") 0
             (initial [blank_element; pay_button; cart_link]));
    [| discriminate | lia].
  cbn [last_elements initial take].
  replace (List.filter (search_hit (lit "ОПЛАТ")) [blank_element])
    with (@nil DistilledElement) by (vm_compute; reflexivity).
  reflexivity.
Defined.

(** ** [_format_params] *)

Lemma py_slice_to_len {A} (n : Z) (l : list A) :
  0 <= n -> len (py_slice_to n l) <= n.
Proof.
  intros H. unfold py_slice_to. rewrite (proj2 (Z.leb_le 0 n)) by done.
  unfold len. rewrite length_take. lia.
Qed.

(** The parameter line of a tool call never exceeds [max_len] code points,
    for any [max_len] of at least one, whatever [repr] gives. *)
Theorem format_params_fits (repr : value -> str)
    (items : list (str * value)) (max_len : Z) :
  1 <= max_len ->
  len (_format_params repr items max_len) <= max_len.
Proof.
  intros H. unfold _format_params.
  destruct (max_len <? len _) eqn:E.
  - rewrite len_app. pose proof (py_slice_to_len (max_len - 1)
      (join (lit ", ") (map (format_param repr) items))).
    change (len (lit "…")) with 1. lia.
  - by apply Z.ltb_ge in E.
Qed.

(** Two long values, in a line of at most sixty code points. *)
Lemma format_params_fits_witness :
  len (_format_params (fun _ => repeat 97%N 200)
         [(lit "url", VNone); (lit "text", VNone)] 60)
  <= 60.
Proof. apply format_params_fits. lia. Defined.

(** ** [click_and_type] *)

Section Typing.

Context {W : Type} (env : Env W) (drv : Driver W).

(** How [click_and_type] composes its two steps.  When the click does not
    succeed, its envelope is returned as it is (its action is still
    [click_element]) and nothing is typed.  When it succeeds, the text is
    typed in the state the click left, so into the element that has this id
    after any re-distillation the click made; the result succeeds exactly
    when the typing does, carries both envelopes, and copies the error
    fields of the typing when it failed. *)
Theorem click_and_type_composes (element_id : Z) (text press_enter : value)
    (st st1 : state W) (click_res : dict) :
  click_element env element_id st = (Ok click_res, st1) ->
  (truthy (dict_get click_res (lit "success")) = false ->
   click_and_type env drv element_id text press_enter st = (Ok click_res, st1))
  /\ (truthy (dict_get click_res (lit "success")) = true ->
      forall type_res st2,
        type_text env drv element_id text press_enter st1 = (Ok type_res, st2) ->
        exists r,
          click_and_type env drv element_id text press_enter st = (Ok r, st2)
          /\ r !! lit "action" = Some (VStr (lit "click_and_type"))
          /\ r !! lit "success" = Some (dict_get type_res (lit "success"))
          /\ r !! lit "data"
             = Some (VDict (<[lit "click" := VDict click_res]>
                           (<[lit "type" := VDict type_res]> ∅)))
          /\ r !! lit "error_type"
             = Some (if truthy (dict_get type_res (lit "success")) then VNone
                     else dict_get type_res (lit "error_type"))).
Proof.
  intros Hclick. split.
  - intros Hno. unfold click_and_type. unfold bind at 1.
    by rewrite Hclick, Hno.
  - intros Hok type_res st2 Htype.
    unfold click_and_type. unfold bind at 1. rewrite Hclick, Hok. cbn [negb].
    unfold bind, ret. rewrite Htype. unfold py_and. rewrite Hok.
    eexists. split; [reflexivity |]. unfold envelope.
    split; [dict_lookup |]. split; [dict_lookup |]. split; [dict_lookup |].
    destruct (truthy (dict_get type_res (lit "success"))); cbn [negb];
      dict_lookup.
Qed.

End Typing.

(** A click on the pay button, then typing into it. *)
Lemma click_and_type_composes_witness :
  exists r st',
    click_and_type offline (quiet_driver []) 0 (VStr (lit "M")) (VBool true)
      (initial [pay_button]) = (Ok r, st')
    /\ r !! lit "success" = Some (VBool true).
Proof.
  assert (F : match click_element offline 0 (initial [pay_button]) with
              | (Ok click_res, st1) =>
                truthy (dict_get click_res (lit "success")) = true
                /\ match type_text offline (quiet_driver []) 0 (VStr (lit "M"))
                           (VBool true) st1 with
                   | (Ok type_res, _) =>
                     dict_get type_res (lit "success") = VBool true
                   | _ => False
                   end
              | _ => False
              end) by (vm_compute; split; reflexivity).
  destruct (click_element offline 0 (initial [pay_button]))
    as [[click_res | e] st1] eqn:Hclick; [| destruct F].
  destruct F as (Hok & F).
  destruct (type_text offline (quiet_driver []) 0 (VStr (lit "M")) (VBool true)
              st1) as [[type_res | e] st2] eqn:Htype; [| destruct F].
  destruct (click_and_type_composes offline (quiet_driver []) 0
              (VStr (lit "M")) (VBool true) _ _ _ Hclick) as (_ & Hthen).
  destruct (Hthen Hok _ _ Htype) as (r & Hrun & _ & Hsucc & _).
  exists r, st2. split; [exact Hrun |]. by rewrite Hsucc, F.
Defined.

(** ** [navigate_url] *)

Lemma lstrip_clean (s : str) : clean (lstrip s).
Proof.
  induction s as [| c s IH]; [done |]. cbn [lstrip].
  by destruct (is_space c) eqn:Hc.
Qed.

Lemma clean_lstrip (s : str) : clean s -> lstrip s = s.
Proof. destruct s as [| c s]; [done |]. cbn. by intros ->. Qed.

Lemma lstrip_suffix (s : str) : exists sp, s = sp ++ lstrip s.
Proof.
  induction s as [| c s (sp & IH)]; [by exists [] |]. cbn [lstrip].
  destruct (is_space c); [| by exists []].
  exists (c :: sp). cbn. by rewrite <- IH.
Qed.

Lemma clean_app (s t : str) : s <> [] -> clean s -> clean (s ++ t).
Proof. by destruct s. Qed.

Lemma strip_clean (s : str) : clean (strip s) /\ clean (rev (strip s)).
Proof.
  unfold strip. rewrite rev_involutive. split; [| apply lstrip_clean].
  destruct (lstrip_suffix (rev (lstrip s))) as (sp & Hsp).
  pose proof (lstrip_clean s) as Hu.
  apply (f_equal (@rev N)) in Hsp. rewrite rev_involutive, rev_app_distr in Hsp.
  rewrite Hsp in Hu.
  destruct (rev (lstrip (rev (lstrip s)))) as [| c t]; [done |]. exact Hu.
Qed.

Lemma clean_strip (t : str) : clean t -> clean (rev t) -> strip t = t.
Proof.
  intros H1 H2. unfold strip.
  by rewrite (clean_lstrip t), (clean_lstrip (rev t)), rev_involutive.
Qed.

Lemma starts_with_self_app (p t : str) : starts_with p (p ++ t) = true.
Proof.
  induction p as [| c p IH]; [done |]. cbn. by rewrite N.eqb_refl.
Qed.

Lemma scheme_strip (t : str) :
  clean t -> clean (rev t) ->
  strip (lit "https://" ++ t) = lit "https://" ++ t.
Proof.
  intros H1 H2. apply clean_strip.
  - apply clean_app; [| reflexivity]. vm_compute. discriminate.
  - rewrite rev_app_distr. destruct t as [| c t]; [reflexivity |].
    apply clean_app; [| done].
    intros H. apply (f_equal (@length N)) in H.
    rewrite length_rev in H. discriminate.
Qed.

(** The address [navigate_url] goes to always starts with [http://] or
    [https://], and it is a normal form: given back to [navigate_url], it is
    gone to as it is. *)
Theorem navigate_target_has_a_scheme (url : str) :
  (starts_with (lit "http://") (navigate_target url)
   || starts_with (lit "https://") (navigate_target url)) = true
  /\ navigate_target (navigate_target url) = navigate_target url.
Proof.
  destruct (strip_clean url) as [H1 H2].
  destruct (starts_with (lit "http://") (strip url)
            || starts_with (lit "https://") (strip url)) eqn:Hs.
  - assert (E : navigate_target url = strip url)
      by (unfold navigate_target; by rewrite Hs).
    rewrite E. split; [done |]. unfold navigate_target.
    rewrite (clean_strip (strip url)) by done. by rewrite Hs.
  - assert (E : navigate_target url = lit "https://" ++ strip url)
      by (unfold navigate_target; by rewrite Hs).
    assert (Hp : starts_with (lit "http://") (lit "https://" ++ strip url)
                 || starts_with (lit "https://") (lit "https://" ++ strip url)
                 = true)
      by (rewrite starts_with_self_app; apply orb_true_r).
    rewrite E. split; [done |]. unfold navigate_target.
    rewrite scheme_strip by done. by rewrite Hp.
Qed.

Section Navigation.

Context {W : Type} (env : Env W) (drv : Driver W).

(** For a string [navigate_url] raises nothing, whatever the driver does,
    and succeeds only after going to the normalized address; for anything
    else ([null], a number, a list) it raises the [AttributeError] of
    [url.strip], before touching the page. *)
Theorem navigate_url_raises_only_on_non_strings (url : value) (st : state W) :
  match url with
  | VStr url_s =>
    exists r st',
      navigate_url env drv url st = (Ok r, st')
      /\ (dict_get r (lit "success") = VBool true ->
          exists w', drv_goto drv (navigate_target url_s) (world st)
                     = (Ok tt, w'))
  | _ => navigate_url env drv url st = (Exc (attribute_error url "strip"), st)
  end.
Proof.
  destruct url as [| b | z | q | url_s | l | d]; try reflexivity.
  unfold navigate_url, try_catch, bind, the_page, call, _sync_active_page,
    page_url, ask, ret.
  assert (Hfail : forall action message et e sg,
             dict_get (_result false action message et e sg None) (lit "success")
             <> VBool true).
  { intros. unfold dict_get, _result. by rewrite lookup_insert_eq. }
  destruct (drv_page env (world st)) as [[] | e0];
    [| destruct (decide _); eexists _, _;
       (split; [reflexivity | intros H; by apply Hfail in H])].
  destruct (drv_goto drv (navigate_target url_s) (world st)) as [[[] | e1] w1];
    proj;
    [| destruct (decide _); eexists _, _;
       (split; [reflexivity | intros H; by apply Hfail in H])].
  destruct (drv_sync env w1) as [[[] | e2] w2]; proj;
    [| destruct (decide _); eexists _, _;
       (split; [reflexivity | intros H; by apply Hfail in H])].
  destruct (drv_url env w2) as [[now | e3] w3]; proj;
    [| destruct (decide _); eexists _, _;
       (split; [reflexivity | intros H; by apply Hfail in H])].
  eexists _, _. split; [reflexivity |]. intros _. by exists w1.
Qed.

End Navigation.

(** ** [scroll_page] *)

Section Scrolling.

Context {W : Type} (env : Env W) (drv : Driver W).

(** [scroll_page] raises nothing.  It succeeds only after the wheel was
    turned by [dy], whose magnitude is that of [amount] whatever the sign of
    [amount], and which points down only for the direction ["down"]: any
    other direction, ["up"] or not, scrolls up.  The amount reported is the
    magnitude. *)
Theorem scroll_page_turns_down_only_on_down (direction : value) (amount : Z)
    (st : state W) :
  exists r st',
    scroll_page env drv direction amount st = (Ok r, st')
    /\ (dict_get r (lit "success") = VBool true ->
        (exists w', drv_wheel drv 0 (scroll_dy direction amount) (world st)
                    = (Ok tt, w'))
        /\ exists data, r !! lit "data" = Some (VDict data)
                        /\ data !! lit "amount" = Some (VInt (Z.abs amount)))
    /\ Z.abs (scroll_dy direction amount) = Z.abs amount
    /\ (0 < scroll_dy direction amount -> direction = VStr (lit "down")).
Proof.
  assert (Hdy : Z.abs (scroll_dy direction amount) = Z.abs amount
                /\ (0 < scroll_dy direction amount ->
                    direction = VStr (lit "down"))).
  { unfold scroll_dy, value_is_str. split.
    - destruct direction; try destruct (str_eqb _ _); lia.
    - destruct direction as [| | | | s | |]; try lia.
      destruct (str_eqb s (lit "down")) eqn:Hs; [| lia].
      apply str_eqb_true in Hs. by subst. }
  unfold scroll_page, try_catch, bind, the_page, call, emit, ret.
  assert (Hfail : forall action message et e sg,
             dict_get (_result false action message et e sg None) (lit "success")
             <> VBool true).
  { intros. unfold dict_get, _result. by rewrite lookup_insert_eq. }
  destruct (drv_page env (world st)) as [[] | e0];
    [| eexists _, _; split; [reflexivity |];
       split; [intros H; by apply Hfail in H | exact Hdy]].
  destruct (drv_wheel drv 0 (scroll_dy direction amount) (world st))
    as [[[] | e1] w1]; proj;
    [| eexists _, _; split; [reflexivity |];
       split; [intros H; by apply Hfail in H | exact Hdy]].
  eexists _, _. split; [reflexivity |]. split; [| exact Hdy].
  intros _. split; [by exists w1 |].
  eexists. split; [unfold _result, opt_dict; dict_lookup | dict_lookup].
Qed.

End Scrolling.

(** ** [extract_text] *)

Lemma py_slice_to_prefix {A} (n : Z) (l : list A) :
  exists rest, l = py_slice_to n l ++ rest.
Proof.
  unfold py_slice_to. destruct (0 <=? n); eexists; by rewrite take_drop.
Qed.

Lemma py_slice_to_whole {A} (n : Z) (l : list A) :
  (n <? len l) = false -> py_slice_to n l = l.
Proof.
  intros H. apply Z.ltb_ge in H. pose proof (len_nonneg l).
  unfold py_slice_to. rewrite (proj2 (Z.leb_le 0 n)) by lia.
  apply take_ge. unfold len in H. lia.
Qed.

Lemma py_slice_to_negative {A} (n : Z) (l : list A) :
  n < 0 -> len (py_slice_to n l) = Z.max 0 (len l + n).
Proof.
  intros H. unfold py_slice_to. rewrite (proj2 (Z.leb_gt 0 n)) by done.
  unfold len. rewrite length_take. lia.
Qed.

Section Extraction.

Context {W : Type} (env : Env W) (drv : Driver W).

(** What a successful [extract_text] reports, [full] being the text of the
    page (of all matches, joined): [text] is a prefix of [full], the whole
    of it when [truncated] is false, and of at most [max_chars] code points
    for [max_chars >= 0].  For a negative [max_chars] the last [-max_chars]
    code points are cut off and [truncated] is true even when nothing is
    left to cut. *)
Theorem extract_text_truncation (selector : value) (all_matches : bool)
    (max_chars : Z) (st st' : state W) (r : dict) :
  extract_text env drv selector all_matches max_chars st = (Ok r, st') ->
  dict_get r (lit "success") = VBool true ->
  exists full data,
    (if all_matches
     then exists texts w',
            drv_all_inner_texts drv selector (world st) = (Ok texts, w')
            /\ full = join (nl ++ nl ++ lit "---" ++ nl ++ nl) texts
     else exists w', drv_inner_text drv selector (world st) = (Ok full, w'))
    /\ r !! lit "data" = Some (VDict data)
    /\ data !! lit "text" = Some (VStr (py_slice_to max_chars full))
    /\ data !! lit "truncated" = Some (VBool (max_chars <? len full))
    /\ (exists rest, full = py_slice_to max_chars full ++ rest)
    /\ ((max_chars <? len full) = false -> py_slice_to max_chars full = full)
    /\ (0 <= max_chars -> len (py_slice_to max_chars full) <= max_chars)
    /\ (max_chars < 0 ->
        (max_chars <? len full) = true
        /\ len (py_slice_to max_chars full) = Z.max 0 (len full + max_chars)).
Proof.
  assert (Hfail : forall action message et e sg,
             dict_get (_result false action message et e sg None) (lit "success")
             <> VBool true).
  { intros. unfold dict_get, _result. by rewrite lookup_insert_eq. }
  assert (Hfacts : forall full : str,
             (exists rest, full = py_slice_to max_chars full ++ rest)
             /\ ((max_chars <? len full) = false ->
                 py_slice_to max_chars full = full)
             /\ (0 <= max_chars -> len (py_slice_to max_chars full) <= max_chars)
             /\ (max_chars < 0 ->
                 (max_chars <? len full) = true
                 /\ len (py_slice_to max_chars full)
                    = Z.max 0 (len full + max_chars))).
  { intros full. split; [apply py_slice_to_prefix |].
    split; [apply py_slice_to_whole |]. split; [apply py_slice_to_len |].
    intros Hneg. split; [| by apply py_slice_to_negative].
    apply Z.ltb_lt. pose proof (len_nonneg full). lia. }
  unfold extract_text, try_catch, bind, the_page, call, ret.
  destruct (drv_page env (world st)) as [[] | e0];
    [| destruct (decide _); intros [= <- _] H; by apply Hfail in H].
  destruct all_matches.
  - destruct (drv_all_inner_texts drv selector (world st))
      as [[texts | e1] w1] eqn:Hdrv; proj;
      [| destruct (decide _); intros [= <- _] H; by apply Hfail in H].
    intros [= <- _] _. eexists _, _. split; [by exists texts, w1 |].
    split; [unfold extracted, _result, opt_dict; dict_lookup |].
    split; [dict_lookup |]. split; [dict_lookup |]. apply Hfacts.
  - destruct (drv_inner_text drv selector (world st))
      as [[text | e1] w1] eqn:Hdrv; proj;
      [| destruct (decide _); intros [= <- _] H; by apply Hfail in H].
    intros [= <- _] _. exists text. eexists. split; [by exists w1 |].
    split; [unfold extracted, _result, opt_dict; dict_lookup |].
    split; [dict_lookup |]. split; [dict_lookup |]. apply Hfacts.
Qed.

End Extraction.

(** Ten characters, of which four are asked for. *)
Lemma extract_text_truncation_witness :
  exists r st' data,
    extract_text offline (quiet_driver (lit "0123456789")) (VStr (lit "h1"))
      false 4 (initial []) = (Ok r, st')
    /\ r !! lit "data" = Some (VDict data)
    /\ data !! lit "text" = Some (VStr (lit "0123"))
    /\ data !! lit "truncated" = Some (VBool true).
Proof.
  assert (F : match extract_text offline (quiet_driver (lit "0123456789"))
                      (VStr (lit "h1")) false 4 (initial []) with
              | (Ok r, _) => dict_get r (lit "success") = VBool true
              | _ => False
              end) by (vm_compute; reflexivity).
  destruct (extract_text _ _ _ _ _ _) as [[r | e] st'] eqn:Hrun; [| destruct F].
  destruct (extract_text_truncation _ _ _ _ _ _ _ _ Hrun F)
    as (full & data & (w' & Hfull) & Hdata & Htext & Htrunc & _).
  injection Hfull as <- _.
  exists r, st', data. split; [done |]. split; [done |]. by split.
Defined.

(** ** [wait_for_element] *)

Section Waiting.

Context {W : Type} (env : Env W) (drv : Driver W).

(** [wait_for_element] catches time-outs only: when the wait raises, a
    time-out comes back as a [Timeout] envelope, and any other exception
    (a closed page, a bad argument) leaves the method as it is, instead of
    coming back as an envelope. *)
Theorem wait_for_element_catches_only_timeouts (query : value) (timeout : Q)
    (st : state W) (exc : exn) (w' : W) :
  drv_page env (world st) = Ok tt ->
  drv_wait_for drv query (timeout * 1000)%Q (world st) = (Exc exc, w') ->
  let st' := State w' (trace st) (last_elements st) (summary st) (finished st)
               (printed_header st) in
  if decide (exn_kind_of exc = PlaywrightTimeout)
  then exists r, wait_for_element env drv query timeout st = (Ok r, st')
                 /\ r !! lit "success" = Some (VBool false)
                 /\ r !! lit "error_type" = Some (VStr (lit "Timeout"))
                 /\ r !! lit "error" = Some (VStr (exn_str exc))
  else wait_for_element env drv query timeout st = (Exc exc, st').
Proof.
  intros Hpage Hwait st'.
  unfold wait_for_element, try_catch_timeout, try_catch, bind, the_page, call,
    ret, raise.
  rewrite Hpage, Hwait. proj.
  destruct (decide (exn_kind_of exc = PlaywrightTimeout)); [| reflexivity].
  eexists. split; [reflexivity |]. unfold _result, opt_value.
  split; [dict_lookup |]. split; dict_lookup.
Qed.

End Waiting.

(** A closed page makes [wait_for_element] raise. *)
Lemma wait_for_element_catches_only_timeouts_witness :
  wait_for_element offline (failing_driver target_closed)
    (VStr (lit "Cart")) 5 (initial [])
  = (Exc target_closed, initial []).
Proof.
  exact (wait_for_element_catches_only_timeouts offline
           (failing_driver target_closed) (VStr (lit "Cart")) 5 (initial [])
           target_closed tt eq_refl eq_refl).
Defined.
